(** * Offline installation of Mushaf font/layout packs

    A shallow embedding of [src/services/DownloadManager.ts] (class
    [DownloadManager]) together with the parts of [src/types/index.ts] and
    [src/database/schema.ts] it relies on, and the properties of the
    installation pipeline proved about it.

    Conventions of the embedding:
    - a JavaScript [number] that is only ever an integer (identifiers, page
      numbers, row counts, HTTP status codes, clock readings in milliseconds)
      is a [Z].  The fraction a transfer reports, the byte counts, the speed
      and the remaining time of the progress record are binary64 numbers
      ([float]), computed with the operations of the code, [NaN] and the
      infinities included.  The percentage of the progress record is an
      exact rational [Q]: it is computed from the exact value of the
      fraction, without the rounding of the product and the sum that give
      it, and a fraction that is not finite has no percentage (it counts
      as 0);
    - an [async] method is a computation in the monad [M]: it threads the
      state of the device (files, key-value store, catalog table, the
      progress object and the log of observable events) and either returns
      or throws an [Error];
    - the progress callback the caller passes is known by what it does when
      it is invoked: it returns or it throws;
    - the platform (expo-file-system, expo-sqlite, AsyncStorage, the zip
      library, the HTTP transfer and the clock) is described by an
      environment [Env] that fixes what each transfer delivers and which
      platform call fails. *)

From Stdlib Require Import Floats.
#[local] Set Warnings "-inexact-float".
From Stdlib Require Import QArith Qround Lqa Lia ZArith Ascii String List Sorting.Sorted.
From stdpp Require Import base option list sorting gmap strings pretty.

Open Scope string_scope.
Open Scope Z_scope.
Open Scope list_scope.

(** ** JavaScript values *)

(** [Math.round]: the nearest integer, halves rounded towards +infinity. *)
Module Math.
Definition round (x : Q) : Q := inject_Z (Qfloor (x + (1 # 2))).
End Math.

(** Binary64 numbers. *)
Module Double.
  (** The number an integer is written as: the nearest one. *)
Definition of_Z (n : Z) : float := SF2Prim (binary_normalize prec emax n 0 false).

(** The exact value of a finite number; 0 stands for the value of one
    that is not finite. *)
Definition exact (x : float) : Q :=
  match Prim2SF x with
  | S754_finite s m e =>
      let n := if s then Z.neg m else Z.pos m in
      Qred (if 0 <=? e then inject_Z (n * 2 ^ e) else Qmake n (Z.to_pos (2 ^ (- e))))
  | _ => 0%Q
  end.

(** [Math.round] on binary64 numbers: the nearest integer, halves
    rounded towards +infinity; the sign of a zero result is the sign of
    the argument, and [NaN] and the infinities are returned as they
    are. *)
Definition round (x : float) : float :=
  match Prim2SF x with
  | S754_finite s m e =>
      let n := Qfloor (exact x + (1 # 2)) in
      if n =? 0 then (if s then (-0)%float else 0%float) else of_Z n
  | _ => x
  end.
End Double.

(** [s.endsWith(suffix)] *)
Definition endsWith (s suffix : string) : bool :=
  String.prefix (String.rev suffix) (String.rev s).

(** A thrown [Error]: only its [message] is ever read. *)
Record Error : Type := mkError { message : string }.

(** ** src/types/index.ts *)

Inductive MushafCode : Type :=
  qpc_v1 | qpc_v2 | indopak_15 | digitalkhatt | warsh.

Inductive Narration : Type := Hafs | Warsh.

Module DownloadUrls.
Record t : Type := mk {
  fonts_zip : string;
  database_sqlite : string;
  common_fonts_zip : string;
}.
End DownloadUrls.

Module Mushaf.
Record t : Type := mk {
  id : Z;
  name : string;
  code : MushafCode;
  description : string;
  pages_count : Z;
  lines_per_page : Z;
  size_mb : float;
  narration : Narration;
  features : list string;
  download_urls : DownloadUrls.t;
  preview_images : list string;
  checksum_sha256 : string;
  is_installed : bool;
  installed_at : option string;
  local_path : option string;
}.
End Mushaf.

Module PageLine.
  (** A row of the [page_lines] table of a layout database; only
      [page_number] is read by the installation pipeline. *)
Record t : Type := mk {
  page_number : Z;
  line_number : Z;
}.
End PageLine.

Inductive Status : Type :=
  | initializing | downloading | extracting | verifying
  | completed | failed | paused | cancelled.

#[global] Instance Status_eq_dec : EqDecision Status.
Proof. solve_decision. Defined.

Module DownloadProgress.
Record t : Type := mk {
  mushaf_id : Z;
  status : Status;
  progress : Q;
  downloaded_bytes : float;
  total_bytes : float;
  speed_mbps : float;
  eta_seconds : float;
  current_step : string;
  error : option string;
}.

(** Assignments to the fields of the (mutable) progress object. *)
Definition set_status (v : Status) (p : t) : t :=
  mk (mushaf_id p) v (progress p) (downloaded_bytes p) (total_bytes p)
     (speed_mbps p) (eta_seconds p) (current_step p) (error p).
Definition set_progress (v : Q) (p : t) : t :=
  mk (mushaf_id p) (status p) v (downloaded_bytes p) (total_bytes p)
     (speed_mbps p) (eta_seconds p) (current_step p) (error p).
Definition set_downloaded_bytes (v : float) (p : t) : t :=
  mk (mushaf_id p) (status p) (progress p) v (total_bytes p)
     (speed_mbps p) (eta_seconds p) (current_step p) (error p).
Definition set_speed_mbps (v : float) (p : t) : t :=
  mk (mushaf_id p) (status p) (progress p) (downloaded_bytes p) (total_bytes p)
     v (eta_seconds p) (current_step p) (error p).
Definition set_eta_seconds (v : float) (p : t) : t :=
  mk (mushaf_id p) (status p) (progress p) (downloaded_bytes p) (total_bytes p)
     (speed_mbps p) v (current_step p) (error p).
Definition set_current_step (v : string) (p : t) : t :=
  mk (mushaf_id p) (status p) (progress p) (downloaded_bytes p) (total_bytes p)
     (speed_mbps p) (eta_seconds p) v (error p).
Definition set_error (v : string) (p : t) : t :=
  mk (mushaf_id p) (status p) (progress p) (downloaded_bytes p) (total_bytes p)
     (speed_mbps p) (eta_seconds p) (current_step p) (Some v).
End DownloadProgress.

(** ** src/database/schema.ts: the catalog table

    [installed_mushafs] has [id INTEGER PRIMARY KEY]: the table is a finite
    map from identifiers to the remaining columns. *)
Module InstalledMushaf.
Record t : Type := mk {
  name : string;
  code : MushafCode;
  pages_count : Z;
  lines_per_page : Z;
  local_path : string;
  installed_at : string;
}.
End InstalledMushaf.

Definition DB_NAME : string := "mushaf_library.db".

(** ** The device and the platform *)

(** What a path of the file system of the application holds.  The content
    of a font file is never inspected; a zip archive is known by the names
    of its entries, a layout database by the rows of its [page_lines]
    table. *)
Inductive FileContent : Type :=
  | Directory
  | Blob
  | SqliteDatabase (page_lines : list PageLine.t)
  | ZipArchive (entries : list string).

(** The SQL statements the download manager prepares. *)
Inductive Statement : Type :=
  | CountPageLines (page : Z)
      (* SELECT COUNT( * ) as count FROM page_lines WHERE page_number = ? *)
  | InsertInstalledMushaf (id : Z) (row : InstalledMushaf.t)
      (* INSERT INTO installed_mushafs (id, name, ...) VALUES (?, ...) *)
  | DeleteInstalledMushaf (id : Z).
      (* DELETE FROM installed_mushafs WHERE id = ? *)

(** The platform calls, as they appear in the log of a run. *)
Inductive Op : Type :=
  | MakeDirectory (path : string)
  | Delete (path : string)
  | GetInfo (path : string)
  | ReadDirectory (path : string)
  | Download (url filePath : string)
  | Unzip (source target : string)
  | OpenDatabase (databaseName : string)
  | GetFirst (databaseName : string) (statement : Statement)
  | Run (databaseName : string) (statement : Statement)
  | SetItem (key value : string)
  | RemoveItem (key : string)
  | GetItem (key : string).

(** What an observer of a run sees, in order: the platform calls and the
    invocations of the caller's progress callback, each with the progress
    object as it is at the moment of the invocation. *)
Inductive Event : Type :=
  | Called (op : Op)
  | Notified (snapshot : DownloadProgress.t).

(** One progress tick of a transfer (expo's [DownloadProgressData]). *)
Module DownloadProgressData.
Record t : Type := mk {
  totalBytesWritten : Z;
  totalBytesExpectedToWrite : Z;
}.
End DownloadProgressData.

(** The value [downloadAsync] resolves to, when it is not [undefined]. *)
Module DownloadResult.
Record t : Type := mk { status : Z }.
End DownloadResult.

(** The outcome of an awaited call. *)
Inductive Completion (A : Type) : Type :=
  | Returned (a : A)
  | Thrown (e : Error).
Arguments Returned {A} a.
Arguments Thrown {A} e.

(** What the remote end does for one transfer: the ticks it reports, in
    order, then how [downloadAsync] settles, and the payload that is
    written to the destination when it resolves to a result. *)
Module Transfer.
Record t : Type := mk {
  ticks : list DownloadProgressData.t;
  outcome : Completion (option DownloadResult.t);
  payload : FileContent;
}.
End Transfer.

Record Env : Type := mkEnv {
  documentDirectory : string;
  (** the transfer served for a URL *)
  remote : string -> Transfer.t;
  (** the successive readings of the wall clock, in milliseconds *)
  clock : nat -> Z;
  (** a platform call that fails for a reason outside the model (I/O
      error, missing table, full disk) throws the given error *)
  faults : Op -> option Error;
  (** the error a platform call throws when the state of the device makes
      it impossible (directory to list is missing, archive is not a zip,
      primary key already present) *)
  refusal : Op -> Error;
}.

Record State : Type := mkState {
  fs : gmap string FileContent;
  storage : gmap string string;                   (* AsyncStorage *)
  installed_mushafs : gmap Z InstalledMushaf.t;   (* table of mushaf_library.db *)
  activeDownloads : gset Z;                       (* keys of this.activeDownloads *)
  progressCallbacks : gset Z;                     (* keys of this.progressCallbacks *)
  progress : DownloadProgress.t;                  (* the progress object in flight *)
  clock_reads : nat;                              (* readings of the clock so far *)
  events : list Event;
}.

Definition set_fs (f : gmap string FileContent -> gmap string FileContent) (s : State) : State :=
  mkState (f (fs s)) (storage s) (installed_mushafs s) (activeDownloads s)
          (progressCallbacks s) (progress s) (clock_reads s) (events s).
Definition set_storage (f : gmap string string -> gmap string string) (s : State) : State :=
  mkState (fs s) (f (storage s)) (installed_mushafs s) (activeDownloads s)
          (progressCallbacks s) (progress s) (clock_reads s) (events s).
Definition set_installed_mushafs
    (f : gmap Z InstalledMushaf.t -> gmap Z InstalledMushaf.t) (s : State) : State :=
  mkState (fs s) (storage s) (f (installed_mushafs s)) (activeDownloads s)
          (progressCallbacks s) (progress s) (clock_reads s) (events s).
Definition set_activeDownloads (f : gset Z -> gset Z) (s : State) : State :=
  mkState (fs s) (storage s) (installed_mushafs s) (f (activeDownloads s))
          (progressCallbacks s) (progress s) (clock_reads s) (events s).
Definition set_progressCallbacks (f : gset Z -> gset Z) (s : State) : State :=
  mkState (fs s) (storage s) (installed_mushafs s) (activeDownloads s)
          (f (progressCallbacks s)) (progress s) (clock_reads s) (events s).
Definition set_progress_object (f : DownloadProgress.t -> DownloadProgress.t) (s : State) : State :=
  mkState (fs s) (storage s) (installed_mushafs s) (activeDownloads s)
          (progressCallbacks s) (f (progress s)) (clock_reads s) (events s).
Definition tick_clock (s : State) : State :=
  mkState (fs s) (storage s) (installed_mushafs s) (activeDownloads s)
          (progressCallbacks s) (progress s) (S (clock_reads s)) (events s).
Definition log (ev : Event) (s : State) : State :=
  mkState (fs s) (storage s) (installed_mushafs s) (activeDownloads s)
          (progressCallbacks s) (progress s) (clock_reads s) (events s ++ [ev]).

(** ** The monad of asynchronous methods *)

Definition M (A : Type) : Type := State -> Completion A * State.

Definition ret {A} (a : A) : M A := fun s => (Returned a, s).
Definition throw {A} (e : Error) : M A := fun s => (Thrown e, s).
Definition bind {A B} (m : M A) (k : A -> M B) : M B :=
  fun s => match m s with
           | (Returned a, s') => k a s'
           | (Thrown e, s') => (Thrown e, s')
           end.
(** [try { m } catch (error) { h error }] *)
Definition try_catch {A} (m : M A) (h : Error -> M A) : M A :=
  fun s => match m s with
           | (Returned a, s') => (Returned a, s')
           | (Thrown e, s') => h e s'
           end.
(** [try { m } finally { f }], for a [finally] block that cannot throw:
    it runs however [m] completes *)
Definition finally {A} (m : M A) (f : State -> State) : M A :=
  fun s => let '(r, s') := m s in (r, f s').
Definition get : M State := fun s => (Returned s, s).
Definition modify (f : State -> State) : M unit := fun s => (Returned tt, f s).

Declare Scope monad_scope.
Delimit Scope monad_scope with M.
Notation "x <- m ;; k" := (bind m (fun x => k))
  (at level 100, m at next level, right associativity) : monad_scope.
Notation "m ;; k" := (bind m (fun _ => k))
  (at level 100, right associativity) : monad_scope.
Open Scope monad_scope.

(** [for (const x of l) { body x }] *)
Fixpoint for_of {A} (l : list A) (body : A -> M unit) : M unit :=
  match l with
  | [] => ret tt
  | x :: l' => body x ;; for_of l' body
  end.

(** [try { m } catch { }]: an exception of [m] is lost. *)
Definition swallow (m : M unit) : M unit := try_catch m (fun _ => ret tt).

(** ** Paths *)

(** A directory path is written with a final slash, as the source does. *)
Definition as_directory (path : string) : string :=
  if endsWith path "/" then path else path +:+ "/".

(** [covers path k]: [k] is [path] itself or lies below it. *)
Definition covers (path k : string) : bool :=
  bool_decide (k = path) || String.prefix (as_directory path) k.

(** [inside path k]: [k] lies below the directory [path]. *)
Definition inside (path k : string) : bool :=
  String.prefix (as_directory path) k && negb (bool_decide (k = as_directory path)).

(** The directories above [path]: its proper prefixes that end with a
    slash. *)
Fixpoint directories_above (path : string) : list string :=
  match path with
  | EmptyString => []
  | String c rest =>
      let above := map (String c) (directories_above rest) in
      match rest with
      | EmptyString => []
      | String _ _ =>
          if bool_decide (c = "/"%char) then String c EmptyString :: above else above
      end
  end.

(** The files with a directory at each of [dirs] that held nothing. *)
Definition create_missing (dirs : list string) (files : gmap string FileContent)
    : gmap string FileContent :=
  foldr (fun dir acc => match acc !! dir with
                        | Some _ => acc
                        | None => <[dir := Directory]> acc
                        end) files dirs.

Fixpoint strip_prefix (p s : string) : option string :=
  match p, s with
  | EmptyString, _ => Some s
  | String a p', String b s' => if bool_decide (a = b) then strip_prefix p' s' else None
  | String _ _, EmptyString => None
  end.

Fixpoint first_segment (s : string) : string :=
  match s with
  | EmptyString => EmptyString
  | String c s' => if bool_decide (c = "/"%char) then EmptyString else String c (first_segment s')
  end.

(** The name under which [k] shows up in a listing of the directory [dir]. *)
Definition entry_name (dir k : string) : option string :=
  match strip_prefix dir k with
  | Some EmptyString => None
  | Some rest => Some (first_segment rest)
  | None => None
  end.

Definition listing (files : gmap string FileContent) (dir : string) : list string :=
  remove_dups (omap (entry_name dir) (map fst (map_to_list files))).

(** ** The platform calls *)

Section Platform.
Variable env : Env.

(** Every platform call is logged, and fails when the environment says so. *)
Definition call (op : Op) : M unit :=
  fun s => match faults env op with
           | Some e => (Thrown e, log (Called op) s)
           | None => (Returned tt, log (Called op) s)
           end.

(** *** expo-file-system *)

(** The directories between the document directory and [path].  The
    document directory is the root of what the application may write; it
    exists on every device, with what is above it, and is not listed
    among the files. *)
Definition intermediates (path : string) : list string :=
  List.filter (inside (documentDirectory env)) (directories_above path).

(** [makeDirectoryAsync(path, { intermediates: true })]: the directory
    is created together with the directories above it that are
    missing. *)
Definition makeDirectoryAsync (path : string) : M unit :=
  call (MakeDirectory path) ;;
  modify (set_fs (fun files =>
    <[path := Directory]> (create_missing (intermediates path) files))).

(** [deleteAsync(path, { idempotent })]: removes [path] and all below it;
    a missing [path] is an error only when [idempotent] is false. *)
Definition deleteAsync (path : string) (idempotent : bool) : M unit :=
  call (Delete path) ;;
  s <- get ;;
  if existsb (fun kv => covers path kv.1) (map_to_list (fs s)) || idempotent
  then modify (set_fs (fun files => filter (fun kv => covers path kv.1 = false) files))
  else throw (refusal env (Delete path)).

Record FileInfo : Type := mkFileInfo { exists_ : bool }.

Definition getInfoAsync (path : string) : M FileInfo :=
  call (GetInfo path) ;;
  s <- get ;;
  ret (mkFileInfo (bool_decide (is_Some (fs s !! path)))).

Definition readDirectoryAsync (path : string) : M (list string) :=
  call (ReadDirectory path) ;;
  s <- get ;;
  match fs s !! path with
  | Some Directory => ret (listing (fs s) path)
  | _ => throw (refusal env (ReadDirectory path))
  end.

(** [createDownloadResumable(url, filePath, {}, callback).downloadAsync()]:
    the callback runs once per tick of the transfer, then the call settles;
    when it resolves to a result the payload is at [filePath].  The
    callback runs in the event listener of the transfer: an exception it
    throws ends that invocation and does not reach the awaited call. *)
Definition downloadAsync (url filePath : string)
    (callback : DownloadProgressData.t -> M unit)
    : M (option DownloadResult.t) :=
  modify (log (Called (Download url filePath))) ;;
  for_of (Transfer.ticks (remote env url)) (fun tick => swallow (callback tick)) ;;
  match Transfer.outcome (remote env url) with
  | Thrown e => throw e
  | Returned None => ret None
  | Returned (Some result) =>
      modify (set_fs (fun files => <[filePath := Transfer.payload (remote env url)]> files)) ;;
      ret (Some result)
  end.

(** *** react-native-zip-archive *)

Definition unzip (source target : string) : M unit :=
  call (Unzip source target) ;;
  s <- get ;;
  match fs s !! source with
  | Some (ZipArchive entries) =>
      modify (set_fs (fun files =>
        foldr (fun entry acc => <[target +:+ entry := Blob]> acc)
              (<[target := Directory]> files) entries))
  | _ => throw (refusal env (Unzip source target))
  end.

End Platform.

(** *** expo-sqlite *)

Module SQLite.
Section WithEnv.
Variable env : Env.

Record CountRow : Type := mkCountRow { count : Z }.

(** A database handle is the name it was opened with. *)
Definition openDatabaseAsync (databaseName : string) : M string :=
  call env (OpenDatabase databaseName) ;;
  ret databaseName.

(** [db.getFirstAsync(query, params)]: the first row of the result, or
    [null].  A [COUNT] without [GROUP BY] always has one row. *)
Definition getFirstAsync (db : string) (statement : Statement) : M (option CountRow) :=
  call env (GetFirst db statement) ;;
  s <- get ;;
  match statement, fs s !! db with
  | CountPageLines page, Some (SqliteDatabase page_lines) =>
      ret (Some (mkCountRow
        (Z.of_nat (length (filter (fun row => PageLine.page_number row = page) page_lines)))))
  | _, _ => throw (refusal env (GetFirst db statement))
  end.

(** [db.runAsync(query, params)] on the tables of [mushaf_library.db]. *)
Definition runAsync (db : string) (statement : Statement) : M unit :=
  call env (Run db statement) ;;
  s <- get ;;
  if bool_decide (db = DB_NAME) then
    match statement with
    | InsertInstalledMushaf id row =>
        match installed_mushafs s !! id with
        | None => modify (set_installed_mushafs (fun table => <[id := row]> table))
        | Some _ => throw (refusal env (Run db statement))   (* PRIMARY KEY *)
        end
    | DeleteInstalledMushaf id =>
        modify (set_installed_mushafs (fun table => delete id table))
    | CountPageLines _ => throw (refusal env (Run db statement))
    end
  else throw (refusal env (Run db statement)).
End WithEnv.
End SQLite.

(** *** AsyncStorage *)

Module AsyncStorage.
Section WithEnv.
Variable env : Env.

Definition setItem (key value : string) : M unit :=
  call env (SetItem key value) ;;
  modify (set_storage (fun items => <[key := value]> items)).
Definition removeItem (key : string) : M unit :=
  call env (RemoveItem key) ;;
  modify (set_storage (fun items => delete key items)).
Definition getItem (key : string) : M (option string) :=
  call env (GetItem key) ;;
  s <- get ;;
  ret (storage s !! key).
End WithEnv.
End AsyncStorage.

(** *** Date *)

Module Date.
  (** [Date.now()]: the next reading of the wall clock. *)
Definition now (env : Env) : M Z :=
  fun s => (Returned (clock env (clock_reads s)), tick_clock s).

Definition digit (n : Z) : ascii := ascii_of_nat (48 + Z.to_nat (n mod 10)).

(** The last [width] decimal digits of [n], padded with zeros. *)
Fixpoint digits (width : nat) (n : Z) : string :=
  match width with
  | O => EmptyString
  | S w => digits w (n / 10) +:+ String (digit n) EmptyString
  end.

(** The proleptic Gregorian year, month and day of a day number counted
    from 1970-01-01. *)
Definition civil (days : Z) : Z * Z * Z :=
  let z := days + 719468 in
  let era := z / 146097 in
  let doe := z - era * 146097 in
  let yoe := (doe - doe / 1460 + doe / 36524 - doe / 146096) / 365 in
  let doy := doe - (365 * yoe + yoe / 4 - yoe / 100) in
  let mp := (5 * doy + 2) / 153 in
  let d := doy - (153 * mp + 2) / 5 + 1 in
  let m := if mp <? 10 then mp + 3 else mp - 9 in
  (if m <=? 2 then yoe + era * 400 + 1 else yoe + era * 400, m, d).

Definition year_string (y : Z) : string :=
  if (0 <=? y) && (y <=? 9999) then digits 4 y
  else if y <? 0 then "-" +:+ digits 6 (- y)
  else "+" +:+ digits 6 y.

(** [new Date(ms).toISOString()]: [YYYY-MM-DDTHH:mm:ss.sssZ], with the
    expanded year [+YYYYYY] or [-YYYYYY] outside 0..9999. *)
Definition toISOString (ms : Z) : string :=
  let '(y, m, d) := civil (ms / 86400000) in
  let t := ms mod 86400000 in
  year_string y +:+ "-" +:+ digits 2 m +:+ "-" +:+ digits 2 d +:+ "T" +:+
  digits 2 (t / 3600000) +:+ ":" +:+ digits 2 (t / 60000 mod 60) +:+ ":" +:+
  digits 2 (t / 1000 mod 60) +:+ "." +:+ digits 3 (t mod 1000) +:+ "Z".
End Date.

(** ** src/services/DownloadManager.ts *)

Module DownloadManager.
  (** What the progress callback of the caller does when it is invoked
      with a snapshot of the progress object: it returns ([None]) or it
      throws. *)
Definition Callback : Type := DownloadProgress.t -> option Error.

Section WithEnv.
Variable env : Env.

(** [onProgress(progress)]: the callback is invoked with the progress
    object. *)
Definition invoke (onProgress : Callback) : M unit :=
  fun s => (match onProgress (progress s) with
            | None => Returned tt
            | Some e => Thrown e
            end,
            log (Notified (progress s)) s).

(** An assignment to the progress object. *)
Definition assign (f : DownloadProgress.t -> DownloadProgress.t) : M unit :=
  modify (set_progress_object f).

(** [mushafDir = `${documentDirectory}mushafs/${id}/`] *)
Definition mushafDir (mushafId : Z) : string :=
  documentDirectory env +:+ "mushafs/" +:+ pretty mushafId +:+ "/".

Definition installed_key (mushafId : Z) : string :=
  "mushaf_" +:+ pretty mushafId +:+ "_installed".
Definition path_key (mushafId : Z) : string :=
  "mushaf_" +:+ pretty mushafId +:+ "_path".

(** *** downloadFile (lines 172-192) *)

(** [totalBytesWritten / totalBytesExpectedToWrite] (line 182) *)
Definition fraction (downloadProgress : DownloadProgressData.t) : float :=
  (Double.of_Z (DownloadProgressData.totalBytesWritten downloadProgress)
   / Double.of_Z (DownloadProgressData.totalBytesExpectedToWrite downloadProgress))%float.

Definition downloadFile (url filePath : string) (onProgress : float -> M unit) : M unit :=
  result <- downloadAsync env url filePath
              (fun downloadProgress => onProgress (fraction downloadProgress)) ;;
  match result with
  | None => throw (mkError ("Échec du téléchargement: " +:+ url))
  | Some result =>
      if bool_decide (DownloadResult.status result ≠ 200)
      then throw (mkError ("Échec du téléchargement: " +:+ url))
      else ret tt
  end.

(** *** verifyIntegrity (lines 197-223) *)

Definition criticalFiles (mushafDir : string) (mushaf : Mushaf.t) : list string :=
  [ mushafDir +:+ "mushaf_layout.db";
    mushafDir +:+ "fonts/common/bismillah.ttf";
    mushafDir +:+ "fonts/common/surah_names.ttf";
    mushafDir +:+ "fonts/pages/p1.ttf";
    mushafDir +:+ "fonts/pages/p" +:+ pretty (Mushaf.pages_count mushaf) +:+ ".ttf" ].

Definition fontFiles (pagesDir : list string) : list string :=
  List.filter (fun file => endsWith file ".ttf") pagesDir.

Definition verifyIntegrity (mushafDir : string) (mushaf : Mushaf.t) : M unit :=
  for_of (criticalFiles mushafDir mushaf) (fun filePath =>
    fileInfo <- getInfoAsync env filePath ;;
    if negb (exists_ fileInfo)
    then throw (mkError ("Fichier manquant: " +:+ filePath))
    else ret tt) ;;
  pagesDir <- readDirectoryAsync env (mushafDir +:+ "fonts/pages/") ;;
  if bool_decide (Z.of_nat (length (fontFiles pagesDir)) ≠ Mushaf.pages_count mushaf)
  then throw (mkError ("Nombre de polices incorrect: attendu "
                       +:+ pretty (Mushaf.pages_count mushaf) +:+ ", trouvé "
                       +:+ pretty (Z.of_nat (length (fontFiles pagesDir)))))
  else ret tt.

(** *** validate15LinesPerPage (lines 228-258) *)

Definition validate15LinesPerPage (dbPath : string) (totalPages : Z) : M unit :=
  db <- SQLite.openDatabaseAsync env dbPath ;;
  for_of [1; 2] (fun page =>
    result <- SQLite.getFirstAsync env db (CountPageLines page) ;;
    match result with
    | Some result =>
        if bool_decide (SQLite.count result ≠ 8)
        then throw (mkError ("Page " +:+ pretty page +:+ " devrait avoir 8 lignes, mais a "
                             +:+ pretty (SQLite.count result) +:+ " lignes"))
        else ret tt
    | None => ret tt
    end) ;;
  for_of (seqZ 3 (totalPages - 2)) (fun page =>
    result <- SQLite.getFirstAsync env db (CountPageLines page) ;;
    match result with
    | Some result =>
        if bool_decide (SQLite.count result ≠ 15)
        then throw (mkError ("ERREUR CRITIQUE: Page " +:+ pretty page
                             +:+ " devrait avoir 15 lignes, mais a "
                             +:+ pretty (SQLite.count result) +:+ " lignes"))
        else ret tt
    | None => ret tt
    end).

(** *** deleteMushaf (lines 263-272) *)

Definition deleteMushaf (mushafId : Z) : M unit :=
  deleteAsync env (mushafDir mushafId) true ;;
  mainDb <- SQLite.openDatabaseAsync env "mushaf_library.db" ;;
  SQLite.runAsync env mainDb (DeleteInstalledMushaf mushafId) ;;
  AsyncStorage.removeItem env (installed_key mushafId) ;;
  AsyncStorage.removeItem env (path_key mushafId).

(** *** cleanupPartialDownload (lines 277-283) *)

Definition cleanupPartialDownload (mushafDir : string) : M unit :=
  try_catch (deleteAsync env mushafDir true)
            (fun error => ret tt (* console.error *)).

(** *** isInstalled, getMushafPath (lines 288-298) *)

Definition isInstalled (mushafId : Z) : M bool :=
  installed <- AsyncStorage.getItem env (installed_key mushafId) ;;
  ret (bool_decide (installed = Some "true")).

Definition getMushafPath (mushafId : Z) : M (option string) :=
  AsyncStorage.getItem env (path_key mushafId).

(** *** downloadMushaf (lines 24-167) *)

(** The progress object as it is created (lines 30-39). *)
Definition initial_progress (mushaf : Mushaf.t) : DownloadProgress.t :=
  DownloadProgress.mk (Mushaf.id mushaf) initializing 0 0
    (Mushaf.size_mb mushaf * 1024 * 1024)%float 0 0 "Initialisation..." None.

(** The tick callback of the layout-database transfer (lines 57-61). *)
Definition database_tick (onProgress : Callback) (downloadProgress : float) : M unit :=
  assign (fun progress =>
    DownloadProgress.set_progress (Double.exact downloadProgress * 10)%Q progress) ;;
  assign (fun progress =>
    DownloadProgress.set_downloaded_bytes
      (downloadProgress * DownloadProgress.total_bytes progress * 0.1)%float progress) ;;
  invoke onProgress.

(** The tick callback of the common-fonts transfer (lines 72-75). *)
Definition common_fonts_tick (onProgress : Callback) (downloadProgress : float) : M unit :=
  assign (fun progress =>
    DownloadProgress.set_progress (10 + Double.exact downloadProgress * 5)%Q progress) ;;
  invoke onProgress.

(** The assignments of the tick callback of the per-page-fonts transfer
    (lines 89-99), for the clock reading [now]. *)
Definition fonts_progress (startTime now : Z) (downloadProgress : float)
    (progress : DownloadProgress.t) : DownloadProgress.t :=
  let elapsed := ((Double.of_Z now - Double.of_Z startTime) / 1000)%float in
  let bytesDownloaded :=
    (downloadProgress * DownloadProgress.total_bytes progress * 0.6)%float in
  let progress :=
    DownloadProgress.set_progress (15 + Double.exact downloadProgress * 60)%Q progress in
  let progress := DownloadProgress.set_downloaded_bytes bytesDownloaded progress in
  let progress :=
    DownloadProgress.set_speed_mbps
      (if (0 <? elapsed)%float
       then (bytesDownloaded / 1024 / 1024 / elapsed)%float else 0%float) progress in
  let remainingBytes := (DownloadProgress.total_bytes progress - bytesDownloaded)%float in
  DownloadProgress.set_eta_seconds
    (if (0 <? DownloadProgress.speed_mbps progress)%float
     then Double.round
            (remainingBytes / (DownloadProgress.speed_mbps progress * 1024 * 1024))%float
     else 0%float) progress.

(** The tick callback of the per-page-fonts transfer (lines 88-102). *)
Definition fonts_tick (onProgress : Callback) (startTime : Z) (downloadProgress : float)
    : M unit :=
  now <- Date.now env ;;
  assign (fonts_progress startTime now downloadProgress) ;;
  invoke onProgress.

(** The [try] block (lines 44-151). *)
Definition downloadMushaf_try (mushaf : Mushaf.t) (onProgress : Callback) : M unit :=
  let mushafDir := mushafDir (Mushaf.id mushaf) in
  (* Étape 1: Créer les répertoires *)
  makeDirectoryAsync env mushafDir ;;
  makeDirectoryAsync env (mushafDir +:+ "fonts/") ;;
  (* Étape 2: Télécharger la base de données SQLite *)
  assign (DownloadProgress.set_status downloading) ;;
  assign (DownloadProgress.set_current_step "Téléchargement de la base de données...") ;;
  invoke onProgress ;;
  let dbPath := mushafDir +:+ "mushaf_layout.db" in
  downloadFile (DownloadUrls.database_sqlite (Mushaf.download_urls mushaf)) dbPath
    (database_tick onProgress) ;;
  (* Étape 3: Télécharger les polices communes *)
  assign (DownloadProgress.set_current_step "Téléchargement des polices communes...") ;;
  invoke onProgress ;;
  let commonFontsZip := mushafDir +:+ "common_fonts.zip" in
  downloadFile (DownloadUrls.common_fonts_zip (Mushaf.download_urls mushaf)) commonFontsZip
    (common_fonts_tick onProgress) ;;
  (* Étape 4: Télécharger le ZIP des polices de pages *)
  assign (DownloadProgress.set_current_step
            ("Téléchargement des " +:+ pretty (Mushaf.pages_count mushaf) +:+ " polices...")) ;;
  invoke onProgress ;;
  let fontsZipPath := mushafDir +:+ "fonts.zip" in
  startTime <- Date.now env ;;
  downloadFile (DownloadUrls.fonts_zip (Mushaf.download_urls mushaf)) fontsZipPath
    (fonts_tick onProgress startTime) ;;
  (* Étape 5: Décompresser les polices communes *)
  assign (DownloadProgress.set_status extracting) ;;
  assign (DownloadProgress.set_current_step "Extraction des polices communes...") ;;
  assign (DownloadProgress.set_progress 75%Q) ;;
  invoke onProgress ;;
  unzip env commonFontsZip (mushafDir +:+ "fonts/common/") ;;
  deleteAsync env commonFontsZip true ;;
  (* Étape 6: Décompresser les polices de pages *)
  assign (DownloadProgress.set_current_step
            ("Extraction des " +:+ pretty (Mushaf.pages_count mushaf) +:+ " polices...")) ;;
  assign (DownloadProgress.set_progress 80%Q) ;;
  invoke onProgress ;;
  unzip env fontsZipPath (mushafDir +:+ "fonts/pages/") ;;
  deleteAsync env fontsZipPath true ;;
  assign (DownloadProgress.set_progress 95%Q) ;;
  invoke onProgress ;;
  (* Étape 7: Vérifier l'intégrité *)
  assign (DownloadProgress.set_status verifying) ;;
  assign (DownloadProgress.set_current_step "Vérification de l'intégrité...") ;;
  invoke onProgress ;;
  verifyIntegrity mushafDir mushaf ;;
  (* Étape 8: Validation des 15 lignes par page *)
  validate15LinesPerPage dbPath (Mushaf.pages_count mushaf) ;;
  (* Étape 9: Enregistrer dans la base principale *)
  mainDb <- SQLite.openDatabaseAsync env "mushaf_library.db" ;;
  installed_at <- Date.now env ;;   (* new Date() *)
  SQLite.runAsync env mainDb
    (InsertInstalledMushaf (Mushaf.id mushaf)
       (InstalledMushaf.mk (Mushaf.name mushaf) (Mushaf.code mushaf)
          (Mushaf.pages_count mushaf) (Mushaf.lines_per_page mushaf)
          mushafDir (Date.toISOString installed_at))) ;;
  (* Étape 10: Sauvegarder dans AsyncStorage *)
  AsyncStorage.setItem env (installed_key (Mushaf.id mushaf)) "true" ;;
  AsyncStorage.setItem env (path_key (Mushaf.id mushaf)) mushafDir ;;
  (* Terminé ! *)
  assign (DownloadProgress.set_status completed) ;;
  assign (DownloadProgress.set_progress 100%Q) ;;
  assign (DownloadProgress.set_current_step "Installation terminée !") ;;
  invoke onProgress.

(** The [catch] block (lines 153-162). *)
Definition downloadMushaf_catch (mushaf : Mushaf.t) (onProgress : Callback)
    (error : Error) : M unit :=
  assign (DownloadProgress.set_status failed) ;;
  assign (DownloadProgress.set_error (message error)) ;;
  assign (DownloadProgress.set_current_step ("Erreur: " +:+ message error)) ;;
  invoke onProgress ;;
  (* Nettoyer les fichiers partiels *)
  cleanupPartialDownload (mushafDir (Mushaf.id mushaf)) ;;
  throw error.

(** The [finally] block (lines 163-166). *)
Definition downloadMushaf_finally (mushaf : Mushaf.t) (s : State) : State :=
  set_progressCallbacks (fun callbacks => callbacks ∖ {[ Mushaf.id mushaf ]})
    (set_activeDownloads (fun downloads => downloads ∖ {[ Mushaf.id mushaf ]}) s).

(** What precedes the [try] block: the progress object is created and
    the callback registered (lines 28-41). *)
Definition downloadMushaf_enter (mushaf : Mushaf.t) (s : State) : State :=
  set_progressCallbacks (fun callbacks => {[ Mushaf.id mushaf ]} ∪ callbacks)
    (set_progress_object (fun _ => initial_progress mushaf) s).

Definition downloadMushaf (mushaf : Mushaf.t) (onProgress : Callback) : M unit :=
  modify (downloadMushaf_enter mushaf) ;;
  finally
    (try_catch (downloadMushaf_try mushaf onProgress)
               (downloadMushaf_catch mushaf onProgress))
    (downloadMushaf_finally mushaf).
End WithEnv.
End DownloadManager.

(** ** Vocabulary of the statements *)

(** [hoare P m Q]: from a state satisfying [P], the computation [m] ends in
    a completion and a state related by [Q]. *)
Definition hoare {A} (P : State -> Prop) (m : M A) (Q : Completion A -> State -> Prop) : Prop :=
  forall s, P s -> Q (m s).1 (m s).2.

(** [preserves f m]: running [m] never changes the observation [f]. *)
Definition preserves {A B} (f : State -> B) (m : M A) : Prop :=
  forall s, f (m s).2 = f s.

(** [returns m]: [m] never throws. *)
Definition returns {A} (m : M A) : Prop :=
  forall s, exists a, (m s).1 = Returned a.

(** ** What the caller observes of the progress *)

(** The part of a snapshot the weighting is about: status and percentage. *)
Definition report (p : DownloadProgress.t) : Status * Q :=
  (DownloadProgress.status p, DownloadProgress.progress p).

Definition notifications (evs : list Event) : list DownloadProgress.t :=
  omap (fun ev => match ev with Notified p => Some p | Called _ => None end) evs.

(** The reports delivered to the callback so far, oldest first. *)
Definition reported (s : State) : list (Status * Q) :=
  map report (notifications (events s)).

(** The report the progress object would give now, and those given. *)
Definition view (s : State) : (Status * Q) * list (Status * Q) :=
  (report (progress s), reported s).

(** The fractions a transfer reports, by their exact values. *)
Definition fractions (env : Env) (url : string) : list Q :=
  map (fun tick => Double.exact (DownloadManager.fraction tick)) (Transfer.ticks (remote env url)).

(** A callback that returns whatever it is given. *)
Definition never_throws (onProgress : DownloadManager.Callback) : Prop :=
  forall p, onProgress p = None.

(** A callback that returns when it is given a snapshot with the status
    [status]. *)
Definition returns_on (status : Status) (onProgress : DownloadManager.Callback) : Prop :=
  forall p, DownloadProgress.status p = status -> onProgress p = None.

(** *** The weighting of section 4.5 of the specification

    Reports of a fully successful installation, for the fractions [d], [c]
    and [f] reported by the transfers of the layout database, the common
    fonts and the per-page fonts.  A stage that only changes the step label
    repeats the report that precedes it. *)
Definition stage_database (d : list Q) : list (Status * Q) :=
  (downloading, 0%Q) :: map (fun p => (downloading, (p * 10)%Q)) d.
Definition database_done (d : list Q) : Q :=
  List.last (map (fun p => (p * 10)%Q) d) 0%Q.
Definition stage_common_fonts (d c : list Q) : list (Status * Q) :=
  (downloading, database_done d) :: map (fun p => (downloading, (10 + p * 5)%Q)) c.
Definition common_fonts_done (d c : list Q) : Q :=
  List.last (map (fun p => (10 + p * 5)%Q) c) (database_done d).
Definition stage_fonts (d c f : list Q) : list (Status * Q) :=
  (downloading, common_fonts_done d c) :: map (fun p => (downloading, (15 + p * 60)%Q)) f.
Definition weighting_before_completion (d c f : list Q) : list (Status * Q) :=
  stage_database d ++ stage_common_fonts d c ++ stage_fonts d c f ++
  [(extracting, 75%Q); (extracting, 80%Q); (extracting, 95%Q); (verifying, 95%Q)].
Definition weighting (d c f : list Q) : list (Status * Q) :=
  weighting_before_completion d c f ++ [(completed, 100%Q)].

(** [g] acts on the report of the progress object as [g'] does. *)
Definition acts_as (g : DownloadProgress.t -> DownloadProgress.t)
    (g' : Status * Q -> Status * Q) : Prop :=
  forall p, report (g p) = g' (report p).

(** A tick callback that reports the percentage [phi p] for the fraction
    whose exact value is [p], whether the callback of the caller returns
    or throws. *)
Definition reports_percentage (cb : float -> M unit) (phi : Q -> Q) : Prop :=
  forall p st pct R,
    hoare (fun s => view s = ((st, pct), R)) (cb p)
          (fun _ s => view s = ((st, phi (Double.exact p)),
                                R ++ [(st, phi (Double.exact p))])).

(** The callback threw when it was given the snapshot of the completed
    installation. *)
Definition throws_at_completion (onProgress : DownloadManager.Callback) : Prop :=
  exists p e, DownloadProgress.status p = completed /\ onProgress p = Some e.

(** What the [try] block of [downloadMushaf] has reported when it completes
    with [r], after the reports [R0] of earlier runs: all of the weighting
    when it returns; when it throws, a part of what precedes the report of
    completion, or all of the weighting when it is the callback that threw
    on that report. *)
Definition try_post (onProgress : DownloadManager.Callback) (R0 : list (Status * Q))
    (d c f : list Q) (r : Completion unit) (s : State) : Prop :=
  exists L, view s = (List.last L (initializing, 0%Q), R0 ++ L) /\
    match r with
    | Returned _ => L = weighting d c f
    | Thrown _ =>
        L `prefix_of` weighting_before_completion d c f \/
        L = weighting d c f /\ throws_at_completion onProgress
    end.

(** The snapshot the [catch] block of [downloadMushaf] delivers for the
    error [e], from the state [s] the [try] block ended in. *)
Definition failed_snapshot (e : Error) (s : State) : DownloadProgress.t :=
  DownloadProgress.set_current_step ("Erreur: " +:+ message e)
    (DownloadProgress.set_error (message e)
       (DownloadProgress.set_status failed (progress s))).

(** The state in which the [catch] block invokes the callback, for the
    error [e] and the state [s2] the [try] block ended in, and the state
    right after that invocation. *)
Definition failing (e : Error) (s2 : State) : State :=
  set_progress_object (fun _ => failed_snapshot e s2) s2.
Definition failed_reported (e : Error) (s2 : State) : State :=
  log (Notified (failed_snapshot e s2)) (failing e s2).

(** The failure handling as a reading that lets nothing come between the
    failure and the cleanup has it: whatever makes the [try] block throw
    [e], the callback is invoked with the failed snapshot, the root of the
    asset is deleted and [e] is what the caller gets. *)
Definition cleans_up_and_rethrows (env : Env) (mushaf : Mushaf.t)
    (onProgress : DownloadManager.Callback) (s : State) : Prop :=
  forall e s2,
    DownloadManager.downloadMushaf_try env mushaf onProgress
      (DownloadManager.downloadMushaf_enter mushaf s) = (Thrown e, s2) ->
    let run := DownloadManager.downloadMushaf env mushaf onProgress s in
    run.1 = Thrown e /\
    events run.2 = events s2 ++ [Notified (failed_snapshot e s2);
                                 Called (Delete (DownloadManager.mushafDir env (Mushaf.id mushaf)))].


(** The reports [L] of one run of [downloadMushaf] that completed with [r]
    follow the weighting: all of it on success, and on failure a part of it
    followed by the report of the [catch] block, which keeps the percentage
    reached.  The part stops before the report of completion, unless it is
    the callback that made the run fail, by throwing on that report. *)
Definition follows_weighting (onProgress : DownloadManager.Callback) (d c f : list Q)
    (r : Completion unit) (L : list (Status * Q)) : Prop :=
  match r with
  | Returned _ => L = weighting d c f
  | Thrown _ =>
      exists L0,
        (L0 `prefix_of` weighting_before_completion d c f \/
         L0 = weighting d c f /\ throws_at_completion onProgress) /\
        L = L0 ++ [(failed, (List.last L0 (initializing, 0%Q)).2)]
  end.



(** *** The structural line-count check *)

(** The number of rows of [page_lines] for a page. *)
Definition line_count (rows : list PageLine.t) (page : Z) : Z :=
  Z.of_nat (length (filter (fun row => PageLine.page_number row = page) rows)).

(** The per-page line invariant: 8 lines on pages 1 and 2, 15 elsewhere. *)
Definition expected_lines (page : Z) : Z :=
  if bool_decide (page = 1 \/ page = 2) then 8 else 15.

(** The error of the check for a page that has [count] rows. *)
Definition LineCountViolation (page count : Z) : Error :=
  if bool_decide (page = 1 \/ page = 2)
  then mkError ("Page " +:+ pretty page +:+ " devrait avoir 8 lignes, mais a "
                +:+ pretty count +:+ " lignes")
  else mkError ("ERREUR CRITIQUE: Page " +:+ pretty page
                +:+ " devrait avoir 15 lignes, mais a " +:+ pretty count +:+ " lignes").

(** The pages the check examines, in order. *)
Definition examined_pages (totalPages : Z) : list Z := [1; 2] ++ seqZ 3 (totalPages - 2).

(** The log entries of the row-count queries for some pages. *)
Definition count_queries (dbPath : string) (pages : list Z) : list Event :=
  map (fun page => Called (GetFirst dbPath (CountPageLines page))) pages.

(** One iteration of the loops of [validate15LinesPerPage]. *)
Definition check_page (env : Env) (db : string) (expected : Z -> Z)
    (err : Z -> Z -> Error) (page : Z) : M unit :=
  result <- SQLite.getFirstAsync env db (CountPageLines page) ;;
  match result with
  | Some result =>
      if bool_decide (SQLite.count result ≠ expected page)
      then throw (err page (SQLite.count result))
      else ret tt
  | None => ret tt
  end.

(** *** The integrity check *)

(** The error of the font-count check. *)
Definition AssetCountMismatch (expected found : Z) : Error :=
  mkError ("Nombre de polices incorrect: attendu " +:+ pretty expected
           +:+ ", trouvé " +:+ pretty found).

(** The error of the file-presence check. *)
Definition MissingAsset (filePath : string) : Error :=
  mkError ("Fichier manquant: " +:+ filePath).

(** The first failure of the file-presence check over [paths], if any. *)
Fixpoint first_missing (env : Env) (files : gmap string FileContent)
    (paths : list string) : option Error :=
  match paths with
  | [] => None
  | filePath :: paths' =>
      match faults env (GetInfo filePath) with
      | Some e => Some e
      | None =>
          if bool_decide (is_Some (files !! filePath))
          then first_missing env files paths'
          else Some (MissingAsset filePath)
      end
  end.

(** The number of per-page font files found in the installed fonts. *)
Definition fonts_found (files : gmap string FileContent) (mushafDir : string) : Z :=
  Z.of_nat (length (DownloadManager.fontFiles (listing files (mushafDir +:+ "fonts/pages/")))).

(** How [verifyIntegrity] completes, as a function of the files present. *)
Definition integrity_verdict (env : Env) (mushafDir : string) (mushaf : Mushaf.t)
    (files : gmap string FileContent) : Completion unit :=
  match first_missing env files (DownloadManager.criticalFiles mushafDir mushaf) with
  | Some e => Thrown e
  | None =>
      match faults env (ReadDirectory (mushafDir +:+ "fonts/pages/")) with
      | Some e => Thrown e
      | None =>
          match files !! (mushafDir +:+ "fonts/pages/") with
          | Some Directory =>
              if bool_decide (fonts_found files mushafDir ≠ Mushaf.pages_count mushaf)
              then Thrown (AssetCountMismatch (Mushaf.pages_count mushaf)
                                              (fonts_found files mushafDir))
              else Returned tt
          | _ => Thrown (refusal env (ReadDirectory (mushafDir +:+ "fonts/pages/")))
          end
      end
  end.

(** *** Speed and remaining time *)

(** The seconds elapsed at the clock reading [now] since [startTime]. *)
Definition elapsed_seconds (startTime now : Z) : float :=
  ((Double.of_Z now - Double.of_Z startTime) / 1000)%float.

(** The snapshot the tick callback of the per-page-fonts transfer delivers
    for the fraction [p], from the state [s]. *)
Definition fonts_snapshot (env : Env) (startTime : Z) (p : float) (s : State)
    : DownloadProgress.t :=
  DownloadManager.fonts_progress startTime (clock env (clock_reads s)) p (progress s).

(** The speed and the remaining time as a reading that takes "otherwise"
    to mean "when the elapsed time (the speed) is not 0" has them. *)
Definition speed_and_eta_when_not_zero (env : Env) (startTime : Z) (p : float) (s : State)
    : Prop :=
  let elapsed := elapsed_seconds startTime (clock env (clock_reads s)) in
  let bytesDownloaded := (p * DownloadProgress.total_bytes (progress s) * 0.6)%float in
  let remainingBytes := (DownloadProgress.total_bytes (progress s) - bytesDownloaded)%float in
  let snapshot := fonts_snapshot env startTime p s in
  let speed := DownloadProgress.speed_mbps snapshot in
  ((elapsed =? 0)%float = true -> (speed =? 0)%float = true) /\
  ((elapsed =? 0)%float = false ->
   (speed =? bytesDownloaded / 1024 / 1024 / elapsed)%float = true) /\
  ((speed =? 0)%float = true -> (DownloadProgress.eta_seconds snapshot =? 0)%float = true) /\
  ((speed =? 0)%float = false ->
   (DownloadProgress.eta_seconds snapshot
    =? Double.round (remainingBytes / (speed * 1024 * 1024)))%float = true).

(** ** A concrete device

    The first entry of [AVAILABLE_MUSHAFS] (src/data/availableMushafs.ts),
    served by a remote end that delivers a well-formed bundle. *)
Module Example.
Definition urls : DownloadUrls.t :=
  DownloadUrls.mk "https://cdn.qul.tarteel.ai/fonts/qpc_v2_fonts.zip"
                  "https://cdn.qul.tarteel.ai/databases/qpc_v2_layout.db"
                  "https://cdn.qul.tarteel.ai/fonts/common_fonts.zip".

(** The asset, for a size in megabytes. *)
Definition sized (size_mb : float) : Mushaf.t :=
  Mushaf.mk 1 "KFGQPC V2 (1421H)" qpc_v2
    "King Fahd Glorious Quran Printing Complex - Calligraphie Uthman Taha - Version standard"
    604 15 size_mb Hafs ["juz_markers"; "hizb_markers"; "sajdah_markers"] urls
    ["https://cdn.qul.tarteel.ai/previews/qpc_v2_page_1.jpg";
     "https://cdn.qul.tarteel.ai/previews/qpc_v2_page_300.jpg"]
    "abc123def456..." false None None.

Definition mushaf : Mushaf.t := sized 185.

(** A device on which nothing is installed. *)
Definition idle : State :=
  mkState ∅ ∅ ∅ ∅ ∅ (DownloadManager.initial_progress mushaf) 0 [].

(** A layout database that respects the line invariant for [pages] pages. *)
Definition lines (page : Z) (count : nat) : list PageLine.t :=
  map (fun line => PageLine.mk page (Z.of_nat line)) (seq 1 count).
Definition layout (pages : Z) : list PageLine.t :=
  lines 1 8 ++ lines 2 8 ++ concat (map (fun page => lines page 15) (seqZ 3 (pages - 2))).

(** The same database with the last line of page 2 missing. *)
Definition short_layout (pages : Z) : list PageLine.t :=
  lines 1 8 ++ lines 2 7 ++ concat (map (fun page => lines page 15) (seqZ 3 (pages - 2))).

Definition font_name (page : Z) : string := "p" +:+ pretty page +:+ ".ttf".

Definition tick (written expected : Z) : DownloadProgressData.t :=
  DownloadProgressData.mk written expected.

(** What the content server delivers; the status of the per-page fonts
    archive is a parameter. *)
Definition server (fonts_status : Z) (url : string) : Transfer.t :=
  if bool_decide (url = DownloadUrls.database_sqlite urls) then
    Transfer.mk [tick 1048576 2097152; tick 2097152 2097152]
                (Returned (Some (DownloadResult.mk 200)))
                (SqliteDatabase (layout 604))
  else if bool_decide (url = DownloadUrls.common_fonts_zip urls) then
    Transfer.mk [tick 524288 524288]
                (Returned (Some (DownloadResult.mk 200)))
                (ZipArchive ["bismillah.ttf"; "surah_names.ttf"])
  else
    Transfer.mk [tick 0 4; tick 1 4; tick 3 4; tick 4 4]
                (Returned (Some (DownloadResult.mk fonts_status)))
                (ZipArchive (map font_name (seqZ 1 604))).

(** What a call that the state of the device makes impossible throws. *)
Definition refused (op : Op) : Error :=
  match op with
  | Run _ (InsertInstalledMushaf _ _) =>
      mkError "UNIQUE constraint failed: installed_mushafs.id"
  | _ => mkError "refused"
  end.

(** A platform on which every call works; the clock advances by one
    second per reading, from 2023-11-14T22:13:20Z. *)
Definition platform (fonts_status : Z) : Env :=
  mkEnv "file:///data/" (server fonts_status)
    (fun n => 1700000000000 + 1000 * Z.of_nat n)
    (fun _ => None) refused.

Definition env : Env := platform 200.

(** A caller whose callback returns always, and one whose callback
    throws when it is given a snapshot with the status [status]. *)
Definition observer : DownloadManager.Callback := fun _ => None.
Definition thrower (status : Status) : DownloadManager.Callback :=
  fun progress =>
    if bool_decide (DownloadProgress.status progress = status)
    then Some (mkError "progress callback")
    else None.

(** The same, except that the per-page fonts archive is not found. *)
Definition env404 : Env := platform 404.

(** A platform whose clock is set back: it reads 1000 the first time and
    0 afterwards. *)
Definition backwards_clock : Env :=
  mkEnv "file:///data/"
    (fun _ => Transfer.mk [] (Returned None) Blob)
    (fun n => match n with O => 1000 | S _ => 0 end)
    (fun _ => None) (fun _ => mkError "refused").

Definition root : string := DownloadManager.mushafDir env (Mushaf.id mushaf).

(** The files of the bundle once extracted, for the given page fonts. *)
Definition extracted (pages : list Z) : gmap string FileContent :=
  list_to_map
    ([(root, Directory); (root +:+ "fonts/", Directory);
      (root +:+ "mushaf_layout.db", SqliteDatabase (layout 604));
      (root +:+ "fonts/common/", Directory);
      (root +:+ "fonts/common/bismillah.ttf", Blob);
      (root +:+ "fonts/common/surah_names.ttf", Blob);
      (root +:+ "fonts/pages/", Directory)]
     ++ map (fun page => (root +:+ "fonts/pages/" +:+ font_name page, Blob)) pages).

Definition with_files (files : gmap string FileContent) : State :=
  set_fs (fun _ => files) idle.

(** All 604 fonts; the same with a stray file next to them; and the
    fonts with page 300 missing. *)
Definition complete : State := with_files (extracted (seqZ 1 604)).
Definition with_readme : State :=
  with_files (<[root +:+ "fonts/pages/README.txt" := Blob]> (extracted (seqZ 1 604))).
Definition incomplete : State :=
  with_files (extracted (seqZ 1 299 ++ seqZ 301 304)).

(** A device on which the transfer of the per-page fonts of an asset of
    178 megabytes is about to report a tick. *)
Definition transferring : State :=
  set_progress_object (fun _ => DownloadManager.initial_progress (sized 178))
    (tick_clock idle).

(** A device that holds nothing but a layout database. *)
Definition with_layout (rows : list PageLine.t) : State :=
  with_files {[ root +:+ "mushaf_layout.db" := SqliteDatabase rows ]}.
End Example.

(** *** Installation records *)

(** The catalog table and the key-value store. *)
Definition records (s : State) : gmap Z InstalledMushaf.t * gmap string string :=
  (installed_mushafs s, storage s).

(** The catalog row of an asset installed at the clock reading [t]. *)
Definition installed_row (env : Env) (mushaf : Mushaf.t) (t : Z) : InstalledMushaf.t :=
  InstalledMushaf.mk (Mushaf.name mushaf) (Mushaf.code mushaf)
    (Mushaf.pages_count mushaf) (Mushaf.lines_per_page mushaf)
    (DownloadManager.mushafDir env (Mushaf.id mushaf)) (Date.toISOString t).

(** The records after a successful installation of [mushaf], from the
    records [before]: one row more, and the two flags. *)
Definition recorded (env : Env) (mushaf : Mushaf.t)
    (before after : gmap Z InstalledMushaf.t * gmap string string) : Prop :=
  exists t,
    before.1 !! Mushaf.id mushaf = None /\
    after.1 = <[Mushaf.id mushaf := installed_row env mushaf t]> before.1 /\
    after.2 = <[DownloadManager.path_key (Mushaf.id mushaf)
                 := DownloadManager.mushafDir env (Mushaf.id mushaf)]>
              (<[DownloadManager.installed_key (Mushaf.id mushaf) := "true"]> before.2).

(** *** The shape of an ISO-8601 timestamp *)

Inductive CharClass : Type := Digit | Lit (c : ascii).

Definition is_digit (c : ascii) : bool :=
  let n := nat_of_ascii c in (48 <=? n)%nat && (n <=? 57)%nat.

Fixpoint matches (pattern : list CharClass) (s : string) : bool :=
  match pattern, s with
  | [], EmptyString => true
  | Digit :: pattern', String c s' => is_digit c && matches pattern' s'
  | Lit a :: pattern', String c s' => bool_decide (a = c) && matches pattern' s'
  | _, _ => false
  end.

(** [-MM-DDTHH:mm:ss.sssZ] *)
Definition after_the_year : list CharClass :=
  [Lit "-"; Digit; Digit; Lit "-"; Digit; Digit; Lit "T"; Digit; Digit; Lit ":";
   Digit; Digit; Lit ":"; Digit; Digit; Lit "."; Digit; Digit; Digit; Lit "Z"]%char.

(** [YYYY-MM-DDTHH:mm:ss.sssZ], or the same with an expanded year
    [+YYYYYY] or [-YYYYYY]. *)
Definition is_iso8601 (s : string) : bool :=
  matches (repeat Digit 4 ++ after_the_year) s
  || matches (Lit "+"%char :: repeat Digit 6 ++ after_the_year) s
  || matches (Lit "-"%char :: repeat Digit 6 ++ after_the_year) s.

(** * The rest of the application

    Shallow embeddings of the code around the download manager: the lookup
    of the layout database ([database/schema.ts]), the page grid and the
    requests of the reader ([services/QuranAPI.ts]), the catalog
    ([data/availableMushafs.ts]), the store ([store/mushafStore.ts]) and the
    handlers of the library and reader screens ([screens/LibraryScreen.tsx],
    [screens/ReaderScreen.tsx]).  A screen is described by the state of its
    store and of its component together with what it has shown (alerts,
    timers, routes); a handler is a function of the device and the
    screen. *)

(** ** src/database/schema.ts: the layout database of an asset *)

Module Schema.
  (** [getMushafDatabase] (lines 68-78): the handle of the layout database
      below [mushafPath], which has to exist. *)
Definition getMushafDatabase (env : Env) (mushafPath : string) : M string :=
  let dbPath := mushafPath +:+ "mushaf_layout.db" in
  (* Vérifier que la DB existe *)
  fileInfo <- getInfoAsync env dbPath ;;
  if negb (exists_ fileInfo)
  then throw (mkError ("Base de données Mushaf introuvable: " +:+ dbPath))
  else SQLite.openDatabaseAsync env dbPath.
End Schema.

(** ** src/services/QuranAPI.ts *)

Module QuranAPI.
Definition API_BASE_URL : string := "https://api.quran.com/api/v4".

Inductive CharTypeName : Type := word | end_.

Module Translation.
Record t : Type := mk { text : string; language_name : string }.
End Translation.

Module Transliteration.
Record t : Type := mk { text : option string; language_name : string }.
End Transliteration.

Module APIWord.
Record t : Type := mk {
  id : Z;
  position : Z;
  audio_url : option string;
  char_type_name : CharTypeName;
  code_v1 : string;
  code_v2 : option string;
  page_number : Z;
  line_number : Z;
  text : string;
  translation : option Translation.t;
  transliteration : option Transliteration.t;
}.
End APIWord.

Module APIVerse.
Record t : Type := mk {
  id : Z;
  verse_number : Z;
  verse_key : string;
  hizb_number : Z;
  rub_el_hizb_number : Z;
  ruku_number : Z;
  manzil_number : Z;
  sajdah_number : option Z;
  page_number : Z;
  juz_number : Z;
  words : list APIWord.t;
}.
End APIVerse.

Module Pagination.
Record t : Type := mk {
  per_page : Z;
  current_page : Z;
  next_page : option Z;
  total_pages : Z;
  total_records : Z;
}.
End Pagination.

Module APIPageResponse.
Record t : Type := mk {
  verses : list APIVerse.t;
  pagination : Pagination.t;
}.
End APIPageResponse.

Inductive LineType : Type := surah_name | basmallah | ayah.

Module PageLine.
Record t : Type := mk {
  lineNumber : Z;
  words : list APIWord.t;
  isCentered : bool;
  lineType : LineType;
}.
End PageLine.

Module ProcessedPage.
Record t : Type := mk {
  pageNumber : Z;
  lines : list PageLine.t;
  totalLines : Z;
}.
End ProcessedPage.

(** *** processPageData (lines 132-178) *)

(** One turn of the inner loop (lines 138-142): the word is pushed on the
    array of its line, which is created when the line is met first. *)
Definition group_word (linesMap : gmap Z (list APIWord.t)) (word : APIWord.t)
    : gmap Z (list APIWord.t) :=
  let lineNum := APIWord.line_number word in
  let linesMap :=
    if bool_decide (is_Some (linesMap !! lineNum)) then linesMap
    else <[lineNum := []]> linesMap in
  alter (fun words => words ++ [word]) lineNum linesMap.

Definition processPageData (pageData : APIPageResponse.t) (pageNumber : Z)
    : ProcessedPage.t :=
  (* Group all words by their line number *)
  let linesMap :=
    foldl (fun linesMap verse => foldl group_word linesMap (APIVerse.words verse))
          ∅ (APIPageResponse.verses pageData) in
  (* Determine expected number of lines *)
  let expectedLines := if bool_decide (pageNumber <= 2) then 8 else 15 in
  (* Build lines array, filling in empty lines if necessary *)
  let lines :=
    map (fun lineNum =>
           let words := default [] (linesMap !! lineNum) in
           let lineType := ayah in
           let isCentered := bool_decide (length words = 0%nat) in
           PageLine.mk lineNum words isCentered lineType)
        (seqZ 1 expectedLines) in
  ProcessedPage.mk pageNumber lines (Z.of_nat (length lines)).

(** *** The requests *)

(** What [fetch] resolves to; [json] is the completion of
    [response.json()], read at the type the caller gives it. *)
Module Response.
Record t : Type := mk {
  ok : bool;
  statusText : string;
  json : Completion APIPageResponse.t;
}.
End Response.

Section WithNetwork.
  (** How the request for a URL settles. *)
Variable fetch : string -> Completion Response.t.

(** fetchPageWithWords (lines 87-96) *)
Definition fetchPageWithWords (pageNumber : Z) : Completion APIPageResponse.t :=
  let url := API_BASE_URL +:+ "/verses/by_page/" +:+ pretty pageNumber
             +:+ "?words=true&per_page=all&word_fields=code_v1,code_v2,line_number,page_number,text" in
  match fetch url with
  | Thrown e => Thrown e
  | Returned response =>
      if negb (Response.ok response)
      then Thrown (mkError ("Failed to fetch page " +:+ pretty pageNumber +:+ ": "
                            +:+ Response.statusText response))
      else Response.json response
  end.

(** prefetchPages (lines 183-207); [count] defaults to 3.  The requests
    run concurrently; each writes the entry of its own page, and a
    request that fails is logged and leaves no entry. *)
Definition prefetchPages (startPage : Z) (count : option Z) : gmap Z ProcessedPage.t :=
  let count := default 3 count in
  let maxPage := 604 in
  let pagesToFetch :=
    filter (fun page => 1 <= page /\ page <= maxPage)
           (map (fun i => startPage + i) (seqZ 0 count)) in
  foldl (fun results pageNum =>
           match fetchPageWithWords pageNum with
           | Returned data => <[pageNum := processPageData data pageNum]> results
           | Thrown error => results   (* console.error *)
           end)
        ∅ pagesToFetch.
End WithNetwork.

(** getQCFv1FontUrl, getQCFv2FontUrl (lines 213-226) *)
Definition getQCFv1FontUrl (pageNumber : Z) : string :=
  let paddedPage := pretty pageNumber in
  "https://static.qurancdn.com/fonts/qpc-hafs/qpc_hafs_v1/qpc_v1_page_" +:+ paddedPage
  +:+ ".woff2".

Definition getQCFv2FontUrl (pageNumber : Z) : string :=
  let paddedPage := pretty pageNumber in
  "https://static.qurancdn.com/fonts/qpc-hafs/qpc_hafs_v2/qpc_v2_page_" +:+ paddedPage
  +:+ ".woff2".
End QuranAPI.

(** ** src/data/availableMushafs.ts *)

Definition AVAILABLE_MUSHAFS : list Mushaf.t :=
  [ Mushaf.mk 1 "KFGQPC V2 (1421H)" qpc_v2
      "King Fahd Glorious Quran Printing Complex - Calligraphie Uthman Taha - Version standard"
      604 15 185 Hafs ["juz_markers"; "hizb_markers"; "sajdah_markers"]
      (DownloadUrls.mk "https://cdn.qul.tarteel.ai/fonts/qpc_v2_fonts.zip"
                       "https://cdn.qul.tarteel.ai/databases/qpc_v2_layout.db"
                       "https://cdn.qul.tarteel.ai/fonts/common_fonts.zip")
      ["https://cdn.qul.tarteel.ai/previews/qpc_v2_page_1.jpg";
       "https://cdn.qul.tarteel.ai/previews/qpc_v2_page_300.jpg"]
      "abc123def456..." false None None;
    Mushaf.mk 2 "KFGQPC V1 (1405H)" qpc_v1
      "King Fahd Complex - Version classique 1405H"
      604 15 178 Hafs ["juz_markers"; "hizb_markers"]
      (DownloadUrls.mk "https://cdn.qul.tarteel.ai/fonts/qpc_v1_fonts.zip"
                       "https://cdn.qul.tarteel.ai/databases/qpc_v1_layout.db"
                       "https://cdn.qul.tarteel.ai/fonts/common_fonts.zip")
      ["https://cdn.qul.tarteel.ai/previews/qpc_v1_page_1.jpg"]
      "def456ghi789..." false None None;
    Mushaf.mk 3 "Indopak Nastaleeq 15 Lignes" indopak_15
      "Style calligraphique du sous-continent indien"
      610 15 195 Hafs ["juz_markers"]
      (DownloadUrls.mk "https://cdn.qul.tarteel.ai/fonts/indopak_15_fonts.zip"
                       "https://cdn.qul.tarteel.ai/databases/indopak_15_layout.db"
                       "https://cdn.qul.tarteel.ai/fonts/common_fonts.zip")
      ["https://cdn.qul.tarteel.ai/previews/indopak_page_1.jpg"]
      "ghi789jkl012..." false None None ].

(** ** src/store/mushafStore.ts

    The store and the reader screen below follow [database/schema.ts] in
    the same source file: the store is at lines 180-213 of it. *)

Module MushafStore.
Record MushafState : Type := mk {
  currentMushafId : option Z;
  currentPage : Z;
  installedMushafs : list Z;
  (** a [Record<number, DownloadProgress>]: the entry of an asset is the
      progress object its download reports with *)
  downloadProgress : gmap Z DownloadProgress.t;
  isLoading : bool;
}.

Definition initial : MushafState := mk None 1 [] ∅ false.

Definition setCurrentMushaf (id : Z) (state : MushafState) : MushafState :=
  mk (Some id) 1 (installedMushafs state) (downloadProgress state) (isLoading state).

Definition setCurrentPage (page : Z) (state : MushafState) : MushafState :=
  mk (currentMushafId state) page (installedMushafs state) (downloadProgress state)
     (isLoading state).

Definition addInstalledMushaf (id : Z) (state : MushafState) : MushafState :=
  mk (currentMushafId state) (currentPage state)
     (if bool_decide (id ∈ installedMushafs state)
      then installedMushafs state
      else installedMushafs state ++ [id])
     (downloadProgress state) (isLoading state).

Definition removeInstalledMushaf (id : Z) (state : MushafState) : MushafState :=
  mk (currentMushafId state) (currentPage state)
     (filter (fun m => m <> id) (installedMushafs state))
     (downloadProgress state) (isLoading state).

Definition setDownloadProgress (id : Z) (progress : DownloadProgress.t)
    (state : MushafState) : MushafState :=
  mk (currentMushafId state) (currentPage state) (installedMushafs state)
     (<[id := progress]> (downloadProgress state)) (isLoading state).

Definition clearDownloadProgress (id : Z) (state : MushafState) : MushafState :=
  mk (currentMushafId state) (currentPage state) (installedMushafs state)
     (delete id (downloadProgress state)) (isLoading state).

Definition setInstalledMushafs (ids : list Z) (state : MushafState) : MushafState :=
  mk (currentMushafId state) (currentPage state) ids (downloadProgress state)
     (isLoading state).

Definition setLoading (loading : bool) (state : MushafState) : MushafState :=
  mk (currentMushafId state) (currentPage state) (installedMushafs state)
     (downloadProgress state) loading.
End MushafStore.

(** ** src/screens/LibraryScreen.tsx *)

(** The snapshots notified between the state [before] and the later state
    [after] of the device (the log only grows). *)
Definition delivered (before after : State) : list DownloadProgress.t :=
  drop (length (notifications (events before))) (notifications (events after)).

Module LibraryScreen.
Module Alert.
Record t : Type := mk { title : string; message : string; buttons : list string }.
End Alert.

(** What the screen is made of: the store, the alerts shown, the timers
    set (delay, asset whose progress the timer clears) and the routes
    navigated to (screen, asset). *)
Record Screen : Type := mkScreen {
  store : MushafStore.MushafState;
  alerts : list Alert.t;
  timers : list (Z * Z);
  routes : list (string * Z);
}.

Definition with_store (f : MushafStore.MushafState -> MushafStore.MushafState)
    (screen : Screen) : Screen :=
  mkScreen (f (store screen)) (alerts screen) (timers screen) (routes screen).
Definition alert (title message : string) (buttons : list string) (screen : Screen) : Screen :=
  mkScreen (store screen) (alerts screen ++ [Alert.mk title message buttons])
           (timers screen) (routes screen).
Definition setTimeout (id : Z) (delay : Z) (screen : Screen) : Screen :=
  mkScreen (store screen) (alerts screen) (timers screen ++ [(delay, id)]) (routes screen).
Definition navigate (name : string) (mushafId : Z) (screen : Screen) : Screen :=
  mkScreen (store screen) (alerts screen) (timers screen) (routes screen ++ [(name, mushafId)]).

(** The handlers of the screen act on the device and on the screen. *)
Definition UI (A : Type) : Type := State * Screen -> Completion A * (State * Screen).

Definition pure {A} (a : A) : UI A := fun app => (Returned a, app).
Definition and_then {A B} (m : UI A) (k : A -> UI B) : UI B :=
  fun app => match m app with
             | (Returned a, app') => k a app'
             | (Thrown e, app') => (Thrown e, app')
             end.
Definition catching {A} (m : UI A) (h : Error -> UI A) : UI A :=
  fun app => match m app with
             | (Returned a, app') => (Returned a, app')
             | (Thrown e, app') => h e app'
             end.
(** A call of the download manager that involves no callback. *)
Definition await {A} (m : M A) : UI A :=
  fun app => let '(r, device) := m app.1 in (r, (device, app.2)).
(** What the download manager sees of a callback of the screen: the
    callbacks of the screen only set the store and a timer, and
    return. *)
Definition returns : DownloadManager.Callback := fun _ => None.
(** A call of the download manager whose progress callback is
    [callback]: it is invoked, in order, with every snapshot the call
    notifies.  The callback only acts on the screen and returns: the
    manager is given a callback that never throws, and the screen after
    the call is the screen after these invocations.  What the callback
    is given is the progress object itself; the call does not assign to
    it after the last notification, so the object and the last snapshot
    are the same once the call has settled. *)
Definition await_with {A} (m : DownloadManager.Callback -> M A)
    (callback : DownloadProgress.t -> Screen -> Screen) : UI A :=
  fun app => let '(r, device) := m returns app.1 in
             (r, (device,
                  foldl (fun screen progress => callback progress screen) app.2
                        (delivered app.1 device))).
Definition update (f : Screen -> Screen) : UI unit :=
  fun app => (Returned tt, (app.1, f app.2)).
Fixpoint each {A} (l : list A) (body : A -> UI unit) : UI unit :=
  match l with
  | [] => pure tt
  | x :: l' => and_then (body x) (fun _ => each l' body)
  end.

Section WithEnv.
Variable env : Env.

(** checkInstalledMushafs (lines 40-47) *)
Definition checkInstalledMushafs : UI unit :=
  each AVAILABLE_MUSHAFS (fun mushaf =>
    and_then (await (DownloadManager.isInstalled env (Mushaf.id mushaf))) (fun isInstalled =>
    if isInstalled : bool
    then update (with_store (MushafStore.addInstalledMushaf (Mushaf.id mushaf)))
    else pure tt)).

(** The progress callback of [handleDownload] (lines 51-58). *)
Definition handleDownload_onProgress (mushaf : Mushaf.t) (progress : DownloadProgress.t)
    (screen : Screen) : Screen :=
  let screen :=
    with_store (MushafStore.setDownloadProgress (Mushaf.id mushaf) progress) screen in
  if bool_decide (DownloadProgress.status progress = completed)
  then setTimeout (Mushaf.id mushaf) 2000
         (with_store (MushafStore.addInstalledMushaf (Mushaf.id mushaf)) screen)
  else screen.

(** handleDownload (lines 49-66) *)
Definition handleDownload (mushaf : Mushaf.t) : UI unit :=
  catching
    (await_with (DownloadManager.downloadMushaf env mushaf)
                (handleDownload_onProgress mushaf))
    (fun error =>
       update (alert "Erreur de téléchargement" (message error) ["OK"])).

(** The handler of the button [Supprimer] of the dialog that
    [handleDelete] shows (lines 77-84). *)
Definition handleDelete_onPress (mushaf : Mushaf.t) : UI unit :=
  catching
    (and_then (await (DownloadManager.deleteMushaf env (Mushaf.id mushaf))) (fun _ =>
     update (with_store (MushafStore.removeInstalledMushaf (Mushaf.id mushaf)))))
    (fun error => update (alert "Erreur" (message error) [])).

(** handleDelete (lines 68-88): the dialog; the deletion waits for its
    button. *)
Definition handleDelete (mushaf : Mushaf.t) : UI unit :=
  update (alert "Supprimer le Mushaf"
            ("Voulez-vous vraiment supprimer " +:+ String "034"%char (Mushaf.name mushaf)
             +:+ String "034"%char " ?")
            ["Annuler"; "Supprimer"]).

(** handleOpenReader (lines 90-93) *)
Definition handleOpenReader (mushaf : Mushaf.t) : UI unit :=
  update (fun screen =>
    navigate "Reader" (Mushaf.id mushaf)
      (with_store (MushafStore.setCurrentMushaf (Mushaf.id mushaf)) screen)).
End WithEnv.

(** *** renderMushafCard (lines 95-186): what the card of an asset shows *)

Inductive CardActions : Type :=
  | ReadAndDelete     (* the buttons Lire and delete *)
  | DownloadingBadge  (* the badge Téléchargement... *)
  | DownloadButton.   (* the button Télécharger *)

Definition isInstalled (store : MushafStore.MushafState) (item : Mushaf.t) : bool :=
  bool_decide (Mushaf.id item ∈ MushafStore.installedMushafs store).

Definition isDownloading (store : MushafStore.MushafState) (item : Mushaf.t) : bool :=
  match MushafStore.downloadProgress store !! Mushaf.id item with
  | Some progress =>
      negb (bool_decide (DownloadProgress.status progress ∈ [completed; failed]))
  | None => false
  end.

Definition cardActions (store : MushafStore.MushafState) (item : Mushaf.t) : CardActions :=
  if isInstalled store item then ReadAndDelete
  else if isDownloading store item then DownloadingBadge
  else DownloadButton.

(** The progress bar, shown while downloading: the step and the rounded
    percentage. *)
Definition progressBar (store : MushafStore.MushafState) (item : Mushaf.t)
    : option (string * Q) :=
  match MushafStore.downloadProgress store !! Mushaf.id item with
  | Some progress =>
      if isDownloading store item
      then Some (DownloadProgress.current_step progress,
                 Math.round (DownloadProgress.progress progress))
      else None
  | None => None
  end.
End LibraryScreen.

(** ** JavaScript numbers and their text *)

(** A number that is an integer, or [NaN]. *)
Inductive Number : Type := Int (n : Z) | NaN.

(** The integers that a number holds exactly, and writes in plain decimal:
    those below 2^53 in magnitude.  Beyond them the arithmetic and the text
    of a JavaScript number are no longer those of the integer. *)
Definition held_exactly (x : Number) : Prop :=
  match x with
  | Int n => - 2 ^ 53 < n < 2 ^ 53
  | NaN => True
  end.

(** [x.toString()] *)
Definition toString (x : Number) : string :=
  match x with
  | Int n => pretty n
  | NaN => "NaN"
  end.

(** The comparisons [x < y], [x > y], [x >= y] and [x <= y]: false as soon
    as one side is [NaN]. *)
Definition less (x y : Number) : bool :=
  match x, y with
  | Int a, Int b => bool_decide (a < b)
  | _, _ => false
  end.
Definition less_or_equal (x y : Number) : bool :=
  match x, y with
  | Int a, Int b => bool_decide (a <= b)
  | _, _ => false
  end.

(** [x + y] and [x - y] *)
Definition plus (x y : Number) : Number :=
  match x, y with
  | Int a, Int b => Int (a + b)
  | _, _ => NaN
  end.
Definition minus (x y : Number) : Number :=
  match x, y with
  | Int a, Int b => Int (a - b)
  | _, _ => NaN
  end.

(** The comparison [x < y] of two numbers that need not be integers. *)
Definition less_than (x y : Q) : bool :=
  if Qlt_le_dec x y then true else false.

(** The white space and line terminators that [parseInt] skips, as the
    bytes of their UTF-8 encoding: one byte (TAB, LF, VT, FF, CR, SP), two
    bytes (U+00A0) or three (U+1680, U+2000-U+200A, U+2028, U+2029,
    U+202F, U+205F, U+3000, U+FEFF). *)
Definition white_space_1 (c : ascii) : bool :=
  let n := nat_of_ascii c in
  ((9 <=? n) && (n <=? 13) || (n =? 32))%nat.
Definition white_space_2 (c0 c1 : ascii) : bool :=
  ((nat_of_ascii c0 =? 194) && (nat_of_ascii c1 =? 160))%nat.
Definition white_space_3 (c0 c1 c2 : ascii) : bool :=
  let n0 := nat_of_ascii c0 in
  let n1 := nat_of_ascii c1 in
  let n2 := nat_of_ascii c2 in
  ((n0 =? 225) && (n1 =? 154) && (n2 =? 128)
   || (n0 =? 226) && (n1 =? 128)
      && ((128 <=? n2) && (n2 <=? 138) || (n2 =? 168) || (n2 =? 169) || (n2 =? 175))
   || (n0 =? 226) && (n1 =? 129) && (n2 =? 159)
   || (n0 =? 227) && (n1 =? 128) && (n2 =? 128)
   || (n0 =? 239) && (n1 =? 187) && (n2 =? 191))%nat.

Fixpoint trimStart (s : string) : string :=
  match s with
  | EmptyString => EmptyString
  | String c0 s0 =>
      if white_space_1 c0 then trimStart s0
      else
        match s0 with
        | EmptyString => s
        | String c1 s1 =>
            if white_space_2 c0 c1 then trimStart s1
            else
              match s1 with
              | EmptyString => s
              | String c2 s2 => if white_space_3 c0 c1 c2 then trimStart s2 else s
              end
        end
  end.

(** The value of a character as a digit of the given radix. *)
Definition digit_value (radix : Z) (c : ascii) : option Z :=
  let n := Z.of_nat (nat_of_ascii c) in
  let value :=
    if (48 <=? n) && (n <=? 57) then Some (n - 48)
    else if (97 <=? n) && (n <=? 122) then Some (n - 87)
    else if (65 <=? n) && (n <=? 90) then Some (n - 55)
    else None in
  match value with
  | Some d => if d <? radix then Some d else None
  | None => None
  end.

(** The number the longest prefix of digits denotes, if there is a digit. *)
Fixpoint digits_value (radix : Z) (s : string) (acc : option Z) : option Z :=
  match s with
  | EmptyString => acc
  | String c s' =>
      match digit_value radix c with
      | Some d => digits_value radix s' (Some (default 0 acc * radix + d))
      | None => acc
      end
  end.

(** [parseInt(string)], without a radix: white space is skipped, then a
    sign, then [0x] or [0X] announces radix 16; the digits that follow are
    read as far as they go, and there has to be one.  The integer read is
    kept as it is; the number [parseInt] returns is that integer when it
    is [held_exactly], and the nearest number otherwise, which compares
    with a small integer as the integer does. *)
Definition parseInt (string : string) : Number :=
  let input := trimStart string in
  let '(sign, input) :=
    match input with
    | String "-"%char rest => (-1, rest)
    | String "+"%char rest => (1, rest)
    | _ => (1, input)
    end in
  let '(radix, input) :=
    match input with
    | String "0"%char (String "x"%char rest) => (16, rest)
    | String "0"%char (String "X"%char rest) => (16, rest)
    | _ => (10, input)
    end in
  match digits_value radix input None with
  | Some mathInt => Int (sign * mathInt)
  | None => NaN
  end.

(** ** src/screens/ReaderScreen.tsx *)

Module ReaderScreen.
Definition TOTAL_PAGES : Z := 604.

Inductive FontVersion : Type := v1 | v2.

(** The state of the component, and the alerts it has shown. *)
Record Reader : Type := mk {
  currentPage : Number;
  showGoToPage : bool;
  goToPageValue : string;
  fontVersion : FontVersion;
  alerts : list (string * string);
}.

Definition initial : Reader := mk (Int 1) false EmptyString v1 [].

Definition setCurrentPage (f : Number -> Number) (reader : Reader) : Reader :=
  mk (f (currentPage reader)) (showGoToPage reader) (goToPageValue reader)
     (fontVersion reader) (alerts reader).
Definition setShowGoToPage (show : bool) (reader : Reader) : Reader :=
  mk (currentPage reader) show (goToPageValue reader) (fontVersion reader) (alerts reader).
Definition setGoToPageValue (value : string) (reader : Reader) : Reader :=
  mk (currentPage reader) (showGoToPage reader) value (fontVersion reader) (alerts reader).
Definition setFontVersion (f : FontVersion -> FontVersion) (reader : Reader) : Reader :=
  mk (currentPage reader) (showGoToPage reader) (goToPageValue reader)
     (f (fontVersion reader)) (alerts reader).
Definition alert (title message : string) (reader : Reader) : Reader :=
  mk (currentPage reader) (showGoToPage reader) (goToPageValue reader)
     (fontVersion reader) (alerts reader ++ [(title, message)]).

Section WithEnv.
Variable env : Env.

(** loadLastPage (lines 261-270) *)
Definition loadLastPage (device : State) (reader : Reader) : State * Reader :=
  match AsyncStorage.getItem env "quran_last_page" device with
  | (Returned lastPage, device') =>
      (device',
       match lastPage with
       | Some (String c s as lastPage) =>
           setCurrentPage (fun _ => parseInt lastPage) reader
       | _ => reader
       end)
  | (Thrown error, device') => (device', reader)   (* console.log *)
  end.

(** saveCurrentPage (lines 272-278) *)
Definition saveCurrentPage (device : State) (reader : Reader) : State * Reader :=
  match AsyncStorage.setItem env "quran_last_page" (toString (currentPage reader)) device with
  | (Returned _, device') => (device', reader)
  | (Thrown error, device') => (device', reader)   (* console.log *)
  end.
End WithEnv.

(** goToNextPage, goToPreviousPage (lines 280-290): callbacks that compare
    the page of the render they belong to, [rendered], and update the
    page of the moment. *)
Definition goToNextPage (rendered : Number) (reader : Reader) : Reader :=
  if less rendered (Int TOTAL_PAGES)
  then setCurrentPage (fun prev => plus prev (Int 1)) reader
  else reader.

Definition goToPreviousPage (rendered : Number) (reader : Reader) : Reader :=
  if less (Int 1) rendered
  then setCurrentPage (fun prev => minus prev (Int 1)) reader
  else reader.

(** The release of a swipe (lines 313-325).  The pan responder is kept in
    a ref (lines 304-327): it is the one the first render created, and
    its handlers call the [goToNextPage] and [goToPreviousPage] of that
    render, in which the page is the initial page, 1.  [dx] and [vx] are
    the distance and the velocity of the gesture. *)
Definition onPanResponderRelease (dx vx : Q) (reader : Reader) : Reader :=
  if less_than 80 dx && less_than 0.3 vx
  then goToNextPage (Int 1) reader
  else if less_than dx (-80) && less_than vx (-0.3)
  then goToPreviousPage (Int 1) reader
  else reader.

(** handleGoToPage (lines 292-301) *)
Definition handleGoToPage (reader : Reader) : Reader :=
  let page := parseInt (goToPageValue reader) in
  if less_or_equal (Int 1) page && less_or_equal page (Int TOTAL_PAGES)
  then setGoToPageValue EmptyString (setShowGoToPage false (setCurrentPage (fun _ => page) reader))
  else alert "خطأ" ("الرجاء إدخال رقم بين 1 و " +:+ pretty TOTAL_PAGES) reader.
End ReaderScreen.

(** ** Vocabulary of the further properties *)

(** The files that are neither [root] nor below it. *)
Definition outside (root : string) (s : State) : gmap string FileContent :=
  filter (fun kv => covers root kv.1 = false) (fs s).

(** The files outside [root] are those of [before], except that a
    directory may have been created at a path of [dirs] that held
    nothing. *)
Definition grown_outside (root : string) (dirs : list string)
    (before after : gmap string FileContent) : Prop :=
  forall path, covers root path = false ->
    after !! path = before !! path \/
    (path ∈ dirs /\ before !! path = None /\ after !! path = Some Directory).

(** The log entries of the presence queries for some paths. *)
Definition presence_queries (paths : list string) : list Event :=
  map (fun filePath => Called (GetInfo filePath)) paths.

(** The files of an asset as the checks of the installation want them: the
    integrity check passes, and the layout database has the expected number
    of lines on every page that is examined. *)
Definition verified (env : Env) (mushaf : Mushaf.t) (files : gmap string FileContent) : Prop :=
  integrity_verdict env (DownloadManager.mushafDir env (Mushaf.id mushaf)) mushaf files
    = Returned tt /\
  exists rows,
    files !! (DownloadManager.mushafDir env (Mushaf.id mushaf) +:+ "mushaf_layout.db")
      = Some (SqliteDatabase rows) /\
    Forall (fun page => line_count rows page = expected_lines page)
           (examined_pages (Mushaf.pages_count mushaf)).

(** *** The page grid of the reader *)

(** The words of a page response, in the order of the response. *)
Definition page_words (pageData : QuranAPI.APIPageResponse.t) : list QuranAPI.APIWord.t :=
  concat (map QuranAPI.APIVerse.words (QuranAPI.APIPageResponse.verses pageData)).

(** The number of lines of the grid of a page. *)
Definition grid (pageNumber : Z) : Z := if bool_decide (pageNumber <= 2) then 8 else 15.

(** The words of the page that the response puts on a line. *)
Definition words_on_line (pageData : QuranAPI.APIPageResponse.t) (lineNum : Z)
    : list QuranAPI.APIWord.t :=
  filter (fun word => QuranAPI.APIWord.line_number word = lineNum) (page_words pageData).

(** The line of the grid with the given number, filled from the response. *)
Definition grid_line (pageData : QuranAPI.APIPageResponse.t) (lineNum : Z)
    : QuranAPI.PageLine.t :=
  QuranAPI.PageLine.mk lineNum (words_on_line pageData lineNum)
    (bool_decide (words_on_line pageData lineNum = [])) QuranAPI.ayah.

(** The words a processed page shows, line after line. *)
Definition shown_words (page : QuranAPI.ProcessedPage.t) : list QuranAPI.APIWord.t :=
  concat (map QuranAPI.PageLine.words (QuranAPI.ProcessedPage.lines page)).

(** *** The store of the library *)

(** The actions of the store that the screens use. *)
Inductive StoreAction : Type :=
  | SetCurrentMushaf (id : Z)
  | SetCurrentPage (page : Z)
  | AddInstalledMushaf (id : Z)
  | RemoveInstalledMushaf (id : Z)
  | SetDownloadProgress (id : Z) (progress : DownloadProgress.t)
  | ClearDownloadProgress (id : Z)
  | SetLoading (loading : bool).

Definition perform (state : MushafStore.MushafState) (action : StoreAction)
    : MushafStore.MushafState :=
  match action with
  | SetCurrentMushaf id => MushafStore.setCurrentMushaf id state
  | SetCurrentPage page => MushafStore.setCurrentPage page state
  | AddInstalledMushaf id => MushafStore.addInstalledMushaf id state
  | RemoveInstalledMushaf id => MushafStore.removeInstalledMushaf id state
  | SetDownloadProgress id progress => MushafStore.setDownloadProgress id progress state
  | ClearDownloadProgress id => MushafStore.clearDownloadProgress id state
  | SetLoading loading => MushafStore.setLoading loading state
  end.

(** The assets of the catalog whose installation flag is set. *)
Definition flagged (s : State) (id : Z) : Prop :=
  id ∈ map Mushaf.id AVAILABLE_MUSHAFS /\
  storage s !! DownloadManager.installed_key id = Some "true".

(** *** The reader *)

(** What the user does with the toolbar, the quick actions and the dialog
    of the reader. *)
Inductive ReaderAction : Type :=
  | PressNext
  | PressPrevious
  | PressHome
  | OpenGoToPage
  | TypePage (text : string)
  | ConfirmGoToPage
  | CancelGoToPage
  | ToggleFont.

(** The handler of each action, called from the render of the state it
    acts on. *)
Definition react (reader : ReaderScreen.Reader) (action : ReaderAction) : ReaderScreen.Reader :=
  match action with
  | PressNext => ReaderScreen.goToNextPage (ReaderScreen.currentPage reader) reader
  | PressPrevious => ReaderScreen.goToPreviousPage (ReaderScreen.currentPage reader) reader
  | PressHome => ReaderScreen.setCurrentPage (fun _ => Int 1) reader
  | OpenGoToPage => ReaderScreen.setShowGoToPage true reader
  | TypePage text => ReaderScreen.setGoToPageValue text reader
  | ConfirmGoToPage => ReaderScreen.handleGoToPage reader
  | CancelGoToPage => ReaderScreen.setShowGoToPage false reader
  | ToggleFont =>
      ReaderScreen.setFontVersion
        (fun v => match v with ReaderScreen.v1 => ReaderScreen.v2 | ReaderScreen.v2 => ReaderScreen.v1 end)
        reader
  end.

(** A page of the book. *)
Definition on_a_page (reader : ReaderScreen.Reader) : Prop :=
  exists n, ReaderScreen.currentPage reader = Int n /\ 1 <= n <= ReaderScreen.TOTAL_PAGES.

(** ** Concrete inputs for the further properties *)

Module Sample.
  (** A device on which only the layout database and the first common font
      of the first asset are present. *)
Definition partial_files : State :=
  Example.with_files
    {[ Example.root +:+ "mushaf_layout.db" := SqliteDatabase [];
       Example.root +:+ "fonts/common/bismillah.ttf" := Blob ]}.

(** A device on which the first asset has been installed. *)
Definition installed : State :=
  (DownloadManager.downloadMushaf Example.env Example.mushaf Example.observer
     Example.idle).2.

(** A word of the first verse of a page, on the given line. *)
Definition word (id line : Z) : QuranAPI.APIWord.t :=
  QuranAPI.APIWord.mk id id None QuranAPI.word EmptyString None 1 line EmptyString None None.

Definition verse (id : Z) (words : list QuranAPI.APIWord.t) : QuranAPI.APIVerse.t :=
  QuranAPI.APIVerse.mk id id "1:1" 1 1 1 1 None 1 1 words.

(** Two verses over the lines 2, 3 and 5 of page 1. *)
Definition page : QuranAPI.APIPageResponse.t :=
  QuranAPI.APIPageResponse.mk
    [verse 1 [word 1 2; word 2 2; word 3 3]; verse 2 [word 4 3; word 5 5]]
    (QuranAPI.Pagination.mk 50 1 None 1 2).

(** The library screen as it starts. *)
Definition screen : LibraryScreen.Screen :=
  LibraryScreen.mkScreen MushafStore.initial [] [] [].

(** A reader on page 42. *)
Definition reader : ReaderScreen.Reader :=
  ReaderScreen.setCurrentPage (fun _ => Int 42) ReaderScreen.initial.
End Sample.

(** [grows m]: running [m] only adds to the log of events. *)
Definition grows {A} (m : M A) : Prop :=
  forall s, events s `prefix_of` events (m s).2.

(** * Properties *)

(** ** Rules for computations *)

Section Basics.
Context {A : Type}.

Lemma bind_returned {B} (m : M A) (k : A -> M B) s a s' :
  m s = (Returned a, s') -> bind m k s = k a s'.
Proof. intros H. unfold bind. now rewrite H. Qed.

Lemma bind_thrown {B} (m : M A) (k : A -> M B) s e s' :
  m s = (Thrown e, s') -> bind m k s = (Thrown e, s').
Proof. intros H. unfold bind. now rewrite H. Qed.

Lemma for_of_returns (body : A -> M unit) :
  (forall x s, (body x s).1 = Returned tt) ->
  forall l s, (for_of l body s).1 = Returned tt.
Proof.
  intros Hbody l. induction l as [|x l IH]; intros s; simpl; [reflexivity|].
  unfold bind. specialize (Hbody x s).
  destruct (body x s) as [[[]|e] s1]; simpl in Hbody; [apply IH | discriminate].
Qed.
End Basics.

Section Hoare.
Context {A B : Type}.

Lemma hoare_bind (P : State -> Prop) (R : Completion A -> State -> Prop)
    (Q : Completion B -> State -> Prop) (m : M A) (k : A -> M B) :
  hoare P m R ->
  (forall e s, R (Thrown e) s -> Q (Thrown e) s) ->
  (forall a, hoare (R (Returned a)) (k a) Q) ->
  hoare P (bind m k) Q.
Proof.
  intros Hm Hthrow Hk s HP. specialize (Hm s HP). unfold bind.
  destruct (m s) as [[a|e] s']; simpl in *.
  - apply Hk, Hm.
  - apply Hthrow, Hm.
Qed.

Lemma hoare_consequence (P P' : State -> Prop) (Q Q' : Completion A -> State -> Prop) (m : M A) :
  hoare P' m Q' -> (forall s, P s -> P' s) -> (forall r s, Q' r s -> Q r s) -> hoare P m Q.
Proof. intros Hm HP HQ s Hs. apply HQ, Hm, HP, Hs. Qed.

Lemma hoare_ret (P : State -> Prop) (Q : Completion A -> State -> Prop) (a : A) :
  (forall s, P s -> Q (Returned a) s) -> hoare P (ret a) Q.
Proof. intros H s Hs. apply H, Hs. Qed.

Lemma hoare_throw (P : State -> Prop) (Q : Completion A -> State -> Prop) (e : Error) :
  (forall s, P s -> Q (Thrown e) s) -> hoare P (throw e) Q.
Proof. intros H s Hs. apply H, Hs. Qed.
End Hoare.

(** *** Observations that a computation leaves alone *)

Section Preserves.
Context {B : Type} (f : State -> B).

Lemma preserves_ret {A} (a : A) : preserves f (ret a).
Proof. intros s. reflexivity. Qed.

Lemma preserves_throw {A} (e : Error) : preserves f (@throw A e).
Proof. intros s. reflexivity. Qed.

Lemma preserves_get : preserves f get.
Proof. intros s. reflexivity. Qed.

Lemma preserves_bind {A C} (m : M A) (k : A -> M C) :
  preserves f m -> (forall a, preserves f (k a)) -> preserves f (bind m k).
Proof.
  intros Hm Hk s. unfold bind. specialize (Hm s).
  destruct (m s) as [[a|e] s']; simpl in *; [rewrite Hk|]; exact Hm.
Qed.

Lemma preserves_try_catch {A} (m : M A) (h : Error -> M A) :
  preserves f m -> (forall e, preserves f (h e)) -> preserves f (try_catch m h).
Proof.
  intros Hm Hh s. unfold try_catch. specialize (Hm s).
  destruct (m s) as [[a|e] s']; simpl in *; [|rewrite Hh]; exact Hm.
Qed.

Lemma preserves_for_of {A} (l : list A) (body : A -> M unit) :
  (forall x, preserves f (body x)) -> preserves f (for_of l body).
Proof.
  intros Hbody. induction l as [|x l IH]; simpl.
  - apply preserves_ret.
  - apply preserves_bind; [apply Hbody | intros _; exact IH].
Qed.

Lemma preserves_modify (g : State -> State) :
  (forall s, f (g s) = f s) -> preserves f (modify g).
Proof. intros Hg s. apply Hg. Qed.

Lemma preserves_if {A} (b : bool) (m1 m2 : M A) :
  preserves f m1 -> preserves f m2 -> preserves f (if b then m1 else m2).
Proof. destruct b; auto. Qed.

Lemma hoare_preserves {A} (m : M A) (v : B) :
  preserves f m -> hoare (fun s => f s = v) m (fun _ s => f s = v).
Proof. intros Hm s Hs. now rewrite Hm. Qed.

Lemma hoare_bind_preserves {A C} (m : M A) (k : A -> M C) (v : B) Q :
  preserves f m ->
  (forall e s, f s = v -> Q (Thrown e) s) ->
  (forall a, hoare (fun s => f s = v) (k a) Q) ->
  hoare (fun s => f s = v) (bind m k) Q.
Proof.
  intros Hm. apply (hoare_bind _ (fun _ s => f s = v)). now apply hoare_preserves.
Qed.

(** What the observation may be blind to. *)
Hypothesis Hcall : forall op s, f (log (Called op) s) = f s.
Hypothesis Hfs : forall g s, f (set_fs g s) = f s.
Hypothesis Hstorage : forall g s, f (set_storage g s) = f s.
Hypothesis Htable : forall g s, f (set_installed_mushafs g s) = f s.
Hypothesis Hclock : forall s, f (tick_clock s) = f s.
Hypothesis Hprogress : forall g s, f (set_progress_object g s) = f s.
Hypothesis Hnotify : forall p s, f (log (Notified p) s) = f s.

Lemma preserves_call env op : preserves f (call env op).
Proof. intros s. unfold call. destruct (faults env op); apply Hcall. Qed.

Ltac frame :=
  repeat first
    [ apply preserves_bind; [|intros ?]
    | apply preserves_for_of; intros ?
    | apply preserves_try_catch; [|intros ?]
    | apply preserves_ret | apply preserves_throw | apply preserves_get
    | apply preserves_call
    | apply preserves_modify; intros ?;
      first [ apply Hcall | apply Hfs | apply Hstorage | apply Htable
            | apply Hprogress | apply Hnotify ]
    | match goal with |- preserves _ (match ?x with _ => _ end) => destruct x end ].

Lemma preserves_makeDirectoryAsync env path : preserves f (makeDirectoryAsync env path).
Proof. unfold makeDirectoryAsync. frame. Qed.

Lemma preserves_deleteAsync env path idempotent : preserves f (deleteAsync env path idempotent).
Proof. unfold deleteAsync. frame. Qed.

Lemma preserves_getInfoAsync env path : preserves f (getInfoAsync env path).
Proof. unfold getInfoAsync. frame. Qed.

Lemma preserves_readDirectoryAsync env path : preserves f (readDirectoryAsync env path).
Proof. unfold readDirectoryAsync. frame. Qed.

Lemma preserves_unzip env source target : preserves f (unzip env source target).
Proof. unfold unzip. frame. Qed.

Lemma preserves_openDatabaseAsync env name : preserves f (SQLite.openDatabaseAsync env name).
Proof. unfold SQLite.openDatabaseAsync. frame. Qed.

Lemma preserves_getFirstAsync env db statement : preserves f (SQLite.getFirstAsync env db statement).
Proof. unfold SQLite.getFirstAsync. frame. Qed.

Lemma preserves_runAsync env db statement : preserves f (SQLite.runAsync env db statement).
Proof. unfold SQLite.runAsync. frame. Qed.

Lemma preserves_setItem env key value : preserves f (AsyncStorage.setItem env key value).
Proof. unfold AsyncStorage.setItem. frame. Qed.

Lemma preserves_removeItem env key : preserves f (AsyncStorage.removeItem env key).
Proof. unfold AsyncStorage.removeItem. frame. Qed.

Lemma preserves_getItem env key : preserves f (AsyncStorage.getItem env key).
Proof. unfold AsyncStorage.getItem. frame. Qed.

Lemma preserves_now env : preserves f (Date.now env).
Proof. intros s. apply Hclock. Qed.

Lemma preserves_assign g : preserves f (DownloadManager.assign g).
Proof. unfold DownloadManager.assign. frame. Qed.

Lemma preserves_invoke onProgress : preserves f (DownloadManager.invoke onProgress).
Proof. intros s. apply Hnotify. Qed.

Lemma preserves_swallow (m : M unit) : preserves f m -> preserves f (swallow m).
Proof. intros Hm. apply preserves_try_catch; [exact Hm | intros; apply preserves_ret]. Qed.

Lemma preserves_downloadFile env url filePath (cb : float -> M unit) :
  (forall p, preserves f (cb p)) ->
  preserves f (DownloadManager.downloadFile env url filePath cb).
Proof.
  intros Hcb. unfold DownloadManager.downloadFile, downloadAsync.
  apply preserves_bind; [|intros [result|]; frame].
  apply preserves_bind; [frame|intros _].
  apply preserves_bind;
    [apply preserves_for_of; intros t; apply preserves_swallow, Hcb|intros _].
  frame.
Qed.

Lemma preserves_database_tick onProgress p :
  preserves f (DownloadManager.database_tick onProgress p).
Proof.
  unfold DownloadManager.database_tick.
  repeat (apply preserves_bind; [apply preserves_assign|intros _]).
  apply preserves_invoke.
Qed.

Lemma preserves_common_fonts_tick onProgress p :
  preserves f (DownloadManager.common_fonts_tick onProgress p).
Proof.
  unfold DownloadManager.common_fonts_tick.
  repeat (apply preserves_bind; [apply preserves_assign|intros _]).
  apply preserves_invoke.
Qed.

Lemma preserves_fonts_tick env onProgress startTime p :
  preserves f (DownloadManager.fonts_tick env onProgress startTime p).
Proof.
  unfold DownloadManager.fonts_tick.
  apply preserves_bind; [apply preserves_now|intros now].
  apply preserves_bind; [apply preserves_assign|intros _].
  apply preserves_invoke.
Qed.

Lemma preserves_verifyIntegrity env dir mushaf :
  preserves f (DownloadManager.verifyIntegrity env dir mushaf).
Proof.
  unfold DownloadManager.verifyIntegrity.
  apply preserves_bind; [apply preserves_for_of; intros ?|intros ?].
  - apply preserves_bind; [apply preserves_getInfoAsync | intros ?; frame].
  - apply preserves_bind; [apply preserves_readDirectoryAsync | intros ?; frame].
Qed.

Lemma preserves_validate15LinesPerPage env dbPath totalPages :
  preserves f (DownloadManager.validate15LinesPerPage env dbPath totalPages).
Proof.
  unfold DownloadManager.validate15LinesPerPage.
  apply preserves_bind; [apply preserves_openDatabaseAsync | intros db].
  apply preserves_bind; [|intros _]; apply preserves_for_of; intros page;
    (apply preserves_bind; [apply preserves_getFirstAsync | intros ?; frame]).
Qed.

Lemma preserves_cleanupPartialDownload env dir :
  preserves f (DownloadManager.cleanupPartialDownload env dir).
Proof.
  unfold DownloadManager.cleanupPartialDownload.
  apply preserves_try_catch; [apply preserves_deleteAsync | intros; apply preserves_ret].
Qed.
End Preserves.

(** ** The reports of a run *)

Lemma last_cons_default {A} (l : list A) (x d : A) :
  List.last (x :: l) d = List.last l x.
Proof.
  revert x d. induction l as [|y l IH]; intros x d; [reflexivity|].
  change (List.last (x :: y :: l) d) with (List.last (y :: l) d).
  now rewrite !IH.
Qed.

Lemma notifications_app evs evs' :
  notifications (evs ++ evs') = notifications evs ++ notifications evs'.
Proof. apply omap_app. Qed.

Lemma reported_log_called op s : reported (log (Called op) s) = reported s.
Proof.
  unfold reported. simpl. rewrite notifications_app. simpl. now rewrite app_nil_r.
Qed.

Lemma reported_log_notified p s :
  reported (log (Notified p) s) = reported s ++ [report p].
Proof.
  unfold reported. simpl. rewrite notifications_app. simpl. now rewrite map_app.
Qed.

(** The platform leaves the view alone. *)
Ltac view_blind :=
  intros; unfold view; cbn [progress events log set_fs set_storage set_installed_mushafs
                            tick_clock];
  rewrite ?reported_log_called; reflexivity.

Section View.
Context {A B : Type}.
Implicit Types (c : Status * Q) (R : list (Status * Q)).

Lemma view_bind_total c R v' (m : M unit) (k : unit -> M B) Q :
  hoare (fun s => view s = (c, R)) m (fun r s => r = Returned tt /\ view s = v') ->
  hoare (fun s => view s = v') (k tt) Q ->
  hoare (fun s => view s = (c, R)) (bind m k) Q.
Proof.
  intros Hm Hk. eapply hoare_bind; [exact Hm | | ].
  - intros e s [? _]. discriminate.
  - intros []. eapply hoare_consequence; [exact Hk | | auto]. now intros s [_ ?].
Qed.

Lemma view_bind c R v' (m : M A) (k : A -> M B) Q :
  hoare (fun s => view s = (c, R)) m (fun _ s => view s = v') ->
  (forall e s, view s = v' -> Q (Thrown e) s) ->
  (forall a, hoare (fun s => view s = v') (k a) Q) ->
  hoare (fun s => view s = (c, R)) (bind m k) Q.
Proof. intros Hm Hthrow Hk. eapply hoare_bind; eauto. Qed.

Lemma view_bind_silent c R (m : M A) (k : A -> M B) Q :
  preserves view m ->
  (forall e s, view s = (c, R) -> Q (Thrown e) s) ->
  (forall a, hoare (fun s => view s = (c, R)) (k a) Q) ->
  hoare (fun s => view s = (c, R)) (bind m k) Q.
Proof. intros Hm. apply view_bind. now apply hoare_preserves. Qed.
End View.

Section ViewSteps.
Variable env : Env.
Implicit Types (c : Status * Q) (R : list (Status * Q)).

Lemma view_assign g g' c R :
  acts_as g g' ->
  hoare (fun s => view s = (c, R)) (DownloadManager.assign g)
        (fun r s => r = Returned tt /\ view s = (g' c, R)).
Proof.
  intros Hg s Hs. split; [reflexivity|].
  unfold view in *. simpl. injection Hs as Hc HR.
  now rewrite Hg, Hc, <- HR.
Qed.

(** An invocation of the callback adds the report of the progress
    object, whether the callback returns or throws; when it throws, it is
    on a snapshot with that report. *)
Lemma view_invoke onProgress c R :
  hoare (fun s => view s = (c, R)) (DownloadManager.invoke onProgress)
        (fun r s => view s = (c, R ++ [c]) /\
           match r with
           | Returned _ => True
           | Thrown e => exists p, report p = c /\ onProgress p = Some e
           end).
Proof.
  intros s Hs. unfold view in *. injection Hs as Hc HR.
  unfold DownloadManager.invoke. cbn [fst snd progress log].
  split; [now rewrite reported_log_notified, Hc, HR|].
  destruct (onProgress (progress s)) as [e|] eqn:E; [|exact I].
  exists (progress s). split; [exact Hc | exact E].
Qed.

Lemma view_invoke_silent onProgress c R :
  hoare (fun s => view s = (c, R)) (DownloadManager.invoke onProgress)
        (fun _ s => view s = (c, R ++ [c])).
Proof. intros s Hs. apply (view_invoke onProgress c R s Hs). Qed.

(** The exception of a tick callback is lost; its report is not. *)
Lemma view_swallow (m : M unit) v v' :
  hoare (fun s => view s = v) m (fun _ s => view s = v') ->
  hoare (fun s => view s = v) (swallow m) (fun r s => r = Returned tt /\ view s = v').
Proof.
  intros Hm s Hs. specialize (Hm s Hs). unfold swallow, try_catch.
  destruct (m s) as [[[]|e] s']; cbn in *; split; first [reflexivity | exact Hm].
Qed.

Lemma view_ticks (cb : float -> M unit) phi ticks :
  reports_percentage cb phi ->
  forall st pct R,
  hoare (fun s => view s = ((st, pct), R))
        (for_of ticks (fun t => swallow (cb (DownloadManager.fraction t))))
        (fun r s => r = Returned tt /\
           let l := map (fun t => Double.exact (DownloadManager.fraction t)) ticks in
           view s = ((st, List.last (map phi l) pct), R ++ map (fun p => (st, phi p)) l)).
Proof.
  intros Hcb. induction ticks as [|t ticks IH]; intros st pct R.
  - apply hoare_ret. intros s Hs. simpl. now rewrite app_nil_r.
  - cbn [for_of]. eapply view_bind_total; [apply view_swallow, Hcb|].
    eapply hoare_consequence; [eapply IH | intros s Hs; exact Hs |].
    intros r s [Hr Hv]. split; [exact Hr|]. cbv zeta in *. cbn [map] in *.
    rewrite Hv, <- app_assoc, (last_cons_default _ _ pct). reflexivity.
Qed.

Lemma view_downloadFile url filePath cb phi st pct R :
  reports_percentage cb phi ->
  hoare (fun s => view s = ((st, pct), R))
        (DownloadManager.downloadFile env url filePath cb)
        (fun _ s =>
           view s = ((st, List.last (map phi (fractions env url)) pct),
                     R ++ map (fun p => (st, phi p)) (fractions env url))).
Proof.
  intros Hcb. unfold DownloadManager.downloadFile, downloadAsync, fractions.
  eapply hoare_bind with (R := fun _ s => view s = _).
  2: { intros e s H. exact H. }
  2: { intros a. apply hoare_preserves.
       destruct a as [result|]; [|apply preserves_throw].
       apply preserves_if; [apply preserves_throw | apply preserves_ret]. }
  eapply view_bind_total.
  { intros s Hs. split; [reflexivity|].
    unfold modify. simpl. unfold view in *. simpl. rewrite reported_log_called. exact Hs. }
  eapply view_bind.
  { eapply hoare_consequence; [apply (view_ticks cb phi _ Hcb st pct R) | auto |].
    intros r s [_ H]. exact H. }
  { intros e s H. exact H. }
  intros []. apply hoare_preserves.
  destruct (Transfer.outcome (remote env url)) as [[result|]|e].
  - apply preserves_bind; [|intros; apply preserves_ret].
    apply preserves_modify. intros s. reflexivity.
  - apply preserves_ret.
  - apply preserves_throw.
Qed.

Lemma view_bind_now {B} v (k : Z -> M B) Q :
  (forall t, hoare (fun s => view s = v) (k t) Q) ->
  hoare (fun s => view s = v) (bind (Date.now env) k) Q.
Proof. intros Hk s Hs. unfold bind, Date.now. apply Hk. exact Hs. Qed.

Lemma acts_as_set_status v :
  acts_as (DownloadProgress.set_status v) (fun c => (v, c.2)).
Proof. intros p. reflexivity. Qed.
Lemma acts_as_set_progress v :
  acts_as (DownloadProgress.set_progress v) (fun c => (c.1, v)).
Proof. intros p. reflexivity. Qed.
Lemma acts_as_set_current_step v :
  acts_as (DownloadProgress.set_current_step v) (fun c => c).
Proof. intros p. reflexivity. Qed.
Lemma acts_as_set_error v :
  acts_as (DownloadProgress.set_error v) (fun c => c).
Proof. intros p. reflexivity. Qed.
Lemma acts_as_set_downloaded_bytes (v : DownloadProgress.t -> float) :
  acts_as (fun p => DownloadProgress.set_downloaded_bytes (v p) p) (fun c => c).
Proof. intros p. reflexivity. Qed.
Lemma acts_as_set_progress' (v : Q) :
  acts_as (fun p => DownloadProgress.set_progress v p) (fun c => (c.1, v)).
Proof. intros p. reflexivity. Qed.
Lemma acts_as_fonts_progress startTime now p :
  acts_as (DownloadManager.fonts_progress startTime now p)
          (fun c => (c.1, (15 + Double.exact p * 60)%Q)).
Proof. intros q. reflexivity. Qed.

Lemma database_tick_reports onProgress :
  reports_percentage (DownloadManager.database_tick onProgress) (fun p => (p * 10)%Q).
Proof.
  intros p st pct R. unfold DownloadManager.database_tick.
  eapply view_bind_total; [apply view_assign, acts_as_set_progress'|].
  eapply view_bind_total; [apply view_assign, acts_as_set_downloaded_bytes|].
  apply view_invoke_silent.
Qed.

Lemma common_fonts_tick_reports onProgress :
  reports_percentage (DownloadManager.common_fonts_tick onProgress)
                     (fun p => (10 + p * 5)%Q).
Proof.
  intros p st pct R. unfold DownloadManager.common_fonts_tick.
  eapply view_bind_total; [apply view_assign, acts_as_set_progress'|].
  apply view_invoke_silent.
Qed.

Lemma fonts_tick_reports onProgress startTime :
  reports_percentage (DownloadManager.fonts_tick env onProgress startTime)
                     (fun p => (15 + p * 60)%Q).
Proof.
  intros p st pct R. unfold DownloadManager.fonts_tick.
  apply view_bind_now. intros now.
  eapply view_bind_total; [apply view_assign, acts_as_fonts_progress|].
  apply view_invoke_silent.
Qed.
End ViewSteps.

Lemma last_app_default {A} (l1 l2 : list A) (x : A) :
  List.last (l1 ++ l2) x = List.last l2 (List.last l1 x).
Proof.
  revert x. induction l1 as [|y l1 IH]; intros x; [reflexivity|].
  cbn [app]. rewrite !last_cons_default. apply IH.
Qed.

Lemma last_map_pair {A B C} (st : A) (phi : B -> C) (l : list B) (x : C) :
  List.last (map (fun p => (st, phi p)) l) (st, x) = (st, List.last (map phi l) x).
Proof.
  revert x. induction l as [|y l IH]; intros x; [reflexivity|].
  cbn [map]. rewrite !last_cons_default. apply IH.
Qed.

Section Body.
Variable env : Env.
Variable mushaf : Mushaf.t.
Variable onProgress : DownloadManager.Callback.
Variable R0 : list (Status * Q).

Ltac vassign :=
  eapply view_bind_total;
  [ apply view_assign;
    first [ apply acts_as_set_status | apply acts_as_set_progress
          | apply acts_as_set_current_step | apply acts_as_set_error ]
  | cbv beta; cbn [fst snd] ].
Ltac last_report :=
  repeat rewrite last_app_default; cbn [List.last app];
  repeat rewrite last_map_pair; reflexivity.
Ltac is_prefix :=
  unfold weighting_before_completion, stage_database, stage_common_fonts, stage_fonts;
  repeat rewrite <- app_assoc; cbn [app];
  repeat first [ apply prefix_nil | apply prefix_cons | apply prefix_app
               | apply prefix_app_r; reflexivity ].
Ltac thrown :=
  let e := fresh "e" in let s := fresh "s" in let H := fresh "H" in
  intros e s H;
  match type of H with
  | view _ = (_, R0 ++ ?L) =>
      exists L; split; [rewrite H; f_equal; symmetry; last_report | left; is_prefix]
  end.
Ltac vnotify :=
  eapply view_bind; [ apply view_invoke_silent | | intros _ ];
  rewrite <- (app_assoc R0); [ thrown | ].
Tactic Notation "vsilent" uconstr(lem) :=
  eapply view_bind_silent; [apply lem; view_blind | thrown | intros ?].
Tactic Notation "vdownload" uconstr(lem) :=
  eapply view_bind; [apply view_downloadFile, lem | | intros _];
  rewrite <- (app_assoc R0); [thrown|].

Lemma downloadMushaf_try_reports :
  hoare (fun s => view s = ((initializing, 0%Q), R0 ++ []))
        (DownloadManager.downloadMushaf_try env mushaf onProgress)
        (try_post onProgress R0
           (fractions env (DownloadUrls.database_sqlite (Mushaf.download_urls mushaf)))
           (fractions env (DownloadUrls.common_fonts_zip (Mushaf.download_urls mushaf)))
           (fractions env (DownloadUrls.fonts_zip (Mushaf.download_urls mushaf)))).
Proof.
  unfold DownloadManager.downloadMushaf_try. cbv zeta.
  vsilent preserves_makeDirectoryAsync.
  vsilent preserves_makeDirectoryAsync.
  vassign. vassign. vnotify.
  vdownload (database_tick_reports onProgress).
  vassign. vnotify.
  vdownload (common_fonts_tick_reports onProgress).
  vassign. vnotify.
  apply view_bind_now. intros startTime.
  vdownload (fonts_tick_reports env onProgress startTime).
  vassign. vassign. vassign. vnotify.
  vsilent preserves_unzip.
  vsilent preserves_deleteAsync.
  vassign. vassign. vnotify.
  vsilent preserves_unzip.
  vsilent preserves_deleteAsync.
  vassign. vnotify.
  vassign. vassign. vnotify.
  vsilent preserves_verifyIntegrity.
  vsilent preserves_validate15LinesPerPage.
  vsilent preserves_openDatabaseAsync.
  apply view_bind_now. intros installed_at.
  vsilent preserves_runAsync.
  vsilent preserves_setItem.
  vsilent preserves_setItem.
  vassign. vassign. vassign.
  eapply hoare_consequence; [apply view_invoke | intros s H; exact H |].
  intros r s [H Hr]. rewrite <- (app_assoc R0) in H.
  match type of H with
  | view _ = (_, R0 ++ ?L) =>
      assert (HL : L = weighting
                (fractions env (DownloadUrls.database_sqlite (Mushaf.download_urls mushaf)))
                (fractions env (DownloadUrls.common_fonts_zip (Mushaf.download_urls mushaf)))
                (fractions env (DownloadUrls.fonts_zip (Mushaf.download_urls mushaf))));
      [|exists L; split; [rewrite H; f_equal; symmetry; last_report|]]
  end.
  { unfold weighting, weighting_before_completion, stage_database, stage_common_fonts,
      stage_fonts.
    repeat rewrite <- app_assoc. reflexivity. }
  destruct r as [[]|e]; [exact HL|].
  right. split; [exact HL|].
  destruct Hr as (p & Hp & Hthrows). exists p, e. split; [|exact Hthrows].
  apply (f_equal fst) in Hp. exact Hp.
Qed.
End Body.

(** ** The run as a whole *)

Section Run.
Variable env : Env.
Variable mushaf : Mushaf.t.
Variable onProgress : DownloadManager.Callback.

(** [downloadMushaf] in terms of its [try] block. *)
Lemma downloadMushaf_unfold s :
  DownloadManager.downloadMushaf env mushaf onProgress s =
  match DownloadManager.downloadMushaf_try env mushaf onProgress
          (DownloadManager.downloadMushaf_enter mushaf s) with
  | (Returned a, s2) => (Returned a, DownloadManager.downloadMushaf_finally mushaf s2)
  | (Thrown e, s2) =>
      match onProgress (failed_snapshot e s2) with
      | None =>
          (Thrown e,
           DownloadManager.downloadMushaf_finally mushaf
             (DownloadManager.cleanupPartialDownload env
                (DownloadManager.mushafDir env (Mushaf.id mushaf))
                (failed_reported e s2)).2)
      | Some e' =>
          (Thrown e', DownloadManager.downloadMushaf_finally mushaf (failed_reported e s2))
      end
  end.
Proof.
  unfold DownloadManager.downloadMushaf, bind, modify, finally, try_catch.
  destruct (DownloadManager.downloadMushaf_try env mushaf onProgress _) as [[a|e] s2];
    [reflexivity|].
  unfold DownloadManager.downloadMushaf_catch, bind, DownloadManager.assign, modify,
    DownloadManager.invoke, throw. cbn [fst snd].
  change (progress (set_progress_object _ (set_progress_object _ (set_progress_object _ s2))))
    with (failed_snapshot e s2).
  change (log (Notified (failed_snapshot e s2))
            (set_progress_object _ (set_progress_object _ (set_progress_object _ s2))))
    with (failed_reported e s2).
  destruct (onProgress (failed_snapshot e s2)) as [e'|]; [reflexivity|].
  unfold DownloadManager.cleanupPartialDownload, try_catch.
  destruct (deleteAsync env _ true (failed_reported e s2)) as [[[]|e'] s3]; reflexivity.
Qed.
End Run.

Section Reports.
Variable env : Env.
Variable mushaf : Mushaf.t.
Variable onProgress : DownloadManager.Callback.

Lemma reported_failed_reported e s2 :
  reported (failed_reported e s2)
  = reported s2 ++ [(failed, DownloadProgress.progress (progress s2))].
Proof. unfold failed_reported. rewrite reported_log_notified. reflexivity. Qed.

Lemma reported_cleanupPartialDownload dir s :
  reported (DownloadManager.cleanupPartialDownload env dir s).2 = reported s.
Proof.
  assert (Hclean : preserves view (DownloadManager.cleanupPartialDownload env dir))
    by (apply preserves_cleanupPartialDownload; view_blind).
  exact (f_equal snd (Hclean s)).
Qed.

Lemma downloadMushaf_reports s :
  exists L,
    reported (DownloadManager.downloadMushaf env mushaf onProgress s).2 = reported s ++ L /\
    follows_weighting onProgress
      (fractions env (DownloadUrls.database_sqlite (Mushaf.download_urls mushaf)))
      (fractions env (DownloadUrls.common_fonts_zip (Mushaf.download_urls mushaf)))
      (fractions env (DownloadUrls.fonts_zip (Mushaf.download_urls mushaf)))
      (DownloadManager.downloadMushaf env mushaf onProgress s).1 L.
Proof.
  rewrite downloadMushaf_unfold.
  pose proof (downloadMushaf_try_reports env mushaf onProgress (reported s)
                (DownloadManager.downloadMushaf_enter mushaf s)) as Htry.
  destruct (DownloadManager.downloadMushaf_try env mushaf onProgress _) as [[[]|e] s2];
    cbn [fst snd] in *.
  - destruct Htry as (L & Hview & HL).
    { unfold view. simpl. now rewrite app_nil_r. }
    exists L. split; [|exact HL].
    injection Hview as _ HR. exact HR.
  - destruct Htry as (L & Hview & HL).
    { unfold view. simpl. now rewrite app_nil_r. }
    injection Hview as Hc HR.
    exists (L ++ [(failed, (List.last L (initializing, 0%Q)).2)]).
    assert (Hreported : reported (failed_reported e s2)
                        = reported s ++ L ++ [(failed, (List.last L (initializing, 0%Q)).2)]).
    { rewrite reported_failed_reported, HR, <- app_assoc. do 3 f_equal.
      rewrite <- Hc. reflexivity. }
    destruct (onProgress (failed_snapshot e s2)) as [e'|]; cbn [fst snd]; split.
    + exact Hreported.
    + exists L. split; [exact HL | reflexivity].
    + change (reported (DownloadManager.downloadMushaf_finally mushaf ?x))
        with (reported x).
      now rewrite reported_cleanupPartialDownload.
    + exists L. split; [exact HL | reflexivity].
Qed.
End Reports.

(** ** Monotonicity of the weighting *)














(** ** Failure handling *)

Lemma deleteAsync_idempotent_run env path s :
  deleteAsync env path true s =
  match faults env (Delete path) with
  | Some e => (Thrown e, log (Called (Delete path)) s)
  | None =>
      (Returned tt,
       set_fs (fun files => filter (fun kv => covers path kv.1 = false) files)
              (log (Called (Delete path)) s))
  end.
Proof.
  unfold deleteAsync, bind, call, get.
  destruct (faults env (Delete path)); [reflexivity|].
  now rewrite orb_true_r.
Qed.

Lemma cleanupPartialDownload_run env dir s :
  DownloadManager.cleanupPartialDownload env dir s =
  (Returned tt,
   match faults env (Delete dir) with
   | Some _ => log (Called (Delete dir)) s
   | None =>
       set_fs (fun files => filter (fun kv => covers dir kv.1 = false) files)
              (log (Called (Delete dir)) s)
   end).
Proof.
  unfold DownloadManager.cleanupPartialDownload, try_catch.
  rewrite deleteAsync_idempotent_run.
  destruct (faults env (Delete dir)); reflexivity.
Qed.

Lemma lookup_deleted (files : gmap string FileContent) (dir path : string) :
  covers dir path = true ->
  filter (fun kv => covers dir kv.1 = false) files !! path = None.
Proof.
  intros H. apply map_lookup_filter_None. right. intros x _. cbn. congruence.
Qed.

(** C2, as amended: when a step of the [try] block throws [e],
    [downloadMushaf] sets the status to [failed], records the message of
    [e] in the progress object and invokes the callback a last time with
    that snapshot.  When this invocation returns, the destination root is
    deleted and [e] is thrown again; a failure of the deletion does not
    change the error that is thrown.  When this invocation throws, its
    exception is what the caller gets, and the root is not deleted. *)
Theorem failure_is_reported_then_cleaned_up
    (env : Env) (mushaf : Mushaf.t) (onProgress : DownloadManager.Callback)
    (s s2 : State) (e : Error) :
  DownloadManager.downloadMushaf_try env mushaf onProgress
    (DownloadManager.downloadMushaf_enter mushaf s) = (Thrown e, s2) ->
  let run := DownloadManager.downloadMushaf env mushaf onProgress s in
  let root := DownloadManager.mushafDir env (Mushaf.id mushaf) in
  DownloadProgress.status (failed_snapshot e s2) = failed /\
  DownloadProgress.error (failed_snapshot e s2) = Some (message e) /\
  progress run.2 = failed_snapshot e s2 /\
  (onProgress (failed_snapshot e s2) = None ->
   run.1 = Thrown e /\
   events run.2 = events s2 ++ [Notified (failed_snapshot e s2); Called (Delete root)] /\
   (faults env (Delete root) = None ->
    forall path, covers root path = true -> fs run.2 !! path = None) /\
   (forall e', faults env (Delete root) = Some e' -> fs run.2 = fs s2)) /\
  (forall e', onProgress (failed_snapshot e s2) = Some e' ->
   run.1 = Thrown e' /\
   events run.2 = events s2 ++ [Notified (failed_snapshot e s2)] /\
   fs run.2 = fs s2).
Proof.
  intros Htry run root. subst run.
  rewrite downloadMushaf_unfold, Htry. fold root.
  split; [reflexivity|]. split; [reflexivity|].
  destruct (onProgress (failed_snapshot e s2)) as [e0|].
  - split; [reflexivity|]. split; [discriminate|].
    intros e' [= <-]. repeat split; reflexivity.
  - rewrite cleanupPartialDownload_run. cbn [fst snd].
    split; [destruct (faults env (Delete root)); reflexivity|].
    split; [|discriminate]. intros _. split; [reflexivity|].
    destruct (faults env (Delete root)) as [e'|]; cbn.
    + rewrite <- app_assoc. split; [reflexivity|]. split; [discriminate|].
      intros ? _. reflexivity.
    + rewrite <- app_assoc. split; [reflexivity|]. split; [|discriminate].
      intros _ path Hpath. now apply lookup_deleted.
Qed.

(** C2, as stated, fails for a caller whose callback throws when it is
    given the failed snapshot: the transfer of the per-page fonts fails
    (status 404), the callback throws in the [catch] block, and the caller
    gets the exception of the callback instead of the error of the
    transfer, with the root of the asset still in place. *)
Lemma throwing_callback_replaces_the_error :
  ~ cleans_up_and_rethrows Example.env404 Example.mushaf (Example.thrower failed)
      Example.idle.
Proof.
  intros H.
  assert (Htry : (DownloadManager.downloadMushaf_try Example.env404 Example.mushaf
                    (Example.thrower failed)
                    (DownloadManager.downloadMushaf_enter Example.mushaf Example.idle)).1
                 = Thrown (mkError
                     "Échec du téléchargement: https://cdn.qul.tarteel.ai/fonts/qpc_v2_fonts.zip"))
    by (vm_compute; reflexivity).
  destruct (DownloadManager.downloadMushaf_try Example.env404 Example.mushaf
              (Example.thrower failed) _) as [r s2] eqn:E.
  cbn [fst] in Htry. subst r.
  destruct (H _ _ E) as [Hrun _].
  assert (Hcallback : (DownloadManager.downloadMushaf Example.env404 Example.mushaf
                         (Example.thrower failed) Example.idle).1
                      = Thrown (mkError "progress callback"))
    by (vm_compute; reflexivity).
  rewrite Hcallback in Hrun. discriminate Hrun.
Qed.

(** ** The structural line-count check *)

Section LineCount.
Variable env : Env.
Variable dbPath : string.
Variable rows : list PageLine.t.
Hypothesis Hquery : forall page, faults env (GetFirst dbPath (CountPageLines page)) = None.

Lemma getFirstAsync_count page s :
  fs s !! dbPath = Some (SqliteDatabase rows) ->
  SQLite.getFirstAsync env dbPath (CountPageLines page) s =
  (Returned (Some (SQLite.mkCountRow (line_count rows page))),
   log (Called (GetFirst dbPath (CountPageLines page))) s).
Proof.
  intros Hdb. unfold SQLite.getFirstAsync, bind, call, get. rewrite Hquery.
  cbn. rewrite Hdb. reflexivity.
Qed.

Lemma check_page_run expected err page s :
  fs s !! dbPath = Some (SqliteDatabase rows) ->
  check_page env dbPath expected err page s =
  (if bool_decide (line_count rows page ≠ expected page)
   then Thrown (err page (line_count rows page)) else Returned tt,
   log (Called (GetFirst dbPath (CountPageLines page))) s).
Proof.
  intros Hdb. unfold check_page, bind. rewrite getFirstAsync_count by exact Hdb.
  cbn. destruct (bool_decide _); reflexivity.
Qed.

Lemma check_loop expected err pages :
  forall s, fs s !! dbPath = Some (SqliteDatabase rows) ->
  let run := for_of pages (check_page env dbPath expected err) s in
  fs run.2 = fs s /\
  (Forall (fun page => line_count rows page = expected page) pages ->
   run.1 = Returned tt /\ events run.2 = events s ++ count_queries dbPath pages) /\
  (forall before page after,
     pages = before ++ page :: after ->
     Forall (fun page => line_count rows page = expected page) before ->
     line_count rows page ≠ expected page ->
     run.1 = Thrown (err page (line_count rows page)) /\
     events run.2 = events s ++ count_queries dbPath (before ++ [page])).
Proof.
  induction pages as [|p pages IH]; intros s Hdb run; subst run.
  - cbn. split; [reflexivity|]. split.
    + intros _. now rewrite app_nil_r.
    + intros [|? ?] ? ? ?; discriminate.
  - cbn [for_of]. pose proof (check_page_run expected err p s Hdb) as E.
    case_bool_decide as Hp.
    + rewrite (bind_thrown _ _ _ _ _ E).
      cbn. split; [reflexivity|]. split.
      * intros Hall. apply Forall_cons in Hall as [Hall _]. contradiction.
      * intros [|q before] page after Heq Hbefore Hpage.
        -- injection Heq as -> ->. split; reflexivity.
        -- injection Heq as -> ->. apply Forall_cons in Hbefore as [Hq _]. contradiction.
    + rewrite (bind_returned _ _ _ _ _ E).
      assert (Hp' : line_count rows p = expected p)
        by (destruct (decide (line_count rows p = expected p)); tauto).
      destruct (IH (log (Called (GetFirst dbPath (CountPageLines p))) s) Hdb)
        as (Hfs & Hok & Hbad).
      split; [exact Hfs|]. split.
      * intros Hall. apply Forall_cons in Hall as [_ Hall].
        destruct (Hok Hall) as [-> ->]. split; [reflexivity|].
        cbn. now rewrite <- app_assoc.
      * intros [|q before] page after Heq Hbefore Hpage.
        -- injection Heq as -> ->. contradiction.
        -- injection Heq as -> ->. apply Forall_cons in Hbefore as [_ Hbefore].
           destruct (Hbad before page after eq_refl Hbefore Hpage) as [-> ->].
           split; [reflexivity|]. cbn. now rewrite <- app_assoc.
Qed.
End LineCount.

Lemma for_of_app {A} (l1 l2 : list A) (body : A -> M unit) s :
  for_of (l1 ++ l2) body s = (for_of l1 body ;; for_of l2 body) s.
Proof.
  revert s. induction l1 as [|x l1 IH]; intros s; [reflexivity|].
  cbn [app for_of]. unfold bind.
  destruct (body x s) as [[[]|e] s1]; [|reflexivity].
  rewrite IH. reflexivity.
Qed.

Lemma for_of_ext {A} (l : list A) (body body' : A -> M unit) :
  (forall x s, x ∈ l -> body x s = body' x s) ->
  forall s, for_of l body s = for_of l body' s.
Proof.
  induction l as [|x l IH]; intros Hext s; [reflexivity|].
  cbn [for_of]. unfold bind. rewrite Hext by constructor.
  destruct (body' x s) as [[[]|e] s1]; [|reflexivity].
  apply IH. intros y s' Hy. apply Hext. now constructor.
Qed.

(** Both loops of [validate15LinesPerPage] are one pass over the
    examined pages. *)
Lemma validate15LinesPerPage_unfold env dbPath totalPages s :
  DownloadManager.validate15LinesPerPage env dbPath totalPages s =
  (SQLite.openDatabaseAsync env dbPath ;;
   for_of (examined_pages totalPages)
          (check_page env dbPath expected_lines LineCountViolation)) s.
Proof.
  unfold DownloadManager.validate15LinesPerPage.
  destruct (SQLite.openDatabaseAsync env dbPath s) as [[db|e] s1] eqn:Hopen.
  2: { now rewrite !(bind_thrown _ _ _ _ _ Hopen). }
  rewrite !(bind_returned _ _ _ _ _ Hopen).
  assert (db = dbPath) as ->.
  { unfold SQLite.openDatabaseAsync, bind, call in Hopen.
    destruct (faults env _); cbn in Hopen; [discriminate|].
    unfold ret in Hopen. now injection Hopen as -> _. }
  unfold examined_pages. rewrite for_of_app. unfold bind.
  rewrite (for_of_ext [1; 2] _ (check_page env dbPath expected_lines LineCountViolation)).
  2: { intros page s' Hpage. unfold check_page, expected_lines, LineCountViolation.
       rewrite bool_decide_eq_true_2; [reflexivity|].
       apply elem_of_cons in Hpage as [->|Hpage]; [now left|].
       apply elem_of_cons in Hpage as [->|Hpage]; [now right|].
       now apply not_elem_of_nil in Hpage. }
  destruct (for_of [1; 2] _ s1) as [[[]|e] s2]; [|reflexivity].
  apply for_of_ext. intros page s' Hpage.
  apply elem_of_seqZ in Hpage.
  unfold check_page, expected_lines, LineCountViolation.
  rewrite bool_decide_eq_false_2; [reflexivity | lia].
Qed.

Lemma first_failure {A} (P : A -> Prop) `{!forall x, Decision (P x)} (l : list A) :
  ~ Forall P l ->
  exists before x after, l = before ++ x :: after /\ Forall P before /\ ~ P x.
Proof.
  induction l as [|y l IH]; intros Hnot.
  - destruct Hnot. constructor.
  - destruct (decide (P y)) as [Hy|Hy].
    + destruct IH as (before & x & after & -> & Hb & Hx).
      { intros Hl. apply Hnot. now constructor. }
      exists (y :: before), x, after. repeat split; [now constructor | exact Hx].
    + exists [], y, l. repeat split; [constructor | exact Hy].
Qed.

Lemma conforms_examined_pages (rows : list PageLine.t) (totalPages : Z) :
  (line_count rows 1 = 8 /\ line_count rows 2 = 8 /\
   forall page, 3 <= page <= totalPages -> line_count rows page = 15) <->
  Forall (fun page => line_count rows page = expected_lines page) (examined_pages totalPages).
Proof.
  unfold examined_pages. rewrite Forall_app, !Forall_cons, Forall_nil, Forall_forall.
  change (expected_lines 1) with 8. change (expected_lines 2) with 8.
  split.
  - intros (H1 & H2 & H3). repeat split; [exact H1 | exact H2 |].
    intros page Hpage. apply elem_of_seqZ in Hpage.
    unfold expected_lines. rewrite bool_decide_eq_false_2 by lia. apply H3. lia.
  - intros ((H1 & H2 & _) & H3). repeat split; [exact H1 | exact H2 |].
    intros page Hpage. specialize (H3 page).
    unfold expected_lines in H3. rewrite bool_decide_eq_false_2 in H3 by lia.
    apply H3, elem_of_seqZ. lia.
Qed.

(** C1: [validate15LinesPerPage] examines every page from 1 to the declared
    page count, in order and without a gap.  When pages 1 and 2 have 8 rows
    and pages 3 to N have 15 it returns, having queried all of them;
    otherwise it throws the violation that names the first offending page
    and the number of rows found there, having queried the pages up to that
    one. *)
Theorem validate15LinesPerPage_checks_every_page
    (env : Env) (dbPath : string) (rows : list PageLine.t) (totalPages : Z) (s : State) :
  fs s !! dbPath = Some (SqliteDatabase rows) ->
  faults env (OpenDatabase dbPath) = None ->
  (forall page, faults env (GetFirst dbPath (CountPageLines page)) = None) ->
  let run := DownloadManager.validate15LinesPerPage env dbPath totalPages s in
  let conforms :=
    line_count rows 1 = 8 /\ line_count rows 2 = 8 /\
    forall page, 3 <= page <= totalPages -> line_count rows page = 15 in
  (forall page, 1 <= page <= totalPages -> page ∈ examined_pages totalPages) /\
  (conforms ->
   run.1 = Returned tt /\
   events run.2 =
     events s ++ Called (OpenDatabase dbPath)
       :: count_queries dbPath (examined_pages totalPages)) /\
  (~ conforms ->
   exists before page after,
     examined_pages totalPages = before ++ page :: after /\
     Forall (fun p => line_count rows p = expected_lines p) before /\
     line_count rows page ≠ expected_lines page /\
     run.1 = Thrown (LineCountViolation page (line_count rows page)) /\
     events run.2 =
       events s ++ Called (OpenDatabase dbPath)
         :: count_queries dbPath (before ++ [page])).
Proof.
  intros Hdb Hopen Hquery run conforms. subst run conforms.
  rewrite validate15LinesPerPage_unfold.
  assert (E : SQLite.openDatabaseAsync env dbPath s =
              (Returned dbPath, log (Called (OpenDatabase dbPath)) s)).
  { unfold SQLite.openDatabaseAsync, bind, call. now rewrite Hopen. }
  rewrite (bind_returned _ _ _ _ _ E).
  destruct (check_loop env dbPath rows Hquery expected_lines LineCountViolation
              (examined_pages totalPages) (log (Called (OpenDatabase dbPath)) s) Hdb)
    as (_ & Hok & Hbad).
  split; [|split].
  - intros page Hpage. unfold examined_pages.
    destruct (decide (page = 1)) as [->|]; [repeat constructor|].
    destruct (decide (page = 2)) as [->|]; [repeat constructor|].
    apply elem_of_app. right. apply elem_of_seqZ. lia.
  - intros Hconf. apply conforms_examined_pages in Hconf.
    destruct (Hok Hconf) as [-> ->]. split; [reflexivity|].
    cbn [events log]. now rewrite <- app_assoc.
  - intros Hconf. rewrite conforms_examined_pages in Hconf.
    apply first_failure in Hconf as (before & page & after & Heq & Hbefore & Hpage);
      [|intros; apply _].
    exists before, page, after. repeat split; try assumption.
    + apply (Hbad before page after Heq Hbefore Hpage).
    + destruct (Hbad before page after Heq Hbefore Hpage) as [_ ->].
      cbn [events log]. now rewrite <- app_assoc.
Qed.

(** ** The integrity check *)

Section Integrity.
Variable env : Env.

Lemma getInfoAsync_run path s :
  getInfoAsync env path s =
  match faults env (GetInfo path) with
  | Some e => (Thrown e, log (Called (GetInfo path)) s)
  | None => (Returned (mkFileInfo (bool_decide (is_Some (fs s !! path)))),
             log (Called (GetInfo path)) s)
  end.
Proof.
  unfold getInfoAsync, bind, call, get. destruct (faults env (GetInfo path)); reflexivity.
Qed.

Lemma presence_step_run path s :
  (fileInfo <- getInfoAsync env path ;;
   if negb (exists_ fileInfo)
   then throw (mkError ("Fichier manquant: " +:+ path))
   else ret tt) s =
  (match faults env (GetInfo path) with
   | Some e => Thrown e
   | None => if bool_decide (is_Some (fs s !! path))
             then Returned tt else Thrown (MissingAsset path)
   end, log (Called (GetInfo path)) s).
Proof.
  unfold bind. rewrite getInfoAsync_run.
  destruct (faults env (GetInfo path)); [reflexivity|].
  cbn [exists_]. destruct (bool_decide _); reflexivity.
Qed.

Lemma presence_check_run (paths : list string) :
  forall s,
  let run := for_of paths (fun filePath =>
               fileInfo <- getInfoAsync env filePath ;;
               if negb (exists_ fileInfo)
               then throw (mkError ("Fichier manquant: " +:+ filePath))
               else ret tt) s in
  fs run.2 = fs s /\
  run.1 = match first_missing env (fs s) paths with
          | Some e => Thrown e
          | None => Returned tt
          end.
Proof.
  induction paths as [|path paths IH]; intros s run; subst run; [split; reflexivity|].
  cbn [for_of first_missing]. pose proof (presence_step_run path s) as E.
  destruct (faults env (GetInfo path)) as [e|].
  { rewrite (bind_thrown _ _ _ _ _ E). split; reflexivity. }
  destruct (bool_decide (is_Some (fs s !! path))).
  - rewrite (bind_returned _ _ _ _ _ E). apply (IH (log (Called (GetInfo path)) s)).
  - rewrite (bind_thrown _ _ _ _ _ E). split; reflexivity.
Qed.

Lemma readDirectoryAsync_run path s :
  readDirectoryAsync env path s =
  match faults env (ReadDirectory path) with
  | Some e => (Thrown e, log (Called (ReadDirectory path)) s)
  | None =>
      (match fs s !! path with
       | Some Directory => Returned (listing (fs s) path)
       | _ => Thrown (refusal env (ReadDirectory path))
       end, log (Called (ReadDirectory path)) s)
  end.
Proof.
  unfold readDirectoryAsync, bind, call, get.
  destruct (faults env (ReadDirectory path)); [reflexivity|].
  cbn. destruct (fs s !! path) as [[]|]; reflexivity.
Qed.

Lemma verifyIntegrity_verdict mushafDir mushaf s :
  (DownloadManager.verifyIntegrity env mushafDir mushaf s).1 =
  integrity_verdict env mushafDir mushaf (fs s).
Proof.
  unfold DownloadManager.verifyIntegrity, integrity_verdict.
  pose proof (presence_check_run (DownloadManager.criticalFiles mushafDir mushaf) s)
    as [Hfs Hrun].
  unfold bind at 1.
  destruct (for_of _ _ s) as [[[]|e] s1]; cbn [fst snd] in Hfs, Hrun.
  2: { destruct (first_missing _ _ _); [|discriminate]. now injection Hrun as ->. }
  destruct (first_missing _ _ _); [discriminate|].
  unfold bind. rewrite readDirectoryAsync_run, Hfs.
  destruct (faults env (ReadDirectory _)); [reflexivity|].
  destruct (fs s !! _) as [[]|]; try reflexivity.
  unfold fonts_found. cbn. destruct (bool_decide _); reflexivity.
Qed.
End Integrity.

(** C5: once the expected files are present, [verifyIntegrity] throws the
    count mismatch, which carries the declared page count and the number of
    font files found, exactly when the two numbers differ, and returns
    exactly when they are equal. *)
Theorem font_count_check (env : Env) (mushafDir : string) (mushaf : Mushaf.t) (s : State) :
  first_missing env (fs s) (DownloadManager.criticalFiles mushafDir mushaf) = None ->
  faults env (ReadDirectory (mushafDir +:+ "fonts/pages/")) = None ->
  fs s !! (mushafDir +:+ "fonts/pages/") = Some Directory ->
  let expected := Mushaf.pages_count mushaf in
  let found := fonts_found (fs s) mushafDir in
  let run := DownloadManager.verifyIntegrity env mushafDir mushaf s in
  (run.1 = Thrown (AssetCountMismatch expected found) <-> found ≠ expected) /\
  (run.1 = Returned tt <-> found = expected).
Proof.
  intros Hpresent Hread Hdir expected found run. subst run.
  rewrite verifyIntegrity_verdict. unfold integrity_verdict.
  rewrite Hpresent, Hread, Hdir. fold found expected.
  case_bool_decide as Hcount.
  - split; split; intros H; first [assumption | reflexivity | discriminate | contradiction].
  - assert (found = expected) by (destruct (decide (found = expected)); tauto).
    split; split; intros H'; first [assumption | reflexivity | discriminate | contradiction].
Qed.

Lemma first_missing_ext (env : Env) (files files' : gmap string FileContent)
    (paths : list string) :
  (forall path, path ∈ paths -> is_Some (files' !! path) <-> is_Some (files !! path)) ->
  first_missing env files' paths = first_missing env files paths.
Proof.
  induction paths as [|path paths IH]; intros Hsame; [reflexivity|].
  cbn [first_missing]. destruct (faults env (GetInfo path)); [reflexivity|].
  rewrite (bool_decide_ext _ _ (Hsame path (list_elem_of_here _ _))).
  rewrite IH; [reflexivity|]. intros p Hp. apply Hsame. now constructor.
Qed.

Lemma fontFiles_app (l extras : list string) :
  Forall (fun name => endsWith name ".ttf" = false) extras ->
  DownloadManager.fontFiles (l ++ extras) = DownloadManager.fontFiles l.
Proof.
  intros Hextras. unfold DownloadManager.fontFiles. rewrite List.filter_app.
  induction Hextras as [|name extras Hname _ IH]; [apply app_nil_r|].
  cbn [List.filter]. rewrite Hname. exact IH.
Qed.

Lemma fontFiles_Permutation (l l' : list string) :
  l ≡ₚ l' -> DownloadManager.fontFiles l ≡ₚ DownloadManager.fontFiles l'.
Proof.
  unfold DownloadManager.fontFiles.
  induction 1 as [|x l l' _ IH|x y l|l l' l'' _ IH _ IH']; cbn [List.filter].
  - reflexivity.
  - destruct (endsWith x ".ttf"); [now constructor | exact IH].
  - destruct (endsWith x ".ttf"), (endsWith y ".ttf"); try reflexivity. constructor.
  - now transitivity (List.filter (fun file => endsWith file ".ttf") l').
Qed.

(** C10: only the entries of [fonts/pages/] whose name ends with [.ttf] are
    counted.  Entries without that suffix, wherever they come in the
    listing, change neither the font files found nor their number, nor
    the way [verifyIntegrity] completes. *)
Theorem entries_without_ttf_suffix_are_not_counted
    (env : Env) (mushafDir : string) (mushaf : Mushaf.t) (s s' : State)
    (extras : list string) :
  let pagesDir := mushafDir +:+ "fonts/pages/" in
  (forall path, path ∈ DownloadManager.criticalFiles mushafDir mushaf ->
                is_Some (fs s' !! path) <-> is_Some (fs s !! path)) ->
  fs s' !! pagesDir = fs s !! pagesDir ->
  listing (fs s') pagesDir ≡ₚ listing (fs s) pagesDir ++ extras ->
  Forall (fun name => endsWith name ".ttf" = false) extras ->
  DownloadManager.fontFiles (listing (fs s') pagesDir)
    ≡ₚ DownloadManager.fontFiles (listing (fs s) pagesDir) /\
  fonts_found (fs s') mushafDir = fonts_found (fs s) mushafDir /\
  (DownloadManager.verifyIntegrity env mushafDir mushaf s').1 =
  (DownloadManager.verifyIntegrity env mushafDir mushaf s).1.
Proof.
  intros pagesDir Hpresent Hdir Hlisting Hextras.
  assert (Hfonts : DownloadManager.fontFiles (listing (fs s') pagesDir)
                     ≡ₚ DownloadManager.fontFiles (listing (fs s) pagesDir)).
  { rewrite <- (fontFiles_app (listing (fs s) pagesDir) extras Hextras).
    now apply fontFiles_Permutation. }
  assert (Hfound : fonts_found (fs s') mushafDir = fonts_found (fs s) mushafDir).
  { unfold fonts_found. fold pagesDir. f_equal. now apply Permutation_length. }
  split; [exact Hfonts|]. split; [exact Hfound|].
  rewrite !verifyIntegrity_verdict. unfold integrity_verdict. fold pagesDir.
  rewrite (first_missing_ext env (fs s) (fs s') _ Hpresent), Hdir, Hfound.
  reflexivity.
Qed.

(** ** Transfers *)

Lemma swallow_returns (m : M unit) s : (swallow m s).1 = Returned tt.
Proof. unfold swallow, try_catch, ret. destruct (m s) as [[[]|e] s']; reflexivity. Qed.

Lemma downloadAsync_result env url filePath (callback : DownloadProgressData.t -> M unit) s :
  (downloadAsync env url filePath callback s).1 = Transfer.outcome (remote env url).
Proof.
  unfold downloadAsync.
  rewrite (bind_returned _ _ s tt (log (Called (Download url filePath)) s) eq_refl).
  pose proof (for_of_returns (fun tick => swallow (callback tick))
                (fun tick s' => swallow_returns (callback tick) s')
                (Transfer.ticks (remote env url))
                (log (Called (Download url filePath)) s)) as Hloop.
  destruct (for_of _ _ _) as [[[]|e] s1] eqn:E; cbn in Hloop; [|discriminate].
  rewrite (bind_returned _ _ _ _ _ E).
  destruct (Transfer.outcome (remote env url)) as [[result|]|e]; reflexivity.
Qed.

(** C8: [downloadFile] looks at the result of the transfer.  A transfer that
    settles without an exception still fails, with the error that names the
    URL, when there is no result or when its status is not 200; it returns
    only for a result whose status is 200.  An exception of the transfer
    itself is passed on.  What the tick callback does, returning or
    throwing, changes nothing of this. *)
Theorem downloadFile_checks_the_status
    (env : Env) (url filePath : string) (onProgress : float -> M unit) (s : State) :
  let run := DownloadManager.downloadFile env url filePath onProgress s in
  let TransferFailed := mkError ("Échec du téléchargement: " +:+ url) in
  match Transfer.outcome (remote env url) with
  | Thrown e => run.1 = Thrown e
  | Returned None => run.1 = Thrown TransferFailed
  | Returned (Some result) =>
      (DownloadResult.status result = 200 -> run.1 = Returned tt) /\
      (DownloadResult.status result ≠ 200 -> run.1 = Thrown TransferFailed)
  end.
Proof.
  intros run TransferFailed. subst run.
  unfold DownloadManager.downloadFile.
  pose proof (downloadAsync_result env url filePath
                (fun downloadProgress => onProgress (DownloadManager.fraction downloadProgress)) s)
    as Hresult.
  destruct (downloadAsync _ _ _ _ s) as [r s1] eqn:E. cbn [fst] in Hresult. subst r.
  destruct (Transfer.outcome (remote env url)) as [[result|]|e].
  - rewrite (bind_returned _ _ _ _ _ E).
    split; intros Hstatus; case_bool_decide; first [reflexivity | contradiction].
  - rewrite (bind_returned _ _ _ _ _ E). reflexivity.
  - rewrite (bind_thrown _ _ _ _ _ E). reflexivity.
Qed.

(** ** Speed and remaining time *)

(** A number that is greater than 0 is not 0. *)
Lemma positive_is_not_zero (x : float) :
  (0 <? x)%float = true -> (x =? 0)%float = false.
Proof.
  rewrite ltb_spec, FloatAxioms.eqb_spec.
  change (Prim2SF 0%float) with (S754_zero false).
  unfold SFltb, SFeqb, SFcompare.
  destruct (Prim2SF x) as [sx|sx| |sx mx ex]; try discriminate;
    destruct sx; first [discriminate | reflexivity].
Qed.

(** C9, as amended: every tick of the per-page-fonts transfer delivers a
    snapshot whose speed is 0 when the elapsed time is not greater than 0
    and the downloaded megabytes divided by the elapsed seconds when it
    is, and whose remaining time is 0 when that speed is not greater than 0
    and the rounded quotient of the remaining bytes by the speed in bytes
    per second when it is; the elapsed time and the speed that are divided
    by are not 0.  The numbers are binary64 numbers and the operations
    those of the code. *)
Theorem speed_and_eta_are_guarded
    (env : Env) (onProgress : DownloadManager.Callback) (startTime : Z) (p : float)
    (s : State) :
  let elapsed := elapsed_seconds startTime (clock env (clock_reads s)) in
  let bytesDownloaded := (p * DownloadProgress.total_bytes (progress s) * 0.6)%float in
  let remainingBytes := (DownloadProgress.total_bytes (progress s) - bytesDownloaded)%float in
  let run := DownloadManager.fonts_tick env onProgress startTime p s in
  let snapshot := fonts_snapshot env startTime p s in
  let speed := DownloadProgress.speed_mbps snapshot in
  events run.2 = events s ++ [Notified snapshot] /\
  ((0 <? elapsed)%float = false -> speed = 0%float) /\
  ((0 <? elapsed)%float = true ->
   speed = (bytesDownloaded / 1024 / 1024 / elapsed)%float /\
   (elapsed =? 0)%float = false) /\
  ((0 <? speed)%float = false -> DownloadProgress.eta_seconds snapshot = 0%float) /\
  ((0 <? speed)%float = true ->
   DownloadProgress.eta_seconds snapshot
   = Double.round (remainingBytes / (speed * 1024 * 1024))%float /\
   (speed =? 0)%float = false).
Proof.
  intros elapsed bytesDownloaded remainingBytes run snapshot speed.
  split; [reflexivity|].
  assert (Hspeed : speed = if (0 <? elapsed)%float
                           then (bytesDownloaded / 1024 / 1024 / elapsed)%float
                           else 0%float)
    by reflexivity.
  assert (Heta : DownloadProgress.eta_seconds snapshot =
                 if (0 <? speed)%float
                 then Double.round (remainingBytes / (speed * 1024 * 1024))%float
                 else 0%float)
    by reflexivity.
  repeat split.
  - intros H. now rewrite Hspeed, H.
  - now rewrite Hspeed, H.
  - now apply positive_is_not_zero.
  - intros H. now rewrite Heta, H.
  - now rewrite Heta, H.
  - now apply positive_is_not_zero.
Qed.

(** C9, as stated, fails when the clock is set back while the transfer
    runs: for a transfer started at the reading 1000 and a tick at the
    reading 0, the elapsed time is -1 second, not 0, and the speed
    delivered is 0, not the downloaded megabytes divided by the elapsed
    seconds. *)
Lemma speed_is_zero_for_a_negative_elapsed_time :
  ~ speed_and_eta_when_not_zero Example.backwards_clock
      (clock Example.backwards_clock 0) 0.5 (tick_clock Example.idle).
Proof.
  intros (_ & Hspeed & _).
  specialize (Hspeed eq_refl). vm_compute in Hspeed. discriminate.
Qed.

(** ** Uninstalling and querying *)

Lemma list_ascii_of_string_app (s1 s2 : string) :
  list_ascii_of_string (s1 +:+ s2) = list_ascii_of_string s1 ++ list_ascii_of_string s2.
Proof. induction s1 as [|a s1 IH]; simpl; [reflexivity | f_equal; exact IH]. Qed.

Lemma list_ascii_of_string_inj (s1 s2 : string) :
  list_ascii_of_string s1 = list_ascii_of_string s2 -> s1 = s2.
Proof.
  intros H. rewrite <- (string_of_list_ascii_of_string s1),
    <- (string_of_list_ascii_of_string s2). now rewrite H.
Qed.

Lemma string_app_inj_r (t s1 s2 : string) : s1 +:+ t = s2 +:+ t -> s1 = s2.
Proof.
  intros H. apply list_ascii_of_string_inj.
  apply (f_equal list_ascii_of_string) in H.
  rewrite !list_ascii_of_string_app in H. now apply app_inv_tail in H.
Qed.

Lemma installed_key_inj a b :
  DownloadManager.installed_key a = DownloadManager.installed_key b -> a = b.
Proof.
  unfold DownloadManager.installed_key. intros H.
  apply (inj (String.app "mushaf_")) in H. apply string_app_inj_r in H.
  now apply (inj pretty) in H.
Qed.

Lemma path_key_inj a b :
  DownloadManager.path_key a = DownloadManager.path_key b -> a = b.
Proof.
  unfold DownloadManager.path_key. intros H.
  apply (inj (String.app "mushaf_")) in H. apply string_app_inj_r in H.
  now apply (inj pretty) in H.
Qed.

Lemma installed_key_not_path_key a b :
  DownloadManager.installed_key a ≠ DownloadManager.path_key b.
Proof.
  unfold DownloadManager.installed_key, DownloadManager.path_key. intros H.
  apply (inj (String.app "mushaf_")) in H.
  apply (f_equal list_ascii_of_string) in H.
  rewrite !list_ascii_of_string_app in H.
  apply (f_equal (@rev _)) in H. rewrite !rev_app_distr in H.
  cbn in H. discriminate.
Qed.

Lemma deleteMushaf_run (env : Env) (mushafId : Z) (s : State) :
  faults env (Delete (DownloadManager.mushafDir env mushafId)) = None ->
  faults env (OpenDatabase DB_NAME) = None ->
  faults env (Run DB_NAME (DeleteInstalledMushaf mushafId)) = None ->
  faults env (RemoveItem (DownloadManager.installed_key mushafId)) = None ->
  faults env (RemoveItem (DownloadManager.path_key mushafId)) = None ->
  DownloadManager.deleteMushaf env mushafId s =
  (Returned tt,
   mkState (filter (fun kv => covers (DownloadManager.mushafDir env mushafId) kv.1 = false)
                   (fs s))
           (delete (DownloadManager.path_key mushafId)
                   (delete (DownloadManager.installed_key mushafId) (storage s)))
           (delete mushafId (installed_mushafs s))
           (activeDownloads s) (progressCallbacks s) (progress s) (clock_reads s)
           (events s ++ [Called (Delete (DownloadManager.mushafDir env mushafId));
                         Called (OpenDatabase DB_NAME);
                         Called (Run DB_NAME (DeleteInstalledMushaf mushafId));
                         Called (RemoveItem (DownloadManager.installed_key mushafId));
                         Called (RemoveItem (DownloadManager.path_key mushafId))])).
Proof.
  intros Hdelete Hopen Hrun Hik Hpk.
  unfold DownloadManager.deleteMushaf.
  assert (E1 := deleteAsync_idempotent_run env (DownloadManager.mushafDir env mushafId) s).
  rewrite Hdelete in E1. rewrite (bind_returned _ _ _ _ _ E1).
  unfold SQLite.openDatabaseAsync, SQLite.runAsync, AsyncStorage.removeItem,
    bind, call, get, modify, ret.
  change "mushaf_library.db" with DB_NAME.
  rewrite Hopen, Hrun, Hik, Hpk.
  rewrite (bool_decide_eq_true_2 (DB_NAME = DB_NAME) eq_refl).
  lazy beta iota delta
    [set_storage set_installed_mushafs set_fs log fs storage installed_mushafs
     activeDownloads progressCallbacks progress clock_reads events].
  repeat rewrite <- app_assoc. reflexivity.
Qed.

(** C7: [deleteMushaf] returns for every identifier, installed or not, as
    long as the platform calls themselves do not fail.  Afterwards nothing
    is left at or below the root of the asset, the catalog has no row for
    the identifier and both of its keys are absent from the key-value
    store, while the rows and keys of every other identifier are as before.
    Where nothing of the asset was there, files, catalog and store are
    unchanged; a second call changes nothing any more. *)
Theorem deleteMushaf_is_idempotent_and_local (env : Env) (mushafId : Z) (s : State) :
  let root := DownloadManager.mushafDir env mushafId in
  let ik := DownloadManager.installed_key mushafId in
  let pk := DownloadManager.path_key mushafId in
  faults env (Delete root) = None ->
  faults env (OpenDatabase DB_NAME) = None ->
  faults env (Run DB_NAME (DeleteInstalledMushaf mushafId)) = None ->
  faults env (RemoveItem ik) = None ->
  faults env (RemoveItem pk) = None ->
  let run := DownloadManager.deleteMushaf env mushafId s in
  let again := DownloadManager.deleteMushaf env mushafId run.2 in
  run.1 = Returned tt /\
  (forall path, covers root path = true -> fs run.2 !! path = None) /\
  installed_mushafs run.2 !! mushafId = None /\
  storage run.2 !! ik = None /\ storage run.2 !! pk = None /\
  (forall other, other ≠ mushafId ->
     installed_mushafs run.2 !! other = installed_mushafs s !! other /\
     storage run.2 !! DownloadManager.installed_key other
       = storage s !! DownloadManager.installed_key other /\
     storage run.2 !! DownloadManager.path_key other
       = storage s !! DownloadManager.path_key other) /\
  ((forall path, covers root path = true -> fs s !! path = None) ->
   installed_mushafs s !! mushafId = None ->
   storage s !! ik = None -> storage s !! pk = None ->
   fs run.2 = fs s /\ installed_mushafs run.2 = installed_mushafs s /\
   storage run.2 = storage s) /\
  (again.1 = Returned tt /\ fs again.2 = fs run.2 /\
   installed_mushafs again.2 = installed_mushafs run.2 /\
   storage again.2 = storage run.2).
Proof.
  intros root ik pk Hdelete Hopen Hrun Hik Hpk run again. subst run again.
  rewrite !(fun s' => deleteMushaf_run env mushafId s' Hdelete Hopen Hrun Hik Hpk).
  cbn [fst snd fs storage installed_mushafs]. fold root ik pk.
  assert (Hfiles : forall files : gmap string FileContent,
            (forall path, covers root path = true -> files !! path = None) ->
            filter (fun kv => covers root kv.1 = false) files = files).
  { intros files Hnone. apply map_filter_id. intros path x Hx. cbn.
    destruct (covers root path) eqn:E; [|reflexivity].
    rewrite (Hnone path E) in Hx. discriminate. }
  split; [reflexivity|]. split; [intros path Hpath; now apply lookup_deleted|].
  split; [apply lookup_delete_eq|].
  split.
  { rewrite lookup_delete_ne by (symmetry; apply installed_key_not_path_key).
    apply lookup_delete_eq. }
  split; [apply lookup_delete_eq|].
  split; [|split].
  - intros other Hother. split; [now apply lookup_delete_ne|]. split.
    + rewrite !lookup_delete_ne; [reflexivity | |].
      * intros H. apply Hother. symmetry. now apply installed_key_inj.
      * intros H. symmetry in H. now apply installed_key_not_path_key in H.
    + rewrite !lookup_delete_ne; [reflexivity | |].
      * apply installed_key_not_path_key.
      * intros H. apply Hother. symmetry. now apply path_key_inj.
  - intros Hfs Htable Hi Hp. split; [now apply Hfiles|].
    split; [now apply delete_id|].
    rewrite (delete_id (storage s) ik Hi). now apply delete_id.
  - split; [reflexivity|]. split; [|split].
    + apply Hfiles. intros path Hpath. now apply lookup_deleted.
    + apply delete_id, lookup_delete_eq.
    + rewrite (delete_id _ ik).
      * apply delete_id, lookup_delete_eq.
      * rewrite lookup_delete_ne by (symmetry; apply installed_key_not_path_key).
        apply lookup_delete_eq.
Qed.

(** ** Timestamps *)

Lemma matches_app (p1 p2 : list CharClass) (s1 s2 : string) :
  matches p1 s1 = true -> matches p2 s2 = true -> matches (p1 ++ p2) (s1 +:+ s2) = true.
Proof.
  revert s1. induction p1 as [|[|a] p1 IH]; intros [|c s1] H1 H2;
    cbn [matches app] in H1 |- *; try discriminate; try assumption.
  - change (String c s1 +:+ s2) with (String c (s1 +:+ s2)).
    apply andb_true_iff in H1 as [Hc H1]. rewrite Hc. cbn [andb]. now apply IH.
  - change (String c s1 +:+ s2) with (String c (s1 +:+ s2)).
    apply andb_true_iff in H1 as [Hc H1]. rewrite Hc. cbn [andb]. now apply IH.
Qed.

Lemma digit_is_digit (n : Z) : is_digit (Date.digit n) = true.
Proof.
  unfold is_digit, Date.digit.
  pose proof (Z.mod_pos_bound n 10 ltac:(lia)) as Hn.
  rewrite nat_ascii_embedding by lia.
  apply andb_true_iff. split; apply Nat.leb_le; lia.
Qed.

Lemma digits_match (width : nat) (n : Z) :
  matches (repeat Digit width) (Date.digits width n) = true.
Proof.
  revert n. induction width as [|w IH]; intros n; [reflexivity|].
  cbn [Date.digits]. change (repeat Digit (S w)) with (Digit :: repeat Digit w).
  rewrite repeat_cons. apply matches_app; [apply IH|].
  change (matches [Digit] (String (Date.digit n) EmptyString)) with (is_digit (Date.digit n) && true).
  now rewrite digit_is_digit.
Qed.

Lemma year_string_matches (y : Z) :
  matches (repeat Digit 4) (Date.year_string y) = true \/
  matches (Lit "+"%char :: repeat Digit 6) (Date.year_string y) = true \/
  matches (Lit "-"%char :: repeat Digit 6) (Date.year_string y) = true.
Proof.
  unfold Date.year_string.
  destruct ((0 <=? y) && (y <=? 9999)); [|destruct (y <? 0)].
  - left. apply digits_match.
  - right. right.
    change ("-" +:+ Date.digits 6 (- y)) with (String "-" (Date.digits 6 (- y))).
    change (matches (Lit "-"%char :: repeat Digit 6) (String "-" (Date.digits 6 (- y))))
      with (bool_decide ("-"%char = "-"%char) && matches (repeat Digit 6) (Date.digits 6 (- y))).
    now rewrite digits_match.
  - right. left.
    change ("+" +:+ Date.digits 6 y) with (String "+" (Date.digits 6 y)).
    change (matches (Lit "+"%char :: repeat Digit 6) (String "+" (Date.digits 6 y)))
      with (bool_decide ("+"%char = "+"%char) && matches (repeat Digit 6) (Date.digits 6 y)).
    now rewrite digits_match.
Qed.

Lemma rest_matches (a b c e f g : Z) :
  matches after_the_year
    ("-" +:+ Date.digits 2 a +:+ "-" +:+ Date.digits 2 b +:+ "T" +:+
     Date.digits 2 c +:+ ":" +:+ Date.digits 2 e +:+ ":" +:+
     Date.digits 2 f +:+ "." +:+ Date.digits 3 g +:+ "Z") = true.
Proof.
  change after_the_year
    with ([Lit "-"%char] ++ repeat Digit 2 ++ [Lit "-"%char] ++ repeat Digit 2
          ++ [Lit "T"%char] ++ repeat Digit 2 ++ [Lit ":"%char] ++ repeat Digit 2
          ++ [Lit ":"%char] ++ repeat Digit 2 ++ [Lit "."%char] ++ repeat Digit 3
          ++ [Lit "Z"%char]).
  repeat (apply matches_app; [first [apply digits_match | reflexivity]|]).
  reflexivity.
Qed.

Lemma toISOString_is_iso8601 (ms : Z) : is_iso8601 (Date.toISOString ms) = true.
Proof.
  unfold is_iso8601, Date.toISOString.
  destruct (Date.civil (ms / 86400000)) as [[y m] d].
  set (t := ms mod 86400000).
  pose proof (rest_matches m d (t / 3600000) (t / 60000 mod 60) (t / 1000 mod 60)
                (t mod 1000)) as Hrest.
  destruct (year_string_matches y) as [H|[H|H]];
    pose proof (matches_app _ _ _ _ H Hrest) as E.
  - rewrite E. reflexivity.
  - change ((Lit "+"%char :: repeat Digit 6) ++ after_the_year)
      with (Lit "+"%char :: repeat Digit 6 ++ after_the_year) in E.
    rewrite E. now rewrite orb_true_r.
  - change ((Lit "-"%char :: repeat Digit 6) ++ after_the_year)
      with (Lit "-"%char :: repeat Digit 6 ++ after_the_year) in E.
    rewrite E. now rewrite orb_true_r.
Qed.

(** ** Installation records *)

Section Records.
Variable env : Env.
Variable onProgress : DownloadManager.Callback.

Lemma hoare_bind_returned {A B} (P : State -> Prop) (R : A -> State -> Prop)
    (Q : Completion B -> State -> Prop) (m : M A) (k : A -> M B) :
  hoare P m (fun r s => forall a, r = Returned a -> R a s) ->
  (forall a, hoare (R a) (k a) Q) ->
  (forall e s, Q (Thrown e) s) ->
  hoare P (bind m k) Q.
Proof.
  intros Hm Hk Hthrow. eapply hoare_bind; [exact Hm | | ].
  - intros e s _. apply Hthrow.
  - intros a. eapply hoare_consequence; [apply Hk | | auto].
    intros s H. now apply H.
Qed.

Lemma hoare_preserves_returned {A B} (f : State -> B) (m : M A) (v : B) :
  preserves f m ->
  hoare (fun s => f s = v) m (fun r s => forall a : A, r = Returned a -> f s = v).
Proof. intros Hm s Hs a _. now rewrite Hm. Qed.

Lemma hoare_pure {A} (phi : Prop) (P : State -> Prop) (m : M A) Q :
  (phi -> hoare P m Q) -> hoare (fun s => phi /\ P s) m Q.
Proof. intros H s [Hphi Hs]. now apply H. Qed.

Ltac records_blind := intros; reflexivity.

Tactic Notation "kept" uconstr(lem) :=
  eapply hoare_bind_returned;
  [ apply hoare_preserves_returned; apply lem; records_blind
  | intros ?
  | intros; discriminate ].

Tactic Notation "transferred" uconstr(tick) :=
  eapply hoare_bind_returned;
  [ apply hoare_preserves_returned; apply preserves_downloadFile;
    first [ solve [records_blind] | intros ?; apply tick; records_blind ]
  | intros ?
  | intros; discriminate ].

Lemma openDatabaseAsync_records name v :
  hoare (fun s => records s = v) (SQLite.openDatabaseAsync env name)
        (fun r s => forall db, r = Returned db -> db = name /\ records s = v).
Proof.
  intros s Hs db. unfold SQLite.openDatabaseAsync, bind, call.
  destruct (faults env _); cbn; [discriminate|].
  unfold ret. intros [= <-]. split; [reflexivity | exact Hs].
Qed.

Lemma runAsync_insert_records id row table items :
  hoare (fun s => records s = (table, items))
        (SQLite.runAsync env DB_NAME (InsertInstalledMushaf id row))
        (fun r s => forall a : unit, r = Returned a ->
           table !! id = None /\ records s = (<[id := row]> table, items)).
Proof.
  intros s Hs a. injection Hs as Ht Hi.
  unfold SQLite.runAsync, bind, call, get.
  destruct (faults env _); cbn; [discriminate|].
  rewrite (bool_decide_eq_true_2 (DB_NAME = DB_NAME) eq_refl).
  destruct (installed_mushafs s !! id) eqn:E; cbn; [discriminate|].
  intros _. unfold records. cbn. rewrite <- Ht, <- Hi. split; [exact E | reflexivity].
Qed.

Lemma setItem_records key value table items :
  hoare (fun s => records s = (table, items))
        (AsyncStorage.setItem env key value)
        (fun r s => forall a : unit, r = Returned a ->
           records s = (table, <[key := value]> items)).
Proof.
  intros s Hs a. injection Hs as Ht Hi.
  unfold AsyncStorage.setItem, bind, call.
  destruct (faults env _); cbn; [discriminate|].
  intros _. unfold records. cbn. now rewrite <- Ht, <- Hi.
Qed.

Lemma downloadMushaf_try_records mushaf v :
  hoare (fun s => records s = v) (DownloadManager.downloadMushaf_try env mushaf onProgress)
        (fun r s => r = Returned tt -> recorded env mushaf v (records s)).
Proof.
  unfold DownloadManager.downloadMushaf_try. cbv zeta.
  kept preserves_makeDirectoryAsync.
  kept preserves_makeDirectoryAsync.
  kept preserves_assign. kept preserves_assign. kept preserves_invoke.
  transferred preserves_database_tick.
  kept preserves_assign. kept preserves_invoke.
  transferred preserves_common_fonts_tick.
  kept preserves_assign. kept preserves_invoke.
  kept preserves_now.
  transferred preserves_fonts_tick.
  kept preserves_assign. kept preserves_assign. kept preserves_assign.
  kept preserves_invoke.
  kept preserves_unzip. kept preserves_deleteAsync.
  kept preserves_assign. kept preserves_assign. kept preserves_invoke.
  kept preserves_unzip. kept preserves_deleteAsync.
  kept preserves_assign. kept preserves_invoke.
  kept preserves_assign. kept preserves_assign. kept preserves_invoke.
  kept preserves_verifyIntegrity.
  kept preserves_validate15LinesPerPage.
  eapply hoare_bind_returned;
    [apply openDatabaseAsync_records | intros mainDb | intros; discriminate].
  apply hoare_pure. intros ->.
  kept preserves_now.
  destruct v as [table items].
  eapply hoare_bind_returned;
    [apply runAsync_insert_records | intros ? | intros; discriminate].
  apply hoare_pure. intros Hnew.
  eapply hoare_bind_returned; [apply setItem_records | intros ? | intros; discriminate].
  eapply hoare_bind_returned; [apply setItem_records | intros ? | intros; discriminate].
  kept preserves_assign. kept preserves_assign. kept preserves_assign.
  intros s Hs _. eexists. split; [exact Hnew|].
  change (records (DownloadManager.invoke onProgress s).2) with (records s).
  rewrite Hs. split; reflexivity.
Qed.
End Records.

Lemma getItem_run env key s :
  faults env (GetItem key) = None ->
  AsyncStorage.getItem env key s = (Returned (storage s !! key), log (Called (GetItem key)) s).
Proof. intros H. unfold AsyncStorage.getItem, bind, call, get. now rewrite H. Qed.

(** C6: after [downloadMushaf] has returned, whatever the callback of the
    caller did on the way, the catalog is the catalog of
    before with one row more, the row of the asset's identifier, carrying
    the descriptor's name, code, page count and lines per page, the root of
    the asset and the ISO-8601 timestamp of a clock reading; the key-value
    store has the two flags of the asset, so that [isInstalled] answers
    true and [getMushafPath] the root. *)
Theorem installation_is_recorded
    (env : Env) (mushaf : Mushaf.t) (onProgress : DownloadManager.Callback) (s : State) :
  let run := DownloadManager.downloadMushaf env mushaf onProgress s in
  let id := Mushaf.id mushaf in
  let root := DownloadManager.mushafDir env id in
  run.1 = Returned tt ->
  (exists t,
     installed_mushafs s !! id = None /\
     installed_mushafs run.2 =
       <[id := InstalledMushaf.mk (Mushaf.name mushaf) (Mushaf.code mushaf)
                 (Mushaf.pages_count mushaf) (Mushaf.lines_per_page mushaf)
                 root (Date.toISOString t)]> (installed_mushafs s) /\
     is_iso8601 (Date.toISOString t) = true) /\
  storage run.2 =
    <[DownloadManager.path_key id := root]>
      (<[DownloadManager.installed_key id := "true"]> (storage s)) /\
  (faults env (GetItem (DownloadManager.installed_key id)) = None ->
   (DownloadManager.isInstalled env id run.2).1 = Returned true) /\
  (faults env (GetItem (DownloadManager.path_key id)) = None ->
   (DownloadManager.getMushafPath env id run.2).1 = Returned (Some root)).
Proof.
  intros run id root. subst run. rewrite downloadMushaf_unfold.
  pose proof (downloadMushaf_try_records env onProgress mushaf (records s)
                (DownloadManager.downloadMushaf_enter mushaf s) eq_refl) as Htry.
  destruct (DownloadManager.downloadMushaf_try env mushaf onProgress _) as [[[]|e] s2];
    cbn [fst snd] in *; [|destruct (onProgress _); discriminate].
  intros _. destruct (Htry eq_refl) as (t & Hnew & Htable & Hitems).
  cbn [fst snd records] in Hnew, Htable, Hitems. fold id root in Hnew, Htable, Hitems.
  change (installed_mushafs (DownloadManager.downloadMushaf_finally mushaf s2))
    with (installed_mushafs s2).
  change (storage (DownloadManager.downloadMushaf_finally mushaf s2)) with (storage s2).
  split; [|split; [exact Hitems|split]].
  - exists t. split; [exact Hnew|]. split; [exact Htable|]. apply toISOString_is_iso8601.
  - intros Hget. unfold DownloadManager.isInstalled.
    rewrite (bind_returned _ _ _ _ _ (getItem_run env _ _ Hget)).
    change (storage (DownloadManager.downloadMushaf_finally mushaf s2)) with (storage s2).
    rewrite Hitems, lookup_insert_ne by (symmetry; apply installed_key_not_path_key).
    rewrite lookup_insert_eq. reflexivity.
  - intros Hget. unfold DownloadManager.getMushafPath.
    rewrite (getItem_run env _ _ Hget). cbn [fst].
    change (storage (DownloadManager.downloadMushaf_finally mushaf s2)) with (storage s2).
    now rewrite Hitems, lookup_insert_eq.
Qed.

(** ** The statements at a concrete device *)



Lemma validate15LinesPerPage_checks_every_page_witness :
  (DownloadManager.validate15LinesPerPage Example.env
     (Example.root +:+ "mushaf_layout.db") 12
     (Example.with_layout (Example.layout 12))).1 = Returned tt /\
  (DownloadManager.validate15LinesPerPage Example.env
     (Example.root +:+ "mushaf_layout.db") 604
     (Example.with_layout (Example.short_layout 604))).1
  = Thrown (LineCountViolation 2 7).
Proof.
  split.
  - refine (proj1 (proj1 (proj2
      (validate15LinesPerPage_checks_every_page Example.env _ (Example.layout 12) 12
         (Example.with_layout (Example.layout 12)) _ _ _)) _)).
    + apply lookup_singleton_eq.
    + reflexivity.
    + intros page. reflexivity.
    + apply conforms_examined_pages. apply (bool_decide_unpack _). vm_compute. exact I.
  - pose proof (validate15LinesPerPage_checks_every_page Example.env
                  (Example.root +:+ "mushaf_layout.db") (Example.short_layout 604) 604
                  (Example.with_layout (Example.short_layout 604))
                  (lookup_singleton_eq _ _) eq_refl (fun _ => eq_refl)) as (_ & _ & Hbad).
    destruct Hbad as (before & page & after & Hpages & Hbefore & Hpage & Hrun & _).
    { intros (_ & H2 & _). vm_compute in H2. discriminate H2. }
    destruct before as [|p1 [|p2 before]].
    + injection Hpages as <- _. exfalso. apply Hpage. vm_compute. reflexivity.
    + injection Hpages as <- <- _. exact Hrun.
    + injection Hpages as <- <- _. apply Forall_cons in Hbefore as [_ Hbefore].
      apply Forall_cons in Hbefore as [H2 _]. vm_compute in H2. discriminate H2.
Defined.

Lemma failure_is_reported_then_cleaned_up_witness :
  (DownloadManager.downloadMushaf Example.env404 Example.mushaf Example.observer
     Example.idle).1
  = Thrown (mkError
      "Échec du téléchargement: https://cdn.qul.tarteel.ai/fonts/qpc_v2_fonts.zip") /\
  (DownloadManager.downloadMushaf Example.env404 Example.mushaf (Example.thrower failed)
     Example.idle).1
  = Thrown (mkError "progress callback").
Proof.
  split.
  - refine (proj1 (proj1 (proj2 (proj2 (proj2
      (failure_is_reported_then_cleaned_up Example.env404 Example.mushaf Example.observer
         Example.idle
         (DownloadManager.downloadMushaf_try Example.env404 Example.mushaf Example.observer
            (DownloadManager.downloadMushaf_enter Example.mushaf Example.idle)).2 _ _))))
      eq_refl)).
    etransitivity; [apply surjective_pairing|].
    apply (f_equal (fun r => (r, _))). vm_compute. reflexivity.
  - refine (proj1 (proj2 (proj2 (proj2 (proj2
      (failure_is_reported_then_cleaned_up Example.env404 Example.mushaf
         (Example.thrower failed) Example.idle
         (DownloadManager.downloadMushaf_try Example.env404 Example.mushaf
            (Example.thrower failed)
            (DownloadManager.downloadMushaf_enter Example.mushaf Example.idle)).2 _ _))))
      (mkError "progress callback") eq_refl)).
    etransitivity; [apply surjective_pairing|].
    apply (f_equal (fun r => (r, _))). vm_compute. reflexivity.
Defined.


Lemma font_count_check_witness :
  (DownloadManager.verifyIntegrity Example.env Example.root Example.mushaf
     Example.incomplete).1 = Thrown (AssetCountMismatch 604 603).
Proof.
  assert (Hfound : fonts_found (fs Example.incomplete) Example.root = 603)
    by (vm_compute; reflexivity).
  pose proof (font_count_check Example.env Example.root Example.mushaf Example.incomplete)
    as H.
  cbv zeta in H. rewrite Hfound in H.
  apply H; [vm_compute; reflexivity | reflexivity | vm_compute; reflexivity | discriminate].
Defined.

Lemma installation_is_recorded_witness :
  (DownloadManager.isInstalled Example.env 1
     (DownloadManager.downloadMushaf Example.env Example.mushaf Example.observer
        Example.idle).2).1
  = Returned true.
Proof.
  refine (proj1 (proj2 (proj2
    (installation_is_recorded Example.env Example.mushaf Example.observer Example.idle _))) _).
  - vm_compute. reflexivity.
  - reflexivity.
Defined.

Lemma deleteMushaf_is_idempotent_and_local_witness :
  (DownloadManager.deleteMushaf Example.env 1 Example.idle).1 = Returned tt.
Proof.
  refine (proj1 (deleteMushaf_is_idempotent_and_local Example.env 1 Example.idle _ _ _ _ _));
    reflexivity.
Defined.

Lemma downloadFile_checks_the_status_witness :
  (DownloadManager.downloadFile Example.env404 (DownloadUrls.fonts_zip Example.urls)
     (Example.root +:+ "fonts.zip")
     (DownloadManager.database_tick (Example.thrower downloading)) Example.idle).1
  = Thrown (mkError
      "Échec du téléchargement: https://cdn.qul.tarteel.ai/fonts/qpc_v2_fonts.zip").
Proof.
  pose proof (downloadFile_checks_the_status Example.env404
                (DownloadUrls.fonts_zip Example.urls) (Example.root +:+ "fonts.zip")
                (DownloadManager.database_tick (Example.thrower downloading))
                Example.idle) as H.
  change (Transfer.outcome (remote Example.env404 (DownloadUrls.fonts_zip Example.urls)))
    with (Returned (Some (DownloadResult.mk 404))) in H.
  cbv beta iota zeta in H. apply H. discriminate.
Defined.

Lemma entries_without_ttf_suffix_are_not_counted_witness :
  (DownloadManager.verifyIntegrity Example.env Example.root Example.mushaf
     Example.with_readme).1
  = (DownloadManager.verifyIntegrity Example.env Example.root Example.mushaf
       Example.complete).1.
Proof.
  refine (proj2 (proj2
    (entries_without_ttf_suffix_are_not_counted Example.env Example.root Example.mushaf
       Example.complete Example.with_readme ["README.txt"] _ _ _ _))).
  - apply Forall_forall. apply (bool_decide_unpack _). vm_compute. exact I.
  - vm_compute. reflexivity.
  - apply (bool_decide_unpack _). vm_compute. exact I.
  - repeat constructor.
Defined.

Lemma speed_and_eta_are_guarded_witness :
  DownloadProgress.eta_seconds
    (fonts_snapshot Example.env (clock Example.env 1 - 1500) 0.5 Example.transferring)
  = 3%float.
Proof.
  refine (eq_trans (proj1 (proj2 (proj2 (proj2 (proj2
    (speed_and_eta_are_guarded Example.env Example.observer (clock Example.env 1 - 1500) 0.5
       Example.transferring)))) _)) _).
  - vm_compute. reflexivity.
  - vm_compute. reflexivity.
Defined.

(** ** Further properties of the download manager *)

Lemma presence_check_stops (env : Env) (files : gmap string FileContent)
    (present : list string) (filePath : string) (rest : list string) :
  Forall (fun path => faults env (GetInfo path) = None /\ is_Some (files !! path)) present ->
  faults env (GetInfo filePath) = None ->
  files !! filePath = None ->
  forall s, fs s = files ->
  let run := for_of (present ++ filePath :: rest) (fun filePath =>
               fileInfo <- getInfoAsync env filePath ;;
               if negb (exists_ fileInfo)
               then throw (mkError ("Fichier manquant: " +:+ filePath))
               else ret tt) s in
  run.1 = Thrown (MissingAsset filePath) /\
  events run.2 = events s ++ presence_queries (present ++ [filePath]).
Proof.
  intros Hpresent Hfault Hmissing.
  induction Hpresent as [|path present [Hf Hsome] _ IH]; intros s Hfs run; subst run.
  - cbn [app for_of]. pose proof (presence_step_run env filePath s) as E.
    rewrite Hfault, Hfs in E.
    rewrite bool_decide_eq_false_2 in E by (rewrite Hmissing; apply is_Some_None).
    rewrite (bind_thrown _ _ _ _ _ E). split; reflexivity.
  - cbn [app for_of]. pose proof (presence_step_run env path s) as E.
    rewrite Hf, Hfs in E. rewrite bool_decide_eq_true_2 in E by exact Hsome.
    rewrite (bind_returned _ _ _ _ _ E).
    destruct (IH (log (Called (GetInfo path)) s) Hfs) as [H1 H2].
    split; [exact H1|]. rewrite H2. cbn. now rewrite <- app_assoc.
Qed.

(** X1: The file-presence check of [verifyIntegrity] (lines 198-212) goes
    through the expected files in order and stops at the first one that is
    absent: the error names that file, the files after it are not looked
    at and the fonts directory is not listed. *)
Theorem verifyIntegrity_stops_at_the_first_missing_file
    (env : Env) (mushafDir : string) (mushaf : Mushaf.t) (s : State)
    (present : list string) (filePath : string) (rest : list string) :
  DownloadManager.criticalFiles mushafDir mushaf = present ++ filePath :: rest ->
  Forall (fun path => faults env (GetInfo path) = None /\ is_Some (fs s !! path)) present ->
  faults env (GetInfo filePath) = None ->
  fs s !! filePath = None ->
  let run := DownloadManager.verifyIntegrity env mushafDir mushaf s in
  run.1 = Thrown (mkError ("Fichier manquant: " +:+ filePath)) /\
  events run.2 = events s ++ presence_queries (present ++ [filePath]).
Proof.
  intros Hfiles Hpresent Hfault Hmissing run. subst run.
  unfold DownloadManager.verifyIntegrity. rewrite Hfiles.
  destruct (presence_check_stops env (fs s) present filePath rest
              Hpresent Hfault Hmissing s eq_refl) as [H1 H2].
  destruct (for_of _ _ s) as [r s1] eqn:E. cbn [fst snd] in H1, H2. subst r.
  rewrite (bind_thrown _ _ _ _ _ E). split; [reflexivity | exact H2].
Qed.

(** *** Paths below the root of an asset *)

Lemma string_app_assoc (a b c : string) : (a +:+ b) +:+ c = a +:+ b +:+ c.
Proof.
  induction a as [|x a IH]; [reflexivity|].
  change (String x ((a +:+ b) +:+ c) = String x (a +:+ b +:+ c)). now rewrite IH.
Qed.

Lemma append_cons (x : ascii) (a b : string) : String x a +:+ b = String x (a +:+ b).
Proof. reflexivity. Qed.

Lemma prefix_spec (a b : string) : String.prefix a b = true <-> exists c, b = a +:+ c.
Proof.
  revert b. induction a as [|x a IH]; intros b.
  - destruct b; simpl; split; eauto.
  - destruct b as [|y b]; simpl.
    + split; [discriminate | intros [c Hc]; rewrite append_cons in Hc; discriminate].
    + destruct (ascii_dec x y) as [->|Hxy].
      * rewrite IH. split; intros [c Hc]; exists c; rewrite append_cons in *; congruence.
      * split; [discriminate | intros [c Hc]; rewrite append_cons in Hc; congruence].
Qed.

Lemma rev_app_app (a b acc : string) :
  String.rev_app (a +:+ b) acc = String.rev_app b (String.rev_app a acc).
Proof. revert acc. induction a as [|x a IH]; intros acc; simpl; [reflexivity | apply IH]. Qed.

Lemma rev_app_acc (a acc : string) : String.rev_app a acc = String.rev_app a EmptyString +:+ acc.
Proof.
  revert acc. induction a as [|x a IH]; intros acc; simpl; [reflexivity|].
  rewrite (IH (String x acc)), (IH (String x EmptyString)), string_app_assoc. reflexivity.
Qed.

Lemma endsWith_app (a b : string) : endsWith (a +:+ b) b = true.
Proof.
  unfold endsWith, String.rev. rewrite rev_app_app, (rev_app_acc b (String.rev_app a EmptyString)).
  apply prefix_spec. eauto.
Qed.

Lemma as_directory_mushafDir (env : Env) (mushafId : Z) :
  as_directory (DownloadManager.mushafDir env mushafId) = DownloadManager.mushafDir env mushafId.
Proof.
  unfold as_directory, DownloadManager.mushafDir.
  rewrite <- !string_app_assoc, endsWith_app. reflexivity.
Qed.

Lemma covers_refl (dir : string) : covers dir dir = true.
Proof. unfold covers. now rewrite bool_decide_eq_true_2. Qed.

Lemma covers_below (env : Env) (mushafId : Z) (rest : string) :
  covers (DownloadManager.mushafDir env mushafId)
         (DownloadManager.mushafDir env mushafId +:+ rest) = true.
Proof.
  unfold covers. rewrite as_directory_mushafDir. apply orb_true_iff. right.
  apply prefix_spec. eauto.
Qed.

Lemma covers_below_2 (env : Env) (mushafId : Z) (a b : string) :
  covers (DownloadManager.mushafDir env mushafId)
         ((DownloadManager.mushafDir env mushafId +:+ a) +:+ b) = true.
Proof. rewrite string_app_assoc. apply covers_below. Qed.

Lemma string_app_nil_r (a : string) : a +:+ EmptyString = a.
Proof.
  induction a as [|x a IH]; [reflexivity|]. rewrite append_cons. now rewrite IH.
Qed.

Lemma as_directory_extends (path : string) : exists c, as_directory path = path +:+ c.
Proof.
  unfold as_directory. destruct (endsWith path "/"); [exists EmptyString|exists "/"]; [|reflexivity].
  now rewrite string_app_nil_r.
Qed.

Lemma covers_trans (a b c : string) :
  covers a b = true -> covers b c = true -> covers a c = true.
Proof.
  unfold covers. rewrite !orb_true_iff, !bool_decide_eq_true, !prefix_spec.
  intros [->|[x Hx]] [->|[y Hy]]; eauto.
  right. destruct (as_directory_extends b) as [z Hz].
  exists (x +:+ z +:+ y). rewrite Hy, Hz, Hx, !string_app_assoc. reflexivity.
Qed.

(** Two ways of cutting one string: one of the first parts is a prefix of
    the other. *)
Lemma string_app_eq_app (a b c d : string) :
  a +:+ b = c +:+ d ->
  (exists x, c = a +:+ x /\ b = x +:+ d) \/ (exists x, a = c +:+ x /\ d = x +:+ b).
Proof.
  revert c. induction a as [|x a IH]; intros c H.
  - left. exists c. split; [reflexivity | exact H].
  - destruct c as [|y c].
    + right. exists (String x a). split; [reflexivity | symmetry; exact H].
    + rewrite !append_cons in H. injection H as -> H.
      destruct (IH c H) as [(z & -> & Hz)|(z & -> & Hz)]; [left|right]; exists z; split;
        first [reflexivity | exact Hz].
Qed.

Lemma string_app_self (a b : string) : a = a +:+ b -> b = EmptyString.
Proof.
  intros H. rewrite <- (string_app_nil_r a) in H at 1.
  apply (inj (String.app a)) in H. now symmetry.
Qed.

Lemma directories_above_spec (path p : string) :
  p ∈ directories_above path <->
  exists q rest, p = q +:+ "/" /\ rest <> EmptyString /\ path = p +:+ rest.
Proof.
  revert p. induction path as [|c path IH]; intros p; cbn [directories_above].
  - split; [intros H; now apply not_elem_of_nil in H|].
    intros (q & rest & -> & Hrest & H). destruct q; discriminate.
  - assert (Hmap : forall p, p ∈ map (String c) (directories_above path) <->
              exists q rest, p = String c q +:+ "/" /\ rest <> EmptyString
                             /\ String c path = p +:+ rest).
    { intros p0. rewrite list_elem_of_fmap. split.
      - intros (p' & -> & Hp'). apply IH in Hp' as (q & rest & -> & Hrest & ->).
        exists q, rest. split; [reflexivity|]. split; [exact Hrest | reflexivity].
      - intros (q & rest & -> & Hrest & H). rewrite !append_cons in H. injection H as H.
        exists (q +:+ "/"). split; [reflexivity|]. apply IH. exists q, rest. auto. }
    destruct path as [|c' path'].
    + split; [intros H; now apply not_elem_of_nil in H|].
      intros (q & rest & -> & Hrest & H). destruct q as [|y q].
      * cbn in H. injection H as _ H. now destruct rest.
      * rewrite !append_cons in H. injection H as _ H. destruct q; discriminate.
    + case_bool_decide as Hc.
      * rewrite elem_of_cons, Hmap. split.
        -- intros [->|(q & rest & -> & Hrest & H)].
           ++ exists EmptyString, (String c' path'). subst c.
              split; [reflexivity|]. split; [discriminate | reflexivity].
           ++ exists (String c q), rest. auto.
        -- intros (q & rest & -> & Hrest & H). destruct q as [|y q].
           ++ left. cbn in H |- *. injection H as -> _. reflexivity.
           ++ right. rewrite !append_cons in H. injection H as <- H.
              exists q, rest. rewrite !append_cons. rewrite H. auto.
      * rewrite Hmap. split.
        -- intros (q & rest & -> & Hrest & H). exists (String c q), rest. auto.
        -- intros (q & rest & -> & Hrest & H). destruct q as [|y q].
           ++ cbn in H. injection H as H _. contradiction.
           ++ rewrite !append_cons in H. injection H as <- H.
              exists q, rest. rewrite !append_cons. rewrite H. auto.
Qed.

(** *** The directories above the root of an asset *)

Lemma append_nil (a : string) : EmptyString +:+ a = a.
Proof. reflexivity. Qed.

Lemma slash_in_app (a b : string) :
  "/"%char ∈ list_ascii_of_string (a +:+ String "/" b).
Proof.
  rewrite list_ascii_of_string_app. apply elem_of_app. right. cbn. constructor.
Qed.

Lemma pretty_N_char_not_slash (d : N) : pretty_N_char d <> "/"%char.
Proof. unfold pretty_N_char. repeat case_match; discriminate. Qed.

Lemma pretty_N_go_no_slash (x : N) (s : string) :
  "/"%char ∉ list_ascii_of_string s ->
  "/"%char ∉ list_ascii_of_string (pretty_N_go x s).
Proof.
  revert s. induction (N.lt_wf_0 x) as [x _ IH]. intros s Hs.
  destruct (decide (x = 0)%N) as [->|Hx]; [now rewrite pretty_N_go_0|].
  rewrite pretty_N_go_step by lia. apply IH; [apply N.div_lt; lia|].
  cbn. intros H. apply elem_of_cons in H as [H|H]; [|contradiction].
  symmetry in H. now apply pretty_N_char_not_slash in H.
Qed.

Lemma pretty_Z_no_slash (n : Z) : "/"%char ∉ list_ascii_of_string (pretty n).
Proof.
  assert (HN : forall x : N, "/"%char ∉ list_ascii_of_string (pretty x)).
  { intros x. unfold pretty, pretty_N.
    destruct (decide _); [cbn; intros H; apply elem_of_cons in H as [H|H];
                          [discriminate | now apply not_elem_of_nil in H]|].
    apply pretty_N_go_no_slash. cbn. apply not_elem_of_nil. }
  destruct n as [|p|p].
  - apply (HN 0%N).
  - apply (HN (N.pos p)).
  - change (pretty (Z.neg p)) with ("-" +:+ pretty (N.pos p)).
    rewrite list_ascii_of_string_app. cbn. intros H.
    apply elem_of_cons in H as [H|H]; [discriminate|]. now apply (HN (N.pos p)).
Qed.

(** A string that ends with a slash, cut before a part that is not empty:
    that part ends with the slash. *)
Lemma ends_with_slash_tail (a x q : string) :
  a +:+ x = q +:+ "/" -> x <> EmptyString -> exists x', x = x' +:+ "/".
Proof.
  intros H Hx. apply string_app_eq_app in H as [(z & _ & Hz)|(z & _ & Hz)]; [eauto|].
  destruct z as [|c z].
  - exists EmptyString. repeat first [rewrite append_cons in Hz | rewrite append_nil in Hz]. now symmetry.
  - rewrite append_cons in Hz. injection Hz as _ Hz.
    destruct z; [rewrite append_nil in Hz; congruence | discriminate].
Qed.

(** Where a string goes on after a name and a slash, a part of it that
    ends with a slash ends with that slash or goes beyond it. *)
Lemma first_slash (w x rest t : string) :
  "/"%char ∉ list_ascii_of_string w ->
  (x +:+ "/") +:+ rest = w +:+ "/" +:+ t ->
  x = w /\ rest = t \/ exists y, x = w +:+ "/" +:+ y /\ (y +:+ "/") +:+ rest = t.
Proof.
  intros Hw H. rewrite string_app_assoc in H.
  apply string_app_eq_app in H as [(z & -> & Hz)|(z & -> & Hz)].
  - destruct z as [|c z].
    + left. rewrite append_nil in Hz. rewrite !append_cons, append_nil in Hz.
      injection Hz as ->. now rewrite string_app_nil_r.
    + rewrite !append_cons in Hz. injection Hz as <- _.
      exfalso. apply Hw, slash_in_app.
  - destruct z as [|c z].
    + left. rewrite append_nil in Hz. rewrite !append_cons, !append_nil in Hz.
      injection Hz as ->. now rewrite string_app_nil_r.
    + right. rewrite !append_cons in Hz. rewrite append_nil in Hz. injection Hz as <- ->.
      exists z. split; [reflexivity|]. now rewrite string_app_assoc.
Qed.

Lemma inside_spec (dir p : string) :
  inside dir p = true <-> exists x, x <> EmptyString /\ p = as_directory dir +:+ x.
Proof.
  unfold inside. rewrite andb_true_iff, negb_true_iff, bool_decide_eq_false, prefix_spec.
  split.
  - intros [[x ->] Hne]. exists x. split; [|reflexivity].
    intros ->. apply Hne. now rewrite string_app_nil_r.
  - intros (x & Hx & ->). split; [eauto|]. intros H.
    symmetry in H. apply string_app_self in H. contradiction.
Qed.

(** The only directory between the document directory and the root of an
    asset is [mushafs/]. *)
Lemma intermediates_mushafDir (env : Env) (mushafId : Z) (p : string) :
  p ∈ intermediates env (DownloadManager.mushafDir env mushafId) ->
  p = documentDirectory env +:+ "mushafs/".
Proof.
  unfold intermediates. rewrite list_elem_of_In, filter_In, <- list_elem_of_In.
  rewrite directories_above_spec, inside_spec.
  intros [(q & rest & Hq & Hrest & Hpath) (x & Hx & Hp)].
  unfold DownloadManager.mushafDir in Hpath. rewrite Hp in Hpath, Hq.
  destruct (ends_with_slash_tail _ _ _ Hq Hx) as [x' ->].
  unfold as_directory in *. destruct (endsWith (documentDirectory env) "/").
  - rewrite string_app_assoc in Hpath. apply (inj (String.app _)) in Hpath.
    change ("mushafs/" +:+ pretty mushafId +:+ "/")
      with ("mushafs" +:+ "/" +:+ pretty mushafId +:+ "/") in Hpath.
    symmetry in Hpath.
    apply first_slash in Hpath as [[-> _]|(y & _ & Hy)]; [exact Hp| |].
    + exfalso. rewrite <- (string_app_nil_r "/") in Hy at 2.
      apply first_slash in Hy as [[_ ->]|(y' & _ & Hy')];
        [now apply Hrest | | apply pretty_Z_no_slash].
      destruct y'; discriminate.
    + intros H. repeat (apply elem_of_cons in H as [H|H]; [discriminate|]).
      now apply not_elem_of_nil in H.
  - rewrite !string_app_assoc in Hpath. apply (inj (String.app _)) in Hpath.
    discriminate Hpath.
Qed.

Lemma intermediates_fonts (env : Env) (mushafId : Z) (p : string) :
  p ∈ intermediates env (DownloadManager.mushafDir env mushafId +:+ "fonts/") ->
  p = documentDirectory env +:+ "mushafs/" \/ p = DownloadManager.mushafDir env mushafId.
Proof.
  intros Hp. assert (Hp' := Hp). revert Hp'.
  unfold intermediates at 1. rewrite list_elem_of_In, filter_In, <- list_elem_of_In.
  rewrite directories_above_spec.
  intros [(q & rest & Hq & Hrest & Hpath) Hinside]. symmetry in Hpath.
  apply string_app_eq_app in Hpath as [(z & Hz & Hrest')|(z & Hz & Hrest')].
  - destruct z as [|c z]; [right; now rewrite string_app_nil_r in Hz|].
    left. apply (intermediates_mushafDir env mushafId).
    unfold intermediates. rewrite list_elem_of_In, filter_In, <- list_elem_of_In.
    split; [|exact Hinside]. apply directories_above_spec.
    exists q, (String c z). split; [exact Hq|]. split; [discriminate | exact Hz].
  - destruct z as [|c z]; [right; now rewrite string_app_nil_r in Hz|].
    exfalso. rewrite Hz in Hq.
    destruct (ends_with_slash_tail _ _ _ Hq ltac:(discriminate)) as [z' Hz'].
    rewrite Hz' in Hrest'. symmetry in Hrest'.
    change "fonts/" with ("fonts" +:+ "/" +:+ EmptyString) in Hrest'.
    apply first_slash in Hrest' as [[_ ->]|(y & _ & Hy)]; [now apply Hrest | |].
    + destruct y; discriminate.
    + intros H. repeat (apply elem_of_cons in H as [H|H]; [discriminate|]).
      now apply not_elem_of_nil in H.
Qed.

(** [mushafs/] is not below the root of an asset. *)
Lemma mushafs_not_covered (env : Env) (mushafId : Z) :
  covers (DownloadManager.mushafDir env mushafId) (documentDirectory env +:+ "mushafs/") = false.
Proof.
  unfold covers. rewrite as_directory_mushafDir. apply orb_false_iff. split.
  - apply bool_decide_eq_false. unfold DownloadManager.mushafDir. intros H.
    apply (inj (String.app _)) in H.
    change "mushafs/" with ("mushafs/" +:+ EmptyString) in H at 1.
    apply (inj (String.app _)) in H. destruct (pretty mushafId); discriminate.
  - apply not_true_iff_false. rewrite prefix_spec. intros [c H].
    unfold DownloadManager.mushafDir in H. rewrite !string_app_assoc in H.
    apply (inj (String.app _)) in H.
    change "mushafs/" with ("mushafs/" +:+ EmptyString) in H at 1.
    apply (inj (String.app _)) in H. destruct (pretty mushafId); discriminate.
Qed.

Lemma lookup_create_missing (dirs : list string) (files : gmap string FileContent)
    (path : string) :
  create_missing dirs files !! path =
  match files !! path with
  | Some content => Some content
  | None => if bool_decide (path ∈ dirs) then Some Directory else None
  end.
Proof.
  revert path. induction dirs as [|dir dirs IH]; intros path; cbn [create_missing foldr].
  - destruct (files !! path); [reflexivity|].
    rewrite bool_decide_eq_false_2 by apply not_elem_of_nil. reflexivity.
  - fold (create_missing dirs files). set (created := create_missing dirs files) in *.
    destruct (decide (path = dir)) as [->|Hne].
    + rewrite (bool_decide_eq_true_2 (dir ∈ dir :: dirs)) by constructor.
      pose proof (IH dir) as Hdir.
      destruct (created !! dir) as [content|] eqn:E.
      * rewrite E, Hdir. destruct (files !! dir); [reflexivity|].
        destruct (bool_decide (dir ∈ dirs)); [reflexivity | discriminate].
      * rewrite lookup_insert_eq. destruct (files !! dir); [discriminate | reflexivity].
    + assert (E : match created !! dir with
                  | Some _ => created
                  | None => <[dir := Directory]> created
                  end !! path = created !! path).
      { destruct (created !! dir); [reflexivity|]. now rewrite lookup_insert_ne. }
      rewrite E, IH. destruct (files !! path); [reflexivity|].
      apply (f_equal (fun b : bool => if b then Some Directory else None)).
      apply bool_decide_ext. rewrite elem_of_cons. tauto.
Qed.

(** *** What a run leaves alone *)

Section Elsewhere.
Variable env : Env.
Variable root : string.

Lemma outside_lookup s path :
  covers root path = false -> outside root s !! path = fs s !! path.
Proof.
  intros H. unfold outside. rewrite map_lookup_filter.
  destruct (fs s !! path); cbn; [|reflexivity].
  now rewrite option_guard_True.
Qed.

Lemma outside_insert path content s :
  covers root path = true ->
  outside root (set_fs (fun files => <[path := content]> files) s) = outside root s.
Proof.
  intros H. unfold outside. cbn [fs set_fs].
  apply map_filter_insert_not. intros y. cbn. congruence.
Qed.

Lemma outside_remove path s :
  covers root path = true ->
  outside root (set_fs (fun files => filter (fun kv => covers path kv.1 = false) files) s)
  = outside root s.
Proof.
  intros H. unfold outside. cbn [fs set_fs].
  apply map_filter_filter_l. intros k x _ Hk. cbn in *.
  destruct (covers path k) eqn:E; [|reflexivity].
  rewrite (covers_trans _ _ _ H E) in Hk. discriminate.
Qed.

Lemma outside_deleteAsync path idempotent :
  covers root path = true -> preserves (outside root) (deleteAsync env path idempotent).
Proof.
  intros H. unfold deleteAsync.
  apply preserves_bind; [apply preserves_call; reflexivity | intros _].
  apply preserves_bind; [apply preserves_get | intros s0].
  apply preserves_if; [|apply preserves_throw].
  apply preserves_modify. intros s. now apply outside_remove.
Qed.

Lemma outside_unzip source target :
  covers root target = true ->
  (forall entry, covers root (target +:+ entry) = true) ->
  preserves (outside root) (unzip env source target).
Proof.
  intros Ht He. unfold unzip.
  apply preserves_bind; [apply preserves_call; reflexivity | intros _].
  apply preserves_bind; [apply preserves_get | intros s0].
  destruct (fs s0 !! source) as [[| | |entries]|]; try apply preserves_throw.
  apply preserves_modify. intros s. unfold outside. cbn [fs set_fs].
  induction entries as [|entry entries IH]; cbn [foldr].
  - apply map_filter_insert_not. intros y. cbn. congruence.
  - rewrite map_filter_insert_not; [exact IH|]. intros y. cbn. rewrite He. congruence.
Qed.

Lemma outside_downloadFile url filePath (cb : float -> M unit) :
  covers root filePath = true ->
  (forall p, preserves (outside root) (cb p)) ->
  preserves (outside root) (DownloadManager.downloadFile env url filePath cb).
Proof.
  intros H Hcb. unfold DownloadManager.downloadFile, downloadAsync.
  apply preserves_bind.
  - apply preserves_bind; [apply preserves_modify; reflexivity | intros _].
    apply preserves_bind;
      [apply preserves_for_of; intros t; apply preserves_swallow, Hcb | intros _].
    destruct (Transfer.outcome (remote env url)) as [[result|]|e];
      [|apply preserves_ret|apply preserves_throw].
    apply preserves_bind; [|intros _; apply preserves_ret].
    apply preserves_modify. intros s. now apply outside_insert.
  - intros [result|]; [|apply preserves_throw].
    apply preserves_if; [apply preserves_throw | apply preserves_ret].
Qed.

(** The files outside the root after a computation that creates nothing
    there but missing directories of [dirs]. *)
Variable dirs : list string.
Variable before : gmap string FileContent.

Lemma grown_outside_preserved {A} (m : M A) :
  preserves (outside root) m ->
  hoare (fun s => grown_outside root dirs before (fs s)) m
        (fun _ s => grown_outside root dirs before (fs s)).
Proof.
  intros Hm s Hs path Hpath. specialize (Hs path Hpath).
  rewrite <- (outside_lookup _ path Hpath), Hm, (outside_lookup _ path Hpath). exact Hs.
Qed.

Lemma grown_outside_makeDirectoryAsync path :
  covers root path = true ->
  (forall dir, dir ∈ intermediates env path -> covers root dir = true \/ dir ∈ dirs) ->
  hoare (fun s => grown_outside root dirs before (fs s)) (makeDirectoryAsync env path)
        (fun _ s => grown_outside root dirs before (fs s)).
Proof.
  intros Hpath Hdirs s Hs k Hk. specialize (Hs k Hk).
  unfold makeDirectoryAsync, bind, call, modify.
  destruct (faults env (MakeDirectory path)); cbn [fst snd fs log set_fs]; [exact Hs|].
  rewrite lookup_insert_ne by (intros ->; congruence).
  rewrite lookup_create_missing.
  destruct (fs s !! k) as [content|] eqn:E; [exact Hs|].
  case_bool_decide as Hin; [|exact Hs].
  destruct (Hdirs k Hin) as [Hcov|Hd]; [congruence|].
  destruct Hs as [Hs|(_ & Hs & Hcontra)]; [|discriminate].
  right. split; [exact Hd|]. split; [now rewrite <- Hs | reflexivity].
Qed.
End Elsewhere.

Section WholeRun.
Variable env : Env.
Variable mushaf : Mushaf.t.
Variable onProgress : DownloadManager.Callback.

Ltac blind := intros; reflexivity.

Tactic Notation "leaves" uconstr(lem) :=
  apply preserves_bind; [apply lem; first [solve [blind] | idtac] | intros ?].

Lemma grown_outside_downloadMushaf_try before :
  hoare (fun s => grown_outside (DownloadManager.mushafDir env (Mushaf.id mushaf))
                    [documentDirectory env +:+ "mushafs/"] before (fs s))
        (DownloadManager.downloadMushaf_try env mushaf onProgress)
        (fun _ s => grown_outside (DownloadManager.mushafDir env (Mushaf.id mushaf))
                      [documentDirectory env +:+ "mushafs/"] before (fs s)).
Proof.
  unfold DownloadManager.downloadMushaf_try. cbv zeta.
  eapply hoare_bind; [apply grown_outside_makeDirectoryAsync | intros e s H; exact H | intros ?].
  { apply covers_refl. }
  { intros dir Hdir. right. apply intermediates_mushafDir in Hdir. subst dir. constructor. }
  eapply hoare_bind; [apply grown_outside_makeDirectoryAsync | intros e s H; exact H | intros ?].
  { apply covers_below. }
  { intros dir Hdir. apply intermediates_fonts in Hdir as [->| ->];
      [right; constructor | left; apply covers_refl]. }
  apply grown_outside_preserved.
  leaves preserves_assign. leaves preserves_assign. leaves preserves_invoke.
  leaves outside_downloadFile.
  { apply covers_below. } { intros p. apply preserves_database_tick; blind. }
  leaves preserves_assign. leaves preserves_invoke.
  leaves outside_downloadFile.
  { apply covers_below. } { intros p. apply preserves_common_fonts_tick; blind. }
  leaves preserves_assign. leaves preserves_invoke.
  leaves preserves_now.
  leaves outside_downloadFile.
  { apply covers_below. } { intros p. apply preserves_fonts_tick; blind. }
  leaves preserves_assign. leaves preserves_assign. leaves preserves_assign.
  leaves preserves_invoke.
  leaves outside_unzip. { apply covers_below. } { intros entry. apply covers_below_2. }
  leaves outside_deleteAsync. { apply covers_below. }
  leaves preserves_assign. leaves preserves_assign. leaves preserves_invoke.
  leaves outside_unzip. { apply covers_below. } { intros entry. apply covers_below_2. }
  leaves outside_deleteAsync. { apply covers_below. }
  leaves preserves_assign. leaves preserves_invoke.
  leaves preserves_assign. leaves preserves_assign. leaves preserves_invoke.
  leaves preserves_verifyIntegrity.
  leaves preserves_validate15LinesPerPage.
  leaves preserves_openDatabaseAsync.
  leaves preserves_now.
  leaves preserves_runAsync.
  leaves preserves_setItem. leaves preserves_setItem.
  leaves preserves_assign. leaves preserves_assign. leaves preserves_assign.
  apply preserves_invoke; blind.
Qed.

Lemma grown_outside_downloadMushaf s :
  grown_outside (DownloadManager.mushafDir env (Mushaf.id mushaf))
    [documentDirectory env +:+ "mushafs/"] (fs s)
    (fs (DownloadManager.downloadMushaf env mushaf onProgress s).2).
Proof.
  set (root := DownloadManager.mushafDir env (Mushaf.id mushaf)).
  set (mushafs := documentDirectory env +:+ "mushafs/").
  rewrite downloadMushaf_unfold.
  pose proof (grown_outside_downloadMushaf_try (fs s)
                (DownloadManager.downloadMushaf_enter mushaf s)) as Htry.
  destruct (DownloadManager.downloadMushaf_try env mushaf onProgress _) as [[a|e] s2];
    cbn [fst snd] in *.
  { apply Htry. intros path _. now left. }
  assert (Hs2 : grown_outside root [mushafs] (fs s) (fs s2)).
  { apply Htry. intros path _. now left. }
  destruct (onProgress (failed_snapshot e s2)); cbn [fst snd]; [exact Hs2|].
  rewrite cleanupPartialDownload_run. cbn [snd]. fold root.
  destruct (faults env (Delete root)); [exact Hs2|].
  intros path Hpath. specialize (Hs2 path Hpath).
  change (fs (DownloadManager.downloadMushaf_finally mushaf ?x)) with (fs x).
  match goal with |- context [fs ?st !! path] =>
    rewrite <- (outside_lookup root st path Hpath)
  end.
  rewrite (outside_remove root root _ (covers_refl root)), (outside_lookup root _ path Hpath).
  exact Hs2.
Qed.
End WholeRun.

(** X3: Whether it succeeds or fails, a run of [downloadMushaf] creates,
    replaces and removes files only at and below the root of the asset,
    with one exception: the directory [mushafs/] of the document directory,
    above the root, which [makeDirectoryAsync] creates with the root when
    it is missing (line 45, [intermediates: true]).  That path holds what
    it held before or, if it held nothing, a directory; every other path
    of the file system holds what it held before.  (Paths are the strings
    the code builds; an archive entry is stored at the target directory
    followed by the name of the entry.) *)
Theorem downloadMushaf_touches_only_its_directory
    (env : Env) (mushaf : Mushaf.t) (onProgress : DownloadManager.Callback) (s : State)
    (path : string) :
  let root := DownloadManager.mushafDir env (Mushaf.id mushaf) in
  let mushafs := documentDirectory env +:+ "mushafs/" in
  let run := DownloadManager.downloadMushaf env mushaf onProgress s in
  covers root path = false ->
  (path <> mushafs -> fs run.2 !! path = fs s !! path) /\
  (path = mushafs ->
   fs run.2 !! path = fs s !! path \/
   fs s !! path = None /\ fs run.2 !! path = Some Directory).
Proof.
  intros root mushafs run Hpath. subst run.
  destruct (grown_outside_downloadMushaf env mushaf onProgress s path Hpath)
    as [H|(Hin & Hnone & Hdir)].
  - split; intros _; [exact H | left; exact H].
  - apply list_elem_of_singleton in Hin. split; [contradiction|].
    intros _. right. split; [exact Hnone | exact Hdir].
Qed.

(** *** Observations the whole [try] block is blind to *)

Section Unseen.
Context {B : Type} (f : State -> B).
Variable env : Env.
Variable mushaf : Mushaf.t.
Variable onProgress : DownloadManager.Callback.

Hypothesis Hcall : forall op s, f (log (Called op) s) = f s.
Hypothesis Hfs : forall g s, f (set_fs g s) = f s.
Hypothesis Hstorage : forall g s, f (set_storage g s) = f s.
Hypothesis Htable : forall g s, f (set_installed_mushafs g s) = f s.
Hypothesis Hclock : forall s, f (tick_clock s) = f s.
Hypothesis Hprogress : forall g s, f (set_progress_object g s) = f s.
Hypothesis Hnotify : forall p s, f (log (Notified p) s) = f s.

Tactic Notation "unseen" uconstr(lem) :=
  apply preserves_bind; [apply lem; assumption | intros ?].

Tactic Notation "unseen_transfer" uconstr(tick) :=
  apply preserves_bind;
  [ apply preserves_downloadFile; try assumption; intros ?; apply tick; assumption
  | intros ? ].

Lemma preserves_downloadMushaf_try :
  preserves f (DownloadManager.downloadMushaf_try env mushaf onProgress).
Proof.
  unfold DownloadManager.downloadMushaf_try. cbv zeta.
  unseen preserves_makeDirectoryAsync. unseen preserves_makeDirectoryAsync.
  unseen preserves_assign. unseen preserves_assign. unseen preserves_invoke.
  unseen_transfer preserves_database_tick.
  unseen preserves_assign. unseen preserves_invoke.
  unseen_transfer preserves_common_fonts_tick.
  unseen preserves_assign. unseen preserves_invoke.
  unseen preserves_now.
  unseen_transfer preserves_fonts_tick.
  unseen preserves_assign. unseen preserves_assign. unseen preserves_assign.
  unseen preserves_invoke.
  unseen preserves_unzip. unseen preserves_deleteAsync.
  unseen preserves_assign. unseen preserves_assign. unseen preserves_invoke.
  unseen preserves_unzip. unseen preserves_deleteAsync.
  unseen preserves_assign. unseen preserves_invoke.
  unseen preserves_assign. unseen preserves_assign. unseen preserves_invoke.
  unseen preserves_verifyIntegrity.
  unseen preserves_validate15LinesPerPage.
  unseen preserves_openDatabaseAsync.
  unseen preserves_now.
  unseen preserves_runAsync.
  unseen preserves_setItem. unseen preserves_setItem.
  unseen preserves_assign. unseen preserves_assign. unseen preserves_assign.
  apply preserves_invoke; assumption.
Qed.
End Unseen.

Lemma difference_union_singleton (x : Z) (X : gset Z) : ({[ x ]} ∪ X) ∖ {[ x ]} = X ∖ {[ x ]}.
Proof. apply set_eq. intros y. rewrite !elem_of_difference, elem_of_union. tauto. Qed.

(** X4: The [finally] block: whether a run of [downloadMushaf] returns or
    throws, and whatever the callback does, the callback registered for
    the asset is unregistered and no transfer of the asset is left among
    the active ones, while the registrations of the other assets are as
    before. *)
Theorem downloadMushaf_unregisters_its_callback
    (env : Env) (mushaf : Mushaf.t) (onProgress : DownloadManager.Callback) (s : State) :
  let run := DownloadManager.downloadMushaf env mushaf onProgress s in
  progressCallbacks run.2 = progressCallbacks s ∖ {[ Mushaf.id mushaf ]} /\
  activeDownloads run.2 = activeDownloads s ∖ {[ Mushaf.id mushaf ]}.
Proof.
  intros run. subst run. rewrite downloadMushaf_unfold.
  pose proof (preserves_downloadMushaf_try progressCallbacks env mushaf onProgress
                ltac:(reflexivity) ltac:(reflexivity) ltac:(reflexivity) ltac:(reflexivity)
                ltac:(reflexivity) ltac:(reflexivity) ltac:(reflexivity)
                (DownloadManager.downloadMushaf_enter mushaf s)) as Hcb.
  pose proof (preserves_downloadMushaf_try activeDownloads env mushaf onProgress
                ltac:(reflexivity) ltac:(reflexivity) ltac:(reflexivity) ltac:(reflexivity)
                ltac:(reflexivity) ltac:(reflexivity) ltac:(reflexivity)
                (DownloadManager.downloadMushaf_enter mushaf s)) as Had.
  cbn [DownloadManager.downloadMushaf_enter progressCallbacks activeDownloads
       set_progressCallbacks set_progress_object] in Hcb, Had.
  destruct (DownloadManager.downloadMushaf_try env mushaf onProgress _) as [[a|e] s2];
    cbn [fst snd] in *.
  - cbn. rewrite Hcb, Had. split; [apply difference_union_singleton | reflexivity].
  - destruct (onProgress (failed_snapshot e s2)); cbn [fst snd].
    + cbn. rewrite Hcb, Had. split; [apply difference_union_singleton | reflexivity].
    + rewrite cleanupPartialDownload_run. cbn [snd].
      destruct (faults env (Delete _)); cbn; rewrite Hcb, Had;
        (split; [apply difference_union_singleton | reflexivity]).
Qed.

(** *** The records of a run that fails *)

Section Outcome.
Variable env : Env.
Variable mushaf : Mushaf.t.
Variable onProgress : DownloadManager.Callback.

Lemma runAsync_insert_run id row s :
  SQLite.runAsync env DB_NAME (InsertInstalledMushaf id row) s =
  match faults env (Run DB_NAME (InsertInstalledMushaf id row)) with
  | Some e => (Thrown e, log (Called (Run DB_NAME (InsertInstalledMushaf id row))) s)
  | None =>
      match installed_mushafs s !! id with
      | None =>
          (Returned tt,
           set_installed_mushafs (fun table => <[id := row]> table)
             (log (Called (Run DB_NAME (InsertInstalledMushaf id row))) s))
      | Some _ =>
          (Thrown (refusal env (Run DB_NAME (InsertInstalledMushaf id row))),
           log (Called (Run DB_NAME (InsertInstalledMushaf id row))) s)
      end
  end.
Proof.
  unfold SQLite.runAsync, bind, call, get.
  destruct (faults env _); [reflexivity|].
  rewrite (bool_decide_eq_true_2 (DB_NAME = DB_NAME) eq_refl). cbn.
  destruct (installed_mushafs s !! id); reflexivity.
Qed.

Lemma openDatabaseAsync_run databaseName s :
  SQLite.openDatabaseAsync env databaseName s =
  match faults env (OpenDatabase databaseName) with
  | Some e => (Thrown e, log (Called (OpenDatabase databaseName)) s)
  | None => (Returned databaseName, log (Called (OpenDatabase databaseName)) s)
  end.
Proof.
  unfold SQLite.openDatabaseAsync, bind, call. destruct (faults env _); reflexivity.
Qed.

Lemma setItem_run key value s :
  AsyncStorage.setItem env key value s =
  match faults env (SetItem key value) with
  | Some e => (Thrown e, log (Called (SetItem key value)) s)
  | None => (Returned tt,
             set_storage (fun items => <[key := value]> items)
               (log (Called (SetItem key value)) s))
  end.
Proof.
  unfold AsyncStorage.setItem, bind, call. destruct (faults env _); reflexivity.
Qed.

(** When the steps that record the installation (lines 137-151) throw,
    either catalog and store are as they were, or the catalog had no row
    for the asset and what failed is a write of the store or, with the
    installation recorded, the callback on the report of completion. *)
Lemma recording_steps_thrown (s s' : State) (e : Error) :
  let id := Mushaf.id mushaf in
  let root := DownloadManager.mushafDir env id in
  (installed_at <- Date.now env ;;
   SQLite.runAsync env DB_NAME
     (InsertInstalledMushaf id
        (InstalledMushaf.mk (Mushaf.name mushaf) (Mushaf.code mushaf)
           (Mushaf.pages_count mushaf) (Mushaf.lines_per_page mushaf)
           root (Date.toISOString installed_at))) ;;
   AsyncStorage.setItem env (DownloadManager.installed_key id) "true" ;;
   AsyncStorage.setItem env (DownloadManager.path_key id) root ;;
   DownloadManager.assign (DownloadProgress.set_status completed) ;;
   DownloadManager.assign (DownloadProgress.set_progress 100%Q) ;;
   DownloadManager.assign (DownloadProgress.set_current_step "Installation terminée !") ;;
   DownloadManager.invoke onProgress) s = (Thrown e, s') ->
  records s' = records s \/
  (installed_mushafs s !! id = None /\
   (faults env (SetItem (DownloadManager.installed_key id) "true") = Some e \/
    faults env (SetItem (DownloadManager.path_key id) root) = Some e \/
    throws_at_completion onProgress /\ recorded env mushaf (records s) (records s'))).
Proof.
  intros id root.
  assert (E0 : Date.now env s = (Returned (clock env (clock_reads s)), tick_clock s))
    by reflexivity.
  rewrite (bind_returned _ _ _ _ _ E0).
  set (row := InstalledMushaf.mk _ _ _ _ _ _).
  pose proof (runAsync_insert_run id row (tick_clock s)) as E1.
  change (installed_mushafs (tick_clock s)) with (installed_mushafs s) in E1.
  destruct (faults env (Run DB_NAME _)) as [e1|].
  { rewrite (bind_thrown _ _ _ _ _ E1). intros [= <- <-]. now left. }
  destruct (installed_mushafs s !! id) eqn:Hrow.
  { rewrite (bind_thrown _ _ _ _ _ E1). intros [= <- <-]. now left. }
  rewrite (bind_returned _ _ _ _ _ E1).
  match goal with |- bind _ _ ?s1 = _ -> _ =>
    pose proof (setItem_run (DownloadManager.installed_key id) "true" s1) as E2 end.
  destruct (faults env (SetItem (DownloadManager.installed_key id) "true")) as [e2|].
  { rewrite (bind_thrown _ _ _ _ _ E2). intros [= <- <-].
    right. split; [reflexivity | now left]. }
  rewrite (bind_returned _ _ _ _ _ E2).
  match goal with |- bind _ _ ?s1 = _ -> _ =>
    pose proof (setItem_run (DownloadManager.path_key id) root s1) as E3 end.
  destruct (faults env (SetItem (DownloadManager.path_key id) root)) as [e3|].
  { rewrite (bind_thrown _ _ _ _ _ E3). intros [= <- <-].
    right. split; [reflexivity | right; now left]. }
  rewrite (bind_returned _ _ _ _ _ E3).
  unfold bind, DownloadManager.assign, modify, DownloadManager.invoke. cbn [fst snd].
  match goal with |- (match ?c with _ => _ end, _) = _ -> _ => destruct c as [e4|] eqn:E4 end;
    [|discriminate].
  intros [= <- <-]. right. split; [reflexivity|]. right. right. split.
  - eexists _, e4. split; [|exact E4]. reflexivity.
  - exists (clock env (clock_reads s)). split; [exact Hrow|]. split; reflexivity.
Qed.

Ltac blind := intros; reflexivity.

Tactic Notation "unchanged" uconstr(lem) :=
  apply hoare_bind_preserves;
  [ apply lem; blind | intros ? ? Hv ? _; left; exact Hv | intros ? ].

Tactic Notation "unchanged_transfer" uconstr(tick) :=
  apply hoare_bind_preserves;
  [ apply preserves_downloadFile; first [ solve [blind] | intros ?; apply tick; blind ]
  | intros ? ? Hv ? _; left; exact Hv | intros ? ].

Lemma downloadMushaf_try_thrown_records v :
  hoare (fun s => records s = v) (DownloadManager.downloadMushaf_try env mushaf onProgress)
    (fun r s => forall e, r = Thrown e ->
       records s = v \/
       (v.1 !! Mushaf.id mushaf = None /\
        (faults env (SetItem (DownloadManager.installed_key (Mushaf.id mushaf)) "true") = Some e \/
         faults env (SetItem (DownloadManager.path_key (Mushaf.id mushaf))
                       (DownloadManager.mushafDir env (Mushaf.id mushaf))) = Some e \/
         throws_at_completion onProgress /\ recorded env mushaf v (records s)))).
Proof.
  unfold DownloadManager.downloadMushaf_try. cbv zeta.
  unchanged preserves_makeDirectoryAsync. unchanged preserves_makeDirectoryAsync.
  unchanged preserves_assign. unchanged preserves_assign. unchanged preserves_invoke.
  unchanged_transfer preserves_database_tick.
  unchanged preserves_assign. unchanged preserves_invoke.
  unchanged_transfer preserves_common_fonts_tick.
  unchanged preserves_assign. unchanged preserves_invoke.
  unchanged preserves_now.
  unchanged_transfer preserves_fonts_tick.
  unchanged preserves_assign. unchanged preserves_assign. unchanged preserves_assign.
  unchanged preserves_invoke.
  unchanged preserves_unzip. unchanged preserves_deleteAsync.
  unchanged preserves_assign. unchanged preserves_assign. unchanged preserves_invoke.
  unchanged preserves_unzip. unchanged preserves_deleteAsync.
  unchanged preserves_assign. unchanged preserves_invoke.
  unchanged preserves_assign. unchanged preserves_assign. unchanged preserves_invoke.
  unchanged preserves_verifyIntegrity.
  unchanged preserves_validate15LinesPerPage.
  intros s Hs e.
  pose proof (openDatabaseAsync_run "mushaf_library.db" s) as E0.
  destruct (faults env (OpenDatabase "mushaf_library.db")) as [e0|].
  { rewrite (bind_thrown _ _ _ _ _ E0). intros _. left. exact Hs. }
  rewrite (bind_returned _ _ _ _ _ E0).
  match goal with |- (?tail ?s1).1 = _ -> _ =>
    destruct (tail s1) as [r s'] eqn:E; cbn [fst snd]; intros ->;
    destruct (recording_steps_thrown s1 s' e E) as [H|H]
  end.
  - left. rewrite H. exact Hs.
  - right. rewrite <- Hs. exact H.
Qed.
End Outcome.

(** The records of a run that throws: they are as they were, or the
    catalog had no row for the asset and what failed is a write of the
    store or, with the installation recorded, the callback on the report
    of completion. *)
Lemma downloadMushaf_thrown_records
    (env : Env) (mushaf : Mushaf.t) (onProgress : DownloadManager.Callback) (s : State)
    (e : Error) :
  (DownloadManager.downloadMushaf env mushaf onProgress s).1 = Thrown e ->
  records (DownloadManager.downloadMushaf env mushaf onProgress s).2 = records s \/
  (installed_mushafs s !! Mushaf.id mushaf = None /\
   ((exists e0,
       faults env (SetItem (DownloadManager.installed_key (Mushaf.id mushaf)) "true") = Some e0 \/
       faults env (SetItem (DownloadManager.path_key (Mushaf.id mushaf))
                     (DownloadManager.mushafDir env (Mushaf.id mushaf))) = Some e0) \/
    throws_at_completion onProgress /\
    recorded env mushaf (records s)
      (records (DownloadManager.downloadMushaf env mushaf onProgress s).2))).
Proof.
  rewrite downloadMushaf_unfold.
  pose proof (downloadMushaf_try_thrown_records env mushaf onProgress (records s)
                (DownloadManager.downloadMushaf_enter mushaf s) eq_refl) as Htry.
  destruct (DownloadManager.downloadMushaf_try env mushaf onProgress _) as [[a|e'] s2];
    cbn [fst snd] in *; [discriminate|].
  specialize (Htry e' eq_refl).
  assert (Hend : forall s3, records s3 = records s2 ->
            records s3 = records s \/
            (installed_mushafs s !! Mushaf.id mushaf = None /\
             ((exists e0,
                 faults env (SetItem (DownloadManager.installed_key (Mushaf.id mushaf)) "true")
                   = Some e0 \/
                 faults env (SetItem (DownloadManager.path_key (Mushaf.id mushaf))
                               (DownloadManager.mushafDir env (Mushaf.id mushaf))) = Some e0) \/
              throws_at_completion onProgress /\ recorded env mushaf (records s) (records s3)))).
  { intros s3 ->. destruct Htry as [H|[Hnew [H|[H|H]]]]; [now left | right..];
      (split; [exact Hnew|]); [left; eauto | left; eauto | right; exact H]. }
  destruct (onProgress (failed_snapshot e' s2)); cbn [fst snd]; intros _.
  - apply Hend. reflexivity.
  - apply Hend. rewrite cleanupPartialDownload_run. cbn [snd].
    destruct (faults env (Delete _)); reflexivity.
Qed.


(** X6: Installing an asset that the catalog already lists never succeeds:
    the insertion of line 137 is refused (PRIMARY KEY), at the end of the
    run if not earlier.  The catalog row and the key-value store stay as
    they were; but when the callback returns on the failed snapshot, the
    [catch] block removes the root of the asset, and with it the files of
    the installation that was there. *)
Theorem reinstalling_fails_and_removes_the_files
    (env : Env) (mushaf : Mushaf.t) (onProgress : DownloadManager.Callback) (s : State)
    (row : InstalledMushaf.t) :
  let id := Mushaf.id mushaf in
  let root := DownloadManager.mushafDir env id in
  let run := DownloadManager.downloadMushaf env mushaf onProgress s in
  installed_mushafs s !! id = Some row ->
  (exists e, run.1 = Thrown e) /\
  installed_mushafs run.2 = installed_mushafs s /\
  storage run.2 = storage s /\
  (returns_on failed onProgress ->
   faults env (Delete root) = None ->
   forall path, covers root path = true -> fs run.2 !! path = None).
Proof.
  intros id root run Hrow. subst run.
  assert (Hthrown : exists e,
            (DownloadManager.downloadMushaf env mushaf onProgress s).1 = Thrown e).
  { rewrite downloadMushaf_unfold.
    pose proof (downloadMushaf_try_records env onProgress mushaf (records s)
                  (DownloadManager.downloadMushaf_enter mushaf s) eq_refl) as Htry.
    destruct (DownloadManager.downloadMushaf_try env mushaf onProgress _) as [[[]|e] s2];
      cbn [fst snd] in *; [|destruct (onProgress _); eauto].
    destruct (Htry eq_refl) as (t & Hnew & _). cbn in Hnew. fold id in Hnew.
    rewrite Hrow in Hnew. discriminate. }
  destruct Hthrown as [e He]. split; [eauto|].
  destruct (downloadMushaf_thrown_records env mushaf onProgress s e He) as [H|[H _]].
  2: { fold id in H. rewrite Hrow in H. discriminate. }
  injection H as H1 H2. split; [exact H1|]. split; [exact H2|].
  intros Hreturns Hdelete path Hpath. revert He. rewrite downloadMushaf_unfold.
  destruct (DownloadManager.downloadMushaf_try env mushaf onProgress _) as [[a|e'] s2];
    cbn [fst snd]; [discriminate|].
  rewrite (Hreturns (failed_snapshot e' s2) eq_refl). intros _.
  rewrite cleanupPartialDownload_run. fold id root. rewrite Hdelete. cbn [snd].
  change (fs (DownloadManager.downloadMushaf_finally mushaf ?x)) with (fs x).
  cbn [fs set_fs]. now apply lookup_deleted.
Qed.

(** *** Installing, then uninstalling *)

Lemma downloadMushaf_returned_records
    (env : Env) (mushaf : Mushaf.t) (onProgress : DownloadManager.Callback) (s : State) :
  (DownloadManager.downloadMushaf env mushaf onProgress s).1 = Returned tt ->
  recorded env mushaf (records s)
    (records (DownloadManager.downloadMushaf env mushaf onProgress s).2).
Proof.
  rewrite downloadMushaf_unfold.
  pose proof (downloadMushaf_try_records env onProgress mushaf (records s)
                (DownloadManager.downloadMushaf_enter mushaf s) eq_refl) as Htry.
  destruct (DownloadManager.downloadMushaf_try env mushaf onProgress _) as [[[]|e] s2];
    cbn [fst snd] in *; [|destruct (onProgress _); discriminate].
  intros _. exact (Htry eq_refl).
Qed.

Lemma lookup_not_deleted (files : gmap string FileContent) (dir path : string) :
  covers dir path = false ->
  filter (fun kv => covers dir kv.1 = false) files !! path = files !! path.
Proof.
  intros H. rewrite map_lookup_filter. destruct (files !! path); cbn; [|reflexivity].
  now rewrite option_guard_True.
Qed.

Lemma hoare_skip {A B} (m : M A) (k : A -> M B) (Q : Completion B -> State -> Prop) :
  (forall e s, Q (Thrown e) s) ->
  (forall a, hoare (fun _ => True) (k a) Q) ->
  hoare (fun _ => True) (bind m k) Q.
Proof.
  intros Hthrow Hk. apply (hoare_bind _ (fun _ _ => True)).
  - intros s _. exact I.
  - intros e s _. apply Hthrow.
  - exact Hk.
Qed.

Lemma hoare_fix {A B} (f : State -> B) (P : B -> Prop) (m : M A)
    (Q : Completion A -> State -> Prop) :
  (forall v, P v -> hoare (fun s => f s = v) m Q) -> hoare (fun s => P (f s)) m Q.
Proof. intros H s Hs. exact (H (f s) Hs s eq_refl). Qed.

(** With a document directory written with its final slash, [mushafs/]
    is one of the directories between it and the root of an asset. *)
Lemma mushafs_is_intermediate (env : Env) (mushafId : Z) :
  endsWith (documentDirectory env) "/" = true ->
  documentDirectory env +:+ "mushafs/" ∈ intermediates env (DownloadManager.mushafDir env mushafId).
Proof.
  intros Hslash. unfold intermediates. rewrite list_elem_of_In, filter_In, <- list_elem_of_In.
  split.
  - apply directories_above_spec.
    exists (documentDirectory env +:+ "mushafs"), (pretty mushafId +:+ "/").
    split; [now rewrite string_app_assoc|]. split.
    + destruct (pretty mushafId); discriminate.
    + unfold DownloadManager.mushafDir. now rewrite !string_app_assoc.
  - apply inside_spec. exists "mushafs/". split; [discriminate|].
    unfold as_directory. now rewrite Hslash.
Qed.

Section Parent.
Variable env : Env.
Variable mushaf : Mushaf.t.
Variable onProgress : DownloadManager.Callback.

Ltac blind := intros; reflexivity.

Tactic Notation "leaves" uconstr(lem) :=
  apply preserves_bind; [apply lem; first [solve [blind] | idtac] | intros ?].

Lemma makeDirectoryAsync_keeps path k :
  hoare (fun s => is_Some (fs s !! k)) (makeDirectoryAsync env path)
        (fun _ s => is_Some (fs s !! k)).
Proof.
  intros s Hs. unfold makeDirectoryAsync, bind, call, modify.
  destruct (faults env (MakeDirectory path)); cbn [fst snd fs log set_fs]; [exact Hs|].
  destruct (decide (k = path)) as [->|Hne]; [rewrite lookup_insert_eq; eauto|].
  rewrite lookup_insert_ne by congruence. rewrite lookup_create_missing.
  destruct Hs as [content ->]. eauto.
Qed.

(** A [try] block that returns has created [mushafs/], if it was
    missing. *)
Lemma downloadMushaf_try_has_mushafs :
  endsWith (documentDirectory env) "/" = true ->
  hoare (fun _ => True) (DownloadManager.downloadMushaf_try env mushaf onProgress)
        (fun r s => r = Returned tt ->
                    is_Some (fs s !! (documentDirectory env +:+ "mushafs/"))).
Proof.
  intros Hslash. unfold DownloadManager.downloadMushaf_try. cbv zeta.
  set (root := DownloadManager.mushafDir env (Mushaf.id mushaf)).
  set (mushafs := documentDirectory env +:+ "mushafs/").
  apply (hoare_bind_returned _ (fun _ s => is_Some (fs s !! mushafs)));
    [|intros ?|intros; discriminate].
  { intros s _ [] Hr. revert Hr. unfold makeDirectoryAsync, bind, call, modify.
    destruct (faults env (MakeDirectory root)); cbn [fst snd fs log set_fs];
      [discriminate|]. intros _.
    destruct (decide (mushafs = root)) as [->|Hne]; [rewrite lookup_insert_eq; eauto|].
    rewrite lookup_insert_ne by congruence. rewrite lookup_create_missing.
    destruct (fs s !! mushafs); [eauto|].
    rewrite bool_decide_eq_true_2 by now apply mushafs_is_intermediate. eauto. }
  eapply hoare_bind; [apply makeDirectoryAsync_keeps | intros; discriminate | intros ?].
  assert (Hrest : forall m : M unit, preserves (outside root) m ->
            hoare (fun s => is_Some (fs s !! mushafs)) m
                  (fun r s => r = Returned tt -> is_Some (fs s !! mushafs))).
  { intros m Hm s Hs _.
    rewrite <- (outside_lookup root _ mushafs (mushafs_not_covered env _)), Hm,
      (outside_lookup root _ mushafs (mushafs_not_covered env _)). exact Hs. }
  apply Hrest.
  leaves preserves_assign. leaves preserves_assign. leaves preserves_invoke.
  leaves outside_downloadFile.
  { apply covers_below. } { intros p. apply preserves_database_tick; blind. }
  leaves preserves_assign. leaves preserves_invoke.
  leaves outside_downloadFile.
  { apply covers_below. } { intros p. apply preserves_common_fonts_tick; blind. }
  leaves preserves_assign. leaves preserves_invoke.
  leaves preserves_now.
  leaves outside_downloadFile.
  { apply covers_below. } { intros p. apply preserves_fonts_tick; blind. }
  leaves preserves_assign. leaves preserves_assign. leaves preserves_assign.
  leaves preserves_invoke.
  leaves outside_unzip. { apply covers_below. } { intros entry. apply covers_below_2. }
  leaves outside_deleteAsync. { apply covers_below. }
  leaves preserves_assign. leaves preserves_assign. leaves preserves_invoke.
  leaves outside_unzip. { apply covers_below. } { intros entry. apply covers_below_2. }
  leaves outside_deleteAsync. { apply covers_below. }
  leaves preserves_assign. leaves preserves_invoke.
  leaves preserves_assign. leaves preserves_assign. leaves preserves_invoke.
  leaves preserves_verifyIntegrity.
  leaves preserves_validate15LinesPerPage.
  leaves preserves_openDatabaseAsync.
  leaves preserves_now.
  leaves preserves_runAsync.
  leaves preserves_setItem. leaves preserves_setItem.
  leaves preserves_assign. leaves preserves_assign. leaves preserves_assign.
  apply preserves_invoke; blind.
Qed.

Lemma downloadMushaf_returned_has_mushafs s :
  endsWith (documentDirectory env) "/" = true ->
  (DownloadManager.downloadMushaf env mushaf onProgress s).1 = Returned tt ->
  is_Some (fs (DownloadManager.downloadMushaf env mushaf onProgress s).2
           !! (documentDirectory env +:+ "mushafs/")).
Proof.
  intros Hslash. rewrite downloadMushaf_unfold.
  pose proof (downloadMushaf_try_has_mushafs Hslash
                (DownloadManager.downloadMushaf_enter mushaf s) I) as Htry.
  destruct (DownloadManager.downloadMushaf_try env mushaf onProgress _) as [[[]|e] s2];
    cbn [fst snd] in *; [|destruct (onProgress _); discriminate].
  intros _. exact (Htry eq_refl).
Qed.
End Parent.

(** X7: Uninstalling an asset right after its installation leaves the
    device as uninstalling alone would have, but for one directory:
    nothing is left below the root of the asset and the other files are
    those of before the installation, except that the directory
    [mushafs/] above the root, which the installation creates when it is
    missing, stays: it is there afterwards (for a document directory
    written with its final slash), also on a device that did not have it.
    The catalog is the catalog of before the installation, and the
    key-value store is the one of before without the two keys of the
    asset.  On a device that had [mushafs/] and nothing of the asset,
    files and store are exactly those of before. *)
Theorem uninstalling_undoes_the_installation
    (env : Env) (mushaf : Mushaf.t) (onProgress : DownloadManager.Callback) (s : State) :
  let id := Mushaf.id mushaf in
  let root := DownloadManager.mushafDir env id in
  let mushafs := documentDirectory env +:+ "mushafs/" in
  let ik := DownloadManager.installed_key id in
  let pk := DownloadManager.path_key id in
  let installed := DownloadManager.downloadMushaf env mushaf onProgress s in
  let after := DownloadManager.deleteMushaf env id installed.2 in
  let direct := DownloadManager.deleteMushaf env id s in
  faults env (Delete root) = None ->
  faults env (OpenDatabase DB_NAME) = None ->
  faults env (Run DB_NAME (DeleteInstalledMushaf id)) = None ->
  faults env (RemoveItem ik) = None ->
  faults env (RemoveItem pk) = None ->
  installed.1 = Returned tt ->
  after.1 = Returned tt /\
  (forall path, path <> mushafs -> fs after.2 !! path = fs direct.2 !! path) /\
  (fs after.2 !! mushafs = fs s !! mushafs \/
   fs s !! mushafs = None /\ fs after.2 !! mushafs = Some Directory) /\
  (endsWith (documentDirectory env) "/" = true -> is_Some (fs after.2 !! mushafs)) /\
  installed_mushafs after.2 = installed_mushafs s /\
  storage after.2 = storage direct.2 /\
  ((forall path, covers root path = true -> fs s !! path = None) ->
   is_Some (fs s !! mushafs) ->
   storage s !! ik = None -> storage s !! pk = None ->
   fs after.2 = fs s /\ storage after.2 = storage s).
Proof.
  intros id root mushafs ik pk installed after direct Hdelete Hopen Hrun Hik Hpk Hinstalled.
  subst after direct.
  rewrite !(fun s' => deleteMushaf_run env id s' Hdelete Hopen Hrun Hik Hpk).
  cbn [fst snd fs storage installed_mushafs]. fold root ik pk.
  destruct (downloadMushaf_returned_records env mushaf onProgress s Hinstalled)
    as (t & Hnew & Htable & Hitems).
  cbn [fst snd records] in Hnew, Htable, Hitems.
  fold id root ik pk installed in Hnew, Htable, Hitems.
  pose proof (grown_outside_downloadMushaf env mushaf onProgress s) as Hout.
  fold id root mushafs installed in Hout.
  pose proof (mushafs_not_covered env id) as Hmushafs. fold root mushafs in Hmushafs.
  assert (Hstore : delete pk (delete ik (storage installed.2)) = delete pk (delete ik (storage s))).
  { rewrite Hitems.
    rewrite (delete_insert_ne _ ik pk) by apply installed_key_not_path_key.
    now rewrite delete_insert_eq, delete_insert_eq. }
  assert (Hfiles : forall path, path <> mushafs ->
            filter (fun kv => covers root kv.1 = false) (fs installed.2) !! path
            = filter (fun kv => covers root kv.1 = false) (fs s) !! path).
  { intros path Hpath. destruct (covers root path) eqn:E.
    - now rewrite !lookup_deleted.
    - rewrite !lookup_not_deleted by exact E.
      destruct (Hout path E) as [H|(Hin & _)]; [exact H|].
      apply list_elem_of_singleton in Hin. contradiction. }
  assert (Hparent : filter (fun kv => covers root kv.1 = false) (fs installed.2) !! mushafs
                    = fs s !! mushafs \/
                    fs s !! mushafs = None /\
                    filter (fun kv => covers root kv.1 = false) (fs installed.2) !! mushafs
                    = Some Directory).
  { rewrite lookup_not_deleted by exact Hmushafs.
    destruct (Hout mushafs Hmushafs) as [H|(_ & H1 & H2)]; [now left | now right]. }
  split; [reflexivity|]. split; [exact Hfiles|]. split; [exact Hparent|].
  split.
  { intros Hslash. rewrite lookup_not_deleted by exact Hmushafs.
    now apply downloadMushaf_returned_has_mushafs. }
  split; [rewrite Htable; now apply delete_insert_id|].
  split; [exact Hstore|].
  intros Hfresh Hthere Hi Hp. split.
  - apply map_eq. intros path. destruct (decide (path = mushafs)) as [->|Hne].
    + destruct Hparent as [H|[H _]]; [exact H|].
      rewrite H in Hthere. now apply is_Some_None in Hthere.
    + rewrite (Hfiles path Hne). destruct (covers root path) eqn:E.
      * rewrite lookup_deleted by exact E. symmetry. now apply Hfresh.
      * now apply lookup_not_deleted.
  - rewrite Hstore, (delete_id (storage s) ik Hi). now apply delete_id.
Qed.

(** *** The layout database of an installed asset (schema.ts) *)

Lemma check_page_returned (env : Env) (db : string) (expected : Z -> Z)
    (err : Z -> Z -> Error) (page : Z) (s s' : State) :
  check_page env db expected err page s = (Returned tt, s') ->
  fs s' = fs s /\
  exists rows, fs s !! db = Some (SqliteDatabase rows) /\ line_count rows page = expected page.
Proof.
  unfold check_page, SQLite.getFirstAsync, bind, call, get.
  destruct (faults env _); [discriminate|]. cbn.
  destruct (fs s !! db) as [[| |rows|]|] eqn:Hdb; try discriminate.
  cbn. fold (line_count rows page). case_bool_decide as Hcount; [discriminate|].
  intros [= <-]. split; [reflexivity|]. exists rows. split; [reflexivity|].
  destruct (decide (line_count rows page = expected page)); tauto.
Qed.

Lemma check_loop_returned (env : Env) (db : string) (expected : Z -> Z)
    (err : Z -> Z -> Error) (pages : list Z) :
  forall s s', for_of pages (check_page env db expected err) s = (Returned tt, s') ->
  fs s' = fs s /\
  Forall (fun page => exists rows, fs s !! db = Some (SqliteDatabase rows) /\
                                   line_count rows page = expected page) pages.
Proof.
  induction pages as [|page pages IH]; intros s s'.
  - intros [= <-]. split; [reflexivity | constructor].
  - cbn [for_of]. destruct (check_page env db expected err page s) as [[[]|e] s1] eqn:E.
    2: { rewrite (bind_thrown _ _ _ _ _ E). discriminate. }
    rewrite (bind_returned _ _ _ _ _ E). intros Hrest.
    destruct (check_page_returned _ _ _ _ _ _ _ E) as [Hfs1 Hpage].
    destruct (IH _ _ Hrest) as [Hfs Hpages]. rewrite Hfs1 in Hfs, Hpages.
    split; [exact Hfs|]. constructor; assumption.
Qed.

Section Verified.
Variable env : Env.
Variable mushaf : Mushaf.t.
Variable onProgress : DownloadManager.Callback.

Ltac blind := intros; reflexivity.

Tactic Notation "skip" := apply hoare_skip; [intros; discriminate | intros ?].

Tactic Notation "kept" uconstr(lem) :=
  eapply hoare_bind_returned;
  [ apply hoare_preserves_returned; apply lem; blind
  | intros ?
  | intros; discriminate ].

Lemma verifyIntegrity_returned mushafDir s :
  (DownloadManager.verifyIntegrity env mushafDir mushaf s).1 = Returned tt ->
  integrity_verdict env mushafDir mushaf
    (fs (DownloadManager.verifyIntegrity env mushafDir mushaf s).2) = Returned tt.
Proof.
  rewrite verifyIntegrity_verdict.
  now rewrite (preserves_verifyIntegrity fs ltac:(blind) env mushafDir mushaf s).
Qed.

Lemma validate15LinesPerPage_returned dbPath totalPages s :
  (DownloadManager.validate15LinesPerPage env dbPath totalPages s).1 = Returned tt ->
  fs (DownloadManager.validate15LinesPerPage env dbPath totalPages s).2 = fs s /\
  exists rows, fs s !! dbPath = Some (SqliteDatabase rows) /\
    Forall (fun page => line_count rows page = expected_lines page)
           (examined_pages totalPages).
Proof.
  rewrite validate15LinesPerPage_unfold.
  pose proof (openDatabaseAsync_run env dbPath s) as E0.
  destruct (faults env (OpenDatabase dbPath)).
  { rewrite (bind_thrown _ _ _ _ _ E0). discriminate. }
  rewrite (bind_returned _ _ _ _ _ E0).
  destruct (for_of _ _ _) as [[[]|e] s'] eqn:E; [|discriminate]. intros _.
  destruct (check_loop_returned _ _ _ _ _ _ _ E) as [Hfs Hpages].
  split; [exact Hfs|]. cbn [fs log] in Hpages.
  pose proof Hpages as H1. unfold examined_pages in H1.
  apply Forall_cons in H1 as [(rows & Hrows & _) _].
  exists rows. split; [exact Hrows|].
  eapply Forall_impl; [exact Hpages|]. cbn. intros page (rows' & Hrows' & Hpage).
  rewrite Hrows in Hrows'. injection Hrows' as <-. exact Hpage.
Qed.

(** What the checks of steps 7 and 8 have established about the files
    when the [try] block returns. *)
Lemma downloadMushaf_try_verified :
  hoare (fun _ => True) (DownloadManager.downloadMushaf_try env mushaf onProgress)
    (fun r s => r = Returned tt -> verified env mushaf (fs s)).
Proof.
  unfold DownloadManager.downloadMushaf_try. cbv zeta.
  do 29 skip.
  apply (hoare_bind_returned _
           (fun _ s => integrity_verdict env
              (DownloadManager.mushafDir env (Mushaf.id mushaf)) mushaf (fs s) = Returned tt));
    [|intros ?|intros; discriminate].
  { intros s _ [] Hr. now apply verifyIntegrity_returned. }
  apply (hoare_bind_returned _ (fun _ s => verified env mushaf (fs s)));
    [|intros ?|intros; discriminate].
  { intros s Hs [] Hr.
    destruct (validate15LinesPerPage_returned _ _ _ Hr) as [Hfs Hrows].
    rewrite Hfs. split; assumption. }
  apply (hoare_fix fs (verified env mushaf)). intros files Hfiles.
  kept preserves_openDatabaseAsync.
  kept preserves_now.
  kept preserves_runAsync.
  kept preserves_setItem. kept preserves_setItem.
  kept preserves_assign. kept preserves_assign. kept preserves_assign.
  intros s Hs _. change (fs (DownloadManager.invoke onProgress s).2) with (fs s).
  rewrite Hs. exact Hfiles.
Qed.
End Verified.

Lemma downloadMushaf_returned_verified
    (env : Env) (mushaf : Mushaf.t) (onProgress : DownloadManager.Callback) (s : State) :
  (DownloadManager.downloadMushaf env mushaf onProgress s).1 = Returned tt ->
  verified env mushaf (fs (DownloadManager.downloadMushaf env mushaf onProgress s).2).
Proof.
  rewrite downloadMushaf_unfold.
  pose proof (downloadMushaf_try_verified env mushaf onProgress
                (DownloadManager.downloadMushaf_enter mushaf s) I) as Htry.
  destruct (DownloadManager.downloadMushaf_try env mushaf onProgress _) as [[[]|e] s2];
    cbn [fst snd] in *; [|destruct (onProgress _); discriminate].
  intros _. exact (Htry eq_refl).
Qed.

Lemma first_missing_None (env : Env) (files : gmap string FileContent) (paths : list string) :
  first_missing env files paths = None ->
  Forall (fun path => is_Some (files !! path)) paths.
Proof.
  induction paths as [|path paths IH]; [constructor|]. cbn [first_missing].
  destruct (faults env (GetInfo path)); [discriminate|].
  case_bool_decide as Hpath; [|discriminate].
  intros H. constructor; [exact Hpath | exact (IH H)].
Qed.

(** X2: What a successful installation guarantees about the files it leaves:
    when [downloadMushaf] returns, the five files [verifyIntegrity] looks
    for are there, [fonts/pages/] holds exactly as many [.ttf] files as the
    asset has pages, and the layout database has 8 lines on pages 1 and 2
    and 15 lines on every page from 3 to the page count. *)
Theorem installed_asset_is_complete
    (env : Env) (mushaf : Mushaf.t) (onProgress : DownloadManager.Callback) (s : State) :
  let root := DownloadManager.mushafDir env (Mushaf.id mushaf) in
  let run := DownloadManager.downloadMushaf env mushaf onProgress s in
  run.1 = Returned tt ->
  Forall (fun path => is_Some (fs run.2 !! path)) (DownloadManager.criticalFiles root mushaf) /\
  fonts_found (fs run.2) root = Mushaf.pages_count mushaf /\
  exists rows,
    fs run.2 !! (root +:+ "mushaf_layout.db") = Some (SqliteDatabase rows) /\
    line_count rows 1 = 8 /\ line_count rows 2 = 8 /\
    forall page, 3 <= page <= Mushaf.pages_count mushaf -> line_count rows page = 15.
Proof.
  intros root run Hrun.
  destruct (downloadMushaf_returned_verified env mushaf onProgress s Hrun)
    as [Hint (rows & Hrows & Hpages)].
  fold root run in Hint, Hrows. unfold integrity_verdict in Hint.
  destruct (first_missing env (fs run.2) _) eqn:Hpresent; [discriminate|].
  destruct (faults env (ReadDirectory _)); [discriminate|].
  destruct (fs run.2 !! (root +:+ "fonts/pages/")) as [[]|]; try discriminate.
  case_bool_decide as Hcount; [discriminate|].
  split; [exact (first_missing_None _ _ _ Hpresent)|].
  split; [destruct (decide (fonts_found (fs run.2) root = Mushaf.pages_count mushaf)); tauto|].
  exists rows. split; [exact Hrows|]. now apply conforms_examined_pages.
Qed.

(** X9: After [downloadMushaf] has returned, the layout database of the asset
    is where [getMushafDatabase] looks for it: called with the root of the
    asset, which is the path [getMushafPath] gives, it returns the handle
    of [mushaf_layout.db] below the root. *)
Theorem installed_asset_has_its_layout_database
    (env : Env) (mushaf : Mushaf.t) (onProgress : DownloadManager.Callback) (s : State) :
  let root := DownloadManager.mushafDir env (Mushaf.id mushaf) in
  let run := DownloadManager.downloadMushaf env mushaf onProgress s in
  run.1 = Returned tt ->
  faults env (GetInfo (root +:+ "mushaf_layout.db")) = None ->
  faults env (OpenDatabase (root +:+ "mushaf_layout.db")) = None ->
  (Schema.getMushafDatabase env root run.2).1 = Returned (root +:+ "mushaf_layout.db").
Proof.
  intros root run Hrun Hinfo Hopen.
  assert (Hdb : is_Some (fs run.2 !! (root +:+ "mushaf_layout.db"))).
  { destruct (downloadMushaf_returned_verified env mushaf onProgress s Hrun)
      as [_ (rows & Hrows & _)].
    fold root run in Hrows. rewrite Hrows. eauto. }
  unfold Schema.getMushafDatabase. cbv zeta.
  pose proof (getInfoAsync_run env (root +:+ "mushaf_layout.db") run.2) as E.
  rewrite Hinfo in E. rewrite (bind_returned _ _ _ _ _ E). cbn [exists_].
  rewrite (bool_decide_eq_true_2 _ Hdb). cbn [negb].
  rewrite openDatabaseAsync_run, Hopen. reflexivity.
Qed.

(** X10: After [deleteMushaf] has returned, [getMushafDatabase] called with the
    root of the asset throws the error that names the missing database. *)
Theorem uninstalled_asset_has_no_layout_database (env : Env) (mushafId : Z) (s : State) :
  let root := DownloadManager.mushafDir env mushafId in
  let run := DownloadManager.deleteMushaf env mushafId s in
  faults env (Delete root) = None ->
  faults env (OpenDatabase DB_NAME) = None ->
  faults env (Run DB_NAME (DeleteInstalledMushaf mushafId)) = None ->
  faults env (RemoveItem (DownloadManager.installed_key mushafId)) = None ->
  faults env (RemoveItem (DownloadManager.path_key mushafId)) = None ->
  faults env (GetInfo (root +:+ "mushaf_layout.db")) = None ->
  (Schema.getMushafDatabase env root run.2).1 =
  Thrown (mkError ("Base de données Mushaf introuvable: " +:+ root +:+ "mushaf_layout.db")).
Proof.
  intros root run Hdelete Hopen Hrun Hik Hpk Hinfo. subst run.
  rewrite (deleteMushaf_run env mushafId s Hdelete Hopen Hrun Hik Hpk). cbn [snd].
  unfold Schema.getMushafDatabase. cbv zeta.
  match goal with |- (bind _ _ ?s1).1 = _ =>
    pose proof (getInfoAsync_run env (root +:+ "mushaf_layout.db") s1) as E end.
  rewrite Hinfo in E. cbn [fs] in E. fold root in E.
  rewrite (lookup_deleted _ root _ (covers_below env mushafId _)) in E.
  rewrite bool_decide_eq_false_2 in E by apply is_Some_None.
  rewrite (bind_returned _ _ _ _ _ E). reflexivity.
Qed.

(** *** An uninstallation that fails *)

(** X8: [deleteMushaf] is a sequence of independent steps that stops at the
    first one that fails.  When the removal of the files fails, nothing has
    changed.  When the files are removed and the deletion of the catalog
    row then fails, the error is thrown with the files gone, while the
    catalog still lists the asset and the key-value store still flags it
    as installed. *)
Theorem deleteMushaf_stops_at_the_first_failure
    (env : Env) (mushafId : Z) (s : State) (e : Error) :
  let root := DownloadManager.mushafDir env mushafId in
  let run := DownloadManager.deleteMushaf env mushafId s in
  (faults env (Delete root) = Some e ->
   run.1 = Thrown e /\ fs run.2 = fs s /\
   installed_mushafs run.2 = installed_mushafs s /\ storage run.2 = storage s) /\
  (faults env (Delete root) = None ->
   faults env (OpenDatabase DB_NAME) = None ->
   faults env (Run DB_NAME (DeleteInstalledMushaf mushafId)) = Some e ->
   run.1 = Thrown e /\
   (forall path, covers root path = true -> fs run.2 !! path = None) /\
   installed_mushafs run.2 = installed_mushafs s /\ storage run.2 = storage s).
Proof.
  intros root run. subst run. unfold DownloadManager.deleteMushaf.
  pose proof (deleteAsync_idempotent_run env root s) as E1. fold root.
  split.
  - intros Hdelete. rewrite Hdelete in E1. rewrite (bind_thrown _ _ _ _ _ E1).
    repeat split.
  - intros Hdelete Hopen Hrun. rewrite Hdelete in E1. rewrite (bind_returned _ _ _ _ _ E1).
    match goal with |- context [bind _ _ ?s1] =>
      pose proof (openDatabaseAsync_run env "mushaf_library.db" s1) as E2 end.
    change "mushaf_library.db" with DB_NAME in E2 |- *. rewrite Hopen in E2.
    rewrite (bind_returned _ _ _ _ _ E2).
    match goal with |- context [bind _ _ ?s2] =>
      assert (E3 : SQLite.runAsync env DB_NAME (DeleteInstalledMushaf mushafId) s2
                   = (Thrown e, log (Called (Run DB_NAME (DeleteInstalledMushaf mushafId))) s2))
    end.
    { unfold SQLite.runAsync, bind, call. now rewrite Hrun. }
    rewrite (bind_thrown _ _ _ _ _ E3). cbn [fst snd fs storage installed_mushafs log set_fs].
    split; [reflexivity|]. split; [|split; reflexivity].
    intros path Hpath. now apply lookup_deleted.
Qed.

(** ** The page grid (QuranAPI.ts) *)

Lemma group_word_get (linesMap : gmap Z (list QuranAPI.APIWord.t))
    (word : QuranAPI.APIWord.t) (lineNum : Z) :
  default [] (QuranAPI.group_word linesMap word !! lineNum) =
  default [] (linesMap !! lineNum)
  ++ filter (fun w => QuranAPI.APIWord.line_number w = lineNum) [word].
Proof.
  unfold QuranAPI.group_word. cbv zeta.
  destruct (decide (QuranAPI.APIWord.line_number word = lineNum)) as [<-|Hne].
  - rewrite filter_cons_True by reflexivity. rewrite lookup_alter_eq.
    case_bool_decide as Hhas.
    + destruct Hhas as [ws ->]. reflexivity.
    + rewrite lookup_insert_eq. apply eq_None_not_Some in Hhas. rewrite Hhas. reflexivity.
  - rewrite filter_cons_False by exact Hne. rewrite lookup_alter_ne by exact Hne.
    rewrite filter_nil, app_nil_r.
    case_bool_decide; [reflexivity|]. now rewrite lookup_insert_ne.
Qed.

Lemma group_words_get (words : list QuranAPI.APIWord.t) (lineNum : Z) :
  forall linesMap,
  default [] (foldl QuranAPI.group_word linesMap words !! lineNum) =
  default [] (linesMap !! lineNum)
  ++ filter (fun w => QuranAPI.APIWord.line_number w = lineNum) words.
Proof.
  induction words as [|word words IH]; intros linesMap; cbn [foldl].
  - now rewrite filter_nil, app_nil_r.
  - rewrite IH, group_word_get, <- app_assoc. f_equal.
    change (word :: words) with ([word] ++ words). now rewrite filter_app.
Qed.

Lemma group_verses_get (verses : list QuranAPI.APIVerse.t) (lineNum : Z) :
  forall linesMap,
  default [] (foldl (fun linesMap verse =>
                       foldl QuranAPI.group_word linesMap (QuranAPI.APIVerse.words verse))
                    linesMap verses !! lineNum) =
  default [] (linesMap !! lineNum)
  ++ filter (fun w => QuranAPI.APIWord.line_number w = lineNum)
            (concat (map QuranAPI.APIVerse.words verses)).
Proof.
  induction verses as [|verse verses IH]; intros linesMap; cbn [foldl map concat].
  - now rewrite filter_nil, app_nil_r.
  - now rewrite IH, group_words_get, filter_app, <- app_assoc.
Qed.

Lemma grid_nonneg (pageNumber : Z) : 0 <= grid pageNumber.
Proof. unfold grid. case_bool_decide; lia. Qed.

Lemma processPageData_grid (pageData : QuranAPI.APIPageResponse.t) (pageNumber : Z) :
  QuranAPI.processPageData pageData pageNumber =
  QuranAPI.ProcessedPage.mk pageNumber
    (map (grid_line pageData) (seqZ 1 (grid pageNumber))) (grid pageNumber).
Proof.
  unfold QuranAPI.processPageData. cbv zeta. fold (grid pageNumber).
  assert (Hlines : forall l,
    map (fun lineNum =>
           QuranAPI.PageLine.mk lineNum
             (default [] (foldl (fun linesMap verse =>
                foldl QuranAPI.group_word linesMap (QuranAPI.APIVerse.words verse))
                ∅ (QuranAPI.APIPageResponse.verses pageData) !! lineNum))
             (bool_decide (length (default [] (foldl (fun linesMap verse =>
                foldl QuranAPI.group_word linesMap (QuranAPI.APIVerse.words verse))
                ∅ (QuranAPI.APIPageResponse.verses pageData) !! lineNum)) = 0%nat))
             QuranAPI.ayah) l
    = map (grid_line pageData) l).
  { intros l. apply map_ext. intros lineNum.
    rewrite group_verses_get, lookup_empty. cbn [default app].
    unfold grid_line, words_on_line, page_words. f_equal.
    apply bool_decide_ext, length_zero_iff_nil. }
  rewrite Hlines. f_equal.
  rewrite length_map, length_seqZ. pose proof (grid_nonneg pageNumber). lia.
Qed.

(** X18: [processPageData] always produces the whole grid of the page, 8 lines
    for pages up to 2 and 15 lines otherwise, numbered from 1 without a
    gap, whatever the response holds.  Line [n] carries the words whose
    [line_number] is [n], in the order of the response; a line that gets
    no word is centred, and every line has the type [ayah]. *)
Theorem processPageData_fills_the_grid
    (pageData : QuranAPI.APIPageResponse.t) (pageNumber : Z) :
  let page := QuranAPI.processPageData pageData pageNumber in
  QuranAPI.ProcessedPage.pageNumber page = pageNumber /\
  QuranAPI.ProcessedPage.totalLines page = (if bool_decide (pageNumber <= 2) then 8 else 15) /\
  map QuranAPI.PageLine.lineNumber (QuranAPI.ProcessedPage.lines page)
    = seqZ 1 (QuranAPI.ProcessedPage.totalLines page) /\
  QuranAPI.ProcessedPage.lines page
    = map (fun lineNum =>
             QuranAPI.PageLine.mk lineNum (words_on_line pageData lineNum)
               (bool_decide (words_on_line pageData lineNum = [])) QuranAPI.ayah)
          (seqZ 1 (QuranAPI.ProcessedPage.totalLines page)).
Proof.
  intros page. subst page. rewrite processPageData_grid.
  cbn [QuranAPI.ProcessedPage.pageNumber QuranAPI.ProcessedPage.totalLines
       QuranAPI.ProcessedPage.lines].
  split; [reflexivity|]. split; [reflexivity|]. split; [|reflexivity].
  rewrite List.map_map. cbn [grid_line QuranAPI.PageLine.lineNumber]. apply List.map_id.
Qed.

(** *** Which words are shown *)

Lemma filter_disjoint_or {A} (P Q : A -> Prop)
    `{!forall x, Decision (P x)} `{!forall x, Decision (Q x)} (l : list A) :
  (forall x, P x -> Q x -> False) ->
  filter (fun x => P x \/ Q x) l ≡ₚ filter P l ++ filter Q l.
Proof.
  intros Hdisjoint. induction l as [|x l IH]; [reflexivity|].
  destruct (decide (P x)) as [HP|HP].
  - rewrite (filter_cons_True (fun x => P x \/ Q x)) by now left.
    rewrite (filter_cons_True P) by exact HP.
    rewrite (filter_cons_False Q) by (intros HQ; exact (Hdisjoint x HP HQ)).
    cbn. now rewrite IH.
  - destruct (decide (Q x)) as [HQ|HQ].
    + rewrite (filter_cons_True (fun x => P x \/ Q x)) by now right.
      rewrite (filter_cons_False P) by exact HP.
      rewrite (filter_cons_True Q) by exact HQ.
      rewrite IH. apply Permutation_middle.
    + rewrite (filter_cons_False (fun x => P x \/ Q x)) by tauto.
      rewrite (filter_cons_False P) by exact HP.
      now rewrite (filter_cons_False Q) by exact HQ.
Qed.

Lemma lines_of_keys {A} (key : A -> Z) (l : list A) (keys : list Z) :
  NoDup keys ->
  concat (map (fun k => filter (fun x => key x = k) l) keys)
  ≡ₚ filter (fun x => key x ∈ keys) l.
Proof.
  induction 1 as [|k keys Hk _ IH]; cbn [map concat].
  - induction l as [|x l IHl]; [reflexivity|].
    rewrite filter_cons_False; [exact IHl | apply not_elem_of_nil].
  - rewrite IH.
    rewrite <- (filter_disjoint_or (fun x => key x = k) (fun x => key x ∈ keys)).
    + apply Permutation_refl'. apply list_filter_iff. intros x.
      rewrite elem_of_cons. reflexivity.
    + intros x <- Hx. exact (Hk Hx).
Qed.

Lemma shown_words_grid (pageData : QuranAPI.APIPageResponse.t) (pageNumber : Z) :
  shown_words (QuranAPI.processPageData pageData pageNumber) =
  concat (map (fun lineNum =>
                 filter (fun w => QuranAPI.APIWord.line_number w = lineNum)
                        (page_words pageData))
              (seqZ 1 (grid pageNumber))).
Proof.
  unfold shown_words. rewrite processPageData_grid.
  cbn [QuranAPI.ProcessedPage.lines]. now rewrite List.map_map.
Qed.

(** X19: The words a processed page shows are the words of the response whose
    [line_number] lies on the grid, each as often as the response has it:
    a word numbered outside 1..8 on pages up to 2, or outside 1..15 on the
    other pages, is dropped, and no word of the grid is lost or repeated. *)
Theorem processPageData_keeps_the_words_of_the_grid
    (pageData : QuranAPI.APIPageResponse.t) (pageNumber : Z) :
  shown_words (QuranAPI.processPageData pageData pageNumber)
  ≡ₚ filter (fun w => 1 <= QuranAPI.APIWord.line_number w <= grid pageNumber)
            (page_words pageData).
Proof.
  rewrite shown_words_grid, lines_of_keys by apply NoDup_seqZ.
  apply Permutation_refl'. apply list_filter_iff. intros w.
  rewrite elem_of_seqZ. lia.
Qed.

(** *** The order of the words *)

Lemma filter_none {A} (P : A -> Prop) `{!forall x, Decision (P x)} (l : list A) :
  Forall (fun x => ~ P x) l -> filter P l = [].
Proof.
  induction 1 as [|x l Hx _ IH]; [reflexivity|]. now rewrite filter_cons_False.
Qed.

Lemma filter_all {A} (P : A -> Prop) `{!forall x, Decision (P x)} (l : list A) :
  Forall P l -> filter P l = l.
Proof.
  induction 1 as [|x l Hx _ IH]; [reflexivity|]. rewrite filter_cons_True by exact Hx.
  now rewrite IH.
Qed.

(** In a list whose keys do not decrease, the elements of key [lo] come
    first among those with a key from [lo] on. *)
Lemma sorted_split_first {A} (key : A -> Z) (l : list A) (lo hi : Z) :
  lo < hi ->
  StronglySorted (fun x y => key x <= key y) l ->
  filter (fun x => lo <= key x < hi) l =
  filter (fun x => key x = lo) l ++ filter (fun x => lo + 1 <= key x < hi) l.
Proof.
  intros Hlt. induction 1 as [|x l _ IH Hx]; [reflexivity|].
  destruct (decide (key x = lo)) as [Heq|Hne].
  - rewrite (filter_cons_True (fun x => lo <= key x < hi)) by lia.
    rewrite (filter_cons_True (fun x => key x = lo)) by exact Heq.
    rewrite (filter_cons_False (fun x => lo + 1 <= key x < hi)) by lia.
    cbn. now rewrite IH.
  - rewrite (filter_cons_False (fun x => key x = lo)) by exact Hne.
    destruct (decide (lo <= key x < hi)) as [Hin|Hout].
    + rewrite (filter_cons_True (fun x => lo <= key x < hi)) by exact Hin.
      rewrite (filter_cons_True (fun x => lo + 1 <= key x < hi)) by lia.
      rewrite IH. rewrite (filter_none (fun x => key x = lo)); [reflexivity|].
      eapply Forall_impl; [exact Hx|]. cbn. intros y Hy. lia.
    + rewrite (filter_cons_False (fun x => lo <= key x < hi)) by exact Hout.
      rewrite (filter_cons_False (fun x => lo + 1 <= key x < hi)) by lia.
      exact IH.
Qed.

Lemma lines_of_sorted {A} (key : A -> Z) (l : list A) (n : nat) :
  StronglySorted (fun x y => key x <= key y) l ->
  forall lo,
  concat (map (fun k => filter (fun x => key x = k) l) (seqZ lo (Z.of_nat n)))
  = filter (fun x => lo <= key x < lo + Z.of_nat n) l.
Proof.
  intros Hsorted. induction n as [|n IH]; intros lo.
  - cbn. symmetry. apply filter_none. apply Forall_forall. intros x _. lia.
  - rewrite seqZ_cons by lia. cbn [map concat].
    replace (Z.pred (Z.of_nat (S n))) with (Z.of_nat n) by lia.
    rewrite IH. rewrite (sorted_split_first key l lo (lo + Z.of_nat (S n))) by (lia || assumption).
    f_equal. apply list_filter_iff. intros x. lia.
Qed.

(** X20: When the response lists the words of the page from the first line to
    the last, as the reading order has them, and numbers them all on the
    grid, the processed page shows exactly the words of the response, in
    the same order. *)
Theorem processPageData_keeps_the_reading_order
    (pageData : QuranAPI.APIPageResponse.t) (pageNumber : Z) :
  StronglySorted (fun w1 w2 => QuranAPI.APIWord.line_number w1 <= QuranAPI.APIWord.line_number w2)
                 (page_words pageData) ->
  Forall (fun w => 1 <= QuranAPI.APIWord.line_number w <= grid pageNumber)
         (page_words pageData) ->
  shown_words (QuranAPI.processPageData pageData pageNumber) = page_words pageData.
Proof.
  intros Hsorted Hgrid. rewrite shown_words_grid.
  pose proof (grid_nonneg pageNumber) as Hn.
  rewrite <- (Z2Nat.id (grid pageNumber)) by exact Hn.
  rewrite (lines_of_sorted QuranAPI.APIWord.line_number _ _ Hsorted 1).
  rewrite Z2Nat.id by exact Hn.
  apply filter_all. eapply Forall_impl; [exact Hgrid|]. cbn. intros w Hw. lia.
Qed.

(** *** Prefetching *)

Section Prefetch.
Variable fetch : string -> Completion QuranAPI.Response.t.

Lemma prefetch_fold (pages : list Z) (page : Z) :
  forall results : gmap Z QuranAPI.ProcessedPage.t,
  foldl (fun results pageNum =>
           match QuranAPI.fetchPageWithWords fetch pageNum with
           | Returned data => <[pageNum := QuranAPI.processPageData data pageNum]> results
           | Thrown error => results
           end) results pages !! page =
  if bool_decide (page ∈ pages) then
    match QuranAPI.fetchPageWithWords fetch page with
    | Returned data => Some (QuranAPI.processPageData data page)
    | Thrown _ => results !! page
    end
  else results !! page.
Proof.
  induction pages as [|p pages IH]; intros results; cbn [foldl].
  - rewrite bool_decide_eq_false_2 by apply not_elem_of_nil. reflexivity.
  - rewrite IH. destruct (decide (page = p)) as [->|Hne].
    + rewrite (bool_decide_eq_true_2 (p ∈ p :: pages)) by constructor.
      destruct (QuranAPI.fetchPageWithWords fetch p) as [data|e].
      * rewrite lookup_insert_eq. now destruct (bool_decide _).
      * now destruct (bool_decide _).
    + rewrite (bool_decide_ext (page ∈ p :: pages) (page ∈ pages))
        by (rewrite elem_of_cons; tauto).
      destruct (QuranAPI.fetchPageWithWords fetch p) as [data|e]; [|reflexivity].
      rewrite lookup_insert_ne by congruence. reflexivity.
Qed.
End Prefetch.

(** X21: [prefetchPages] never fails, and its result has an entry for a page
    exactly when the page is one of the [count] pages from [startPage] on
    (3 when no count is given), lies between 1 and 604, and its request
    succeeded; the entry is the processed response of that page.  Pages
    outside 1..604 are skipped and failed requests leave no entry. *)
Theorem prefetchPages_holds_the_pages_that_arrived
    (fetch : string -> Completion QuranAPI.Response.t)
    (startPage : Z) (count : option Z) (page : Z) :
  QuranAPI.prefetchPages fetch startPage count !! page =
  if bool_decide (startPage <= page < startPage + default 3 count /\ 1 <= page <= 604) then
    match QuranAPI.fetchPageWithWords fetch page with
    | Returned data => Some (QuranAPI.processPageData data page)
    | Thrown _ => None
    end
  else None.
Proof.
  unfold QuranAPI.prefetchPages. cbv zeta. rewrite prefetch_fold, lookup_empty.
  rewrite (bool_decide_ext _
             (startPage <= page < startPage + default 3 count /\ 1 <= page <= 604)).
  - destruct (bool_decide _); [|reflexivity].
    now destruct (QuranAPI.fetchPageWithWords fetch page).
  - rewrite list_elem_of_filter.
    change (map (fun i => startPage + i) (seqZ 0 (default 3 count)))
      with ((fun i => startPage + i) <$> seqZ 0 (default 3 count)).
    rewrite list_elem_of_fmap. split.
    + intros [Hrange (i & -> & Hi)]. apply elem_of_seqZ in Hi. lia.
    + intros [Hwindow Hrange]. split; [lia|].
      exists (page - startPage). split; [lia|]. apply elem_of_seqZ. lia.
Qed.

(** *** Font files *)

(** X22: Every page has a font file of its own in each of the two versions, and
    the two versions never share a file. *)
Theorem page_fonts_are_distinct (page1 page2 : Z) :
  (QuranAPI.getQCFv1FontUrl page1 = QuranAPI.getQCFv1FontUrl page2 <-> page1 = page2) /\
  (QuranAPI.getQCFv2FontUrl page1 = QuranAPI.getQCFv2FontUrl page2 <-> page1 = page2) /\
  QuranAPI.getQCFv1FontUrl page1 <> QuranAPI.getQCFv2FontUrl page2.
Proof.
  unfold QuranAPI.getQCFv1FontUrl, QuranAPI.getQCFv2FontUrl. cbv zeta.
  split; [|split].
  - split; [|now intros ->]. intros H.
    apply (inj (String.app _)) in H. apply string_app_inj_r in H.
    now apply (inj pretty) in H.
  - split; [|now intros ->]. intros H.
    apply (inj (String.app _)) in H. apply string_app_inj_r in H.
    now apply (inj pretty) in H.
  - intros H. cbn in H. discriminate.
Qed.

(** ** The log of a run *)

Section Grows.
Lemma grows_ret {A} (a : A) : grows (ret a).
Proof. intros s. reflexivity. Qed.

Lemma grows_throw {A} (e : Error) : grows (@throw A e).
Proof. intros s. reflexivity. Qed.

Lemma grows_get : grows get.
Proof. intros s. reflexivity. Qed.

Lemma grows_bind {A B} (m : M A) (k : A -> M B) :
  grows m -> (forall a, grows (k a)) -> grows (bind m k).
Proof.
  intros Hm Hk s. unfold bind. specialize (Hm s).
  destruct (m s) as [[a|e] s']; cbn [snd] in *; [|exact Hm].
  etransitivity; [exact Hm | apply Hk].
Qed.

Lemma grows_try_catch {A} (m : M A) (h : Error -> M A) :
  grows m -> (forall e, grows (h e)) -> grows (try_catch m h).
Proof.
  intros Hm Hh s. unfold try_catch. specialize (Hm s).
  destruct (m s) as [[a|e] s']; cbn [snd] in *; [exact Hm|].
  etransitivity; [exact Hm | apply Hh].
Qed.

Lemma grows_for_of {A} (l : list A) (body : A -> M unit) :
  (forall x, grows (body x)) -> grows (for_of l body).
Proof.
  intros Hbody. induction l as [|x l IH]; cbn [for_of].
  - apply grows_ret.
  - apply grows_bind; [apply Hbody | intros _; exact IH].
Qed.

Lemma grows_modify (g : State -> State) :
  (forall s, events (g s) = events s) -> grows (modify g).
Proof. intros Hg s. cbn. now rewrite Hg. Qed.

Lemma grows_log (ev : Event) : grows (modify (log ev)).
Proof. intros s. cbn. now apply prefix_app_r. Qed.

Lemma grows_call env op : grows (call env op).
Proof. intros s. unfold call. destruct (faults env op); cbn; now apply prefix_app_r. Qed.

Ltac growing :=
  repeat first
    [ apply grows_bind; [|intros ?]
    | apply grows_for_of; intros ?
    | apply grows_try_catch; [|intros ?]
    | apply grows_ret | apply grows_throw | apply grows_get
    | apply grows_call | apply grows_log
    | apply grows_modify; intros ?; reflexivity
    | match goal with |- grows (match ?x with _ => _ end) => destruct x end
    | match goal with |- grows (if ?x then _ else _) => destruct x end ].

Lemma grows_invoke onProgress : grows (DownloadManager.invoke onProgress).
Proof. intros s. cbn. now apply prefix_app_r. Qed.

Lemma grows_swallow (m : M unit) : grows m -> grows (swallow m).
Proof. intros Hm. apply grows_try_catch; [exact Hm | intros e; apply grows_ret]. Qed.

Lemma grows_now env : grows (Date.now env).
Proof. intros s. reflexivity. Qed.

Lemma grows_downloadFile env url filePath (cb : float -> M unit) :
  (forall p, grows (cb p)) -> grows (DownloadManager.downloadFile env url filePath cb).
Proof.
  intros Hcb. unfold DownloadManager.downloadFile, downloadAsync.
  apply grows_bind; [|intros [result|]; growing].
  apply grows_bind; [apply grows_log | intros _].
  apply grows_bind; [apply grows_for_of; intros t; apply grows_swallow, Hcb | intros _].
  growing.
Qed.

Lemma grows_downloadMushaf_try env mushaf onProgress :
  grows (DownloadManager.downloadMushaf_try env mushaf onProgress).
Proof.
  unfold DownloadManager.downloadMushaf_try, DownloadManager.verifyIntegrity,
    DownloadManager.validate15LinesPerPage, DownloadManager.database_tick,
    DownloadManager.common_fonts_tick, DownloadManager.fonts_tick, DownloadManager.assign,
    makeDirectoryAsync, deleteAsync, unzip, getInfoAsync, readDirectoryAsync,
    SQLite.openDatabaseAsync, SQLite.getFirstAsync, SQLite.runAsync, AsyncStorage.setItem.
  cbv zeta.
  repeat first
    [ apply grows_invoke | apply grows_now
    | apply grows_downloadFile; intros ?
    | apply grows_bind; [|intros ?]
    | apply grows_for_of; intros ?
    | apply grows_ret | apply grows_throw | apply grows_get
    | apply grows_call | apply grows_log
    | apply grows_modify; intros ?; reflexivity
    | match goal with |- grows (match ?x with _ => _ end) => destruct x end
    | match goal with |- grows (if ?x then _ else _) => destruct x end ].
Qed.

(** A run of [downloadMushaf] only adds to the log. *)
Lemma grows_downloadMushaf env mushaf onProgress :
  grows (DownloadManager.downloadMushaf env mushaf onProgress).
Proof.
  intros s. rewrite downloadMushaf_unfold.
  pose proof (grows_downloadMushaf_try env mushaf onProgress
                (DownloadManager.downloadMushaf_enter mushaf s)) as Htry.
  change (events (DownloadManager.downloadMushaf_enter mushaf s)) with (events s) in Htry.
  destruct (DownloadManager.downloadMushaf_try env mushaf onProgress _) as [[a|e] s2];
    cbn [fst snd] in *; [exact Htry|].
  destruct (onProgress (failed_snapshot e s2)) as [e'|]; cbn [snd].
  { etransitivity; [exact Htry|]. cbn. now apply prefix_app_r. }
  rewrite cleanupPartialDownload_run. cbn [snd].
  etransitivity; [exact Htry|].
  destruct (faults env (Delete _)); cbn; rewrite <- app_assoc; now apply prefix_app_r.
Qed.
End Grows.

(** The snapshots delivered between two states are those of the entries
    that the log has gained. *)
Lemma delivered_new (s s' : State) (new : list Event) :
  events s' = events s ++ new -> delivered s s' = notifications new.
Proof.
  intros H. unfold delivered. rewrite H, notifications_app. apply drop_app_length.
Qed.

Lemma downloadMushaf_delivers_what_it_logs
    (env : Env) (mushaf : Mushaf.t) (onProgress : DownloadManager.Callback) (s : State) :
  exists new,
    events (DownloadManager.downloadMushaf env mushaf onProgress s).2 = events s ++ new /\
    delivered s (DownloadManager.downloadMushaf env mushaf onProgress s).2 = notifications new.
Proof.
  destruct (grows_downloadMushaf env mushaf onProgress s) as [new Hnew].
  exists new. split; [exact Hnew | now apply delivered_new].
Qed.

(** *** The progress object at the end of a run *)

Lemma downloadMushaf_try_ends_notified
    (env : Env) (mushaf : Mushaf.t) (onProgress : DownloadManager.Callback) :
  hoare (fun _ => True) (DownloadManager.downloadMushaf_try env mushaf onProgress)
    (fun r s => r = Returned tt -> last (notifications (events s)) = Some (progress s)).
Proof.
  unfold DownloadManager.downloadMushaf_try. cbv zeta.
  repeat (apply hoare_skip; [intros; discriminate | intros ?]).
  intros s _ _. cbn. rewrite notifications_app. cbn. apply last_snoc.
Qed.

(** When a run of [downloadMushaf] has settled, the progress object is as
    the last snapshot showed it: nothing is assigned to it after the last
    invocation of the callback. *)
Lemma downloadMushaf_ends_on_its_last_snapshot
    (env : Env) (mushaf : Mushaf.t) (onProgress : DownloadManager.Callback) (s : State) :
  last (notifications (events (DownloadManager.downloadMushaf env mushaf onProgress s).2))
  = Some (progress (DownloadManager.downloadMushaf env mushaf onProgress s).2).
Proof.
  rewrite downloadMushaf_unfold.
  pose proof (downloadMushaf_try_ends_notified env mushaf onProgress
                (DownloadManager.downloadMushaf_enter mushaf s) I) as Htry.
  destruct (DownloadManager.downloadMushaf_try env mushaf onProgress _) as [[[]|e] s2];
    cbn [fst snd] in *; [exact (Htry eq_refl)|].
  destruct (onProgress (failed_snapshot e s2)) as [e'|]; cbn [snd].
  { cbn. rewrite notifications_app. cbn. apply last_snoc. }
  rewrite cleanupPartialDownload_run. cbn [snd].
  destruct (faults env (Delete _)); cbn; rewrite !notifications_app; cbn;
    rewrite app_nil_r; apply last_snoc.
Qed.

(** ** The store (mushafStore.ts) *)

(** X16: Whatever the screens do with the store, short of replacing the list
    wholesale with [setInstalledMushafs], the list of installed assets
    never holds an identifier twice. *)
Theorem installed_list_has_no_duplicates (actions : list StoreAction) :
  NoDup (MushafStore.installedMushafs (foldl perform MushafStore.initial actions)).
Proof.
  assert (H : forall state, NoDup (MushafStore.installedMushafs state) ->
                NoDup (MushafStore.installedMushafs (foldl perform state actions))).
  { induction actions as [|action actions IH]; intros state Hstate; [exact Hstate|].
    cbn [foldl]. apply IH. destruct action; cbn; try exact Hstate.
    - case_bool_decide as Hin; [exact Hstate|].
      apply NoDup_app. split; [exact Hstate|]. split; [|apply NoDup_singleton].
      intros x Hx Hx'. apply list_elem_of_singleton in Hx'. now subst.
    - now apply NoDup_filter. }
  apply H. constructor.
Qed.

Lemma filter_other_ids (id : Z) (l : list Z) : id ∉ l -> filter (fun m => m <> id) l = l.
Proof.
  intros Hid. apply filter_all. apply Forall_forall. intros x Hx ->. exact (Hid Hx).
Qed.

(** X17: [removeInstalledMushaf] takes every occurrence of the identifier out
    of the list and leaves the other identifiers, in their order; removing
    an asset that had just been added to a list without it gives the state
    of before back. *)
Theorem removeInstalledMushaf_undoes_addInstalledMushaf
    (id : Z) (state : MushafStore.MushafState) :
  (forall other,
     other ∈ MushafStore.installedMushafs (MushafStore.removeInstalledMushaf id state)
     <-> other ∈ MushafStore.installedMushafs state /\ other <> id) /\
  (id ∉ MushafStore.installedMushafs state ->
   MushafStore.removeInstalledMushaf id (MushafStore.addInstalledMushaf id state) = state).
Proof.
  split.
  - intros other. cbn. rewrite list_elem_of_filter. tauto.
  - intros Hid. destruct state as [cur page ids progress loading]. cbn in *.
    unfold MushafStore.removeInstalledMushaf, MushafStore.addInstalledMushaf. cbn.
    rewrite bool_decide_eq_false_2 by exact Hid.
    rewrite filter_app, (filter_other_ids id ids Hid).
    rewrite filter_cons_False by tauto. now rewrite filter_nil, app_nil_r.
Qed.

(** ** The library screen (LibraryScreen.tsx) *)

Lemma map_report_status (st : Status) (phi : Q -> Q) (l : list Q) :
  st <> completed ->
  Forall (fun r : Status * Q => r.1 <> completed) (map (fun p => (st, phi p)) l).
Proof. intros Hst. induction l; constructor; [exact Hst | assumption]. Qed.

Lemma weighting_before_completion_statuses (d c f : list Q) :
  Forall (fun r : Status * Q => r.1 <> completed) (weighting_before_completion d c f).
Proof.
  unfold weighting_before_completion, stage_database, stage_common_fonts, stage_fonts.
  repeat first
    [ apply Forall_app; split
    | apply Forall_cons; split; [cbn; discriminate|]
    | apply map_report_status; discriminate
    | apply Forall_nil; exact I ].
Qed.

Lemma delivered_reports (s s' : State) (L : list (Status * Q)) :
  reported s' = reported s ++ L -> map report (delivered s s') = L.
Proof.
  unfold reported, delivered. intros H.
  rewrite <- skipn_map, H, <- (length_map report). apply drop_app_length.
Qed.

Lemma not_completed_reports (ps : list DownloadProgress.t) :
  Forall (fun r : Status * Q => r.1 <> completed) (map report ps) ->
  Forall (fun p => DownloadProgress.status p <> completed) ps.
Proof.
  induction ps as [|p ps IH]; cbn; intros H; [constructor|].
  apply Forall_cons in H as [Hp H]. constructor; [exact Hp | exact (IH H)].
Qed.

Lemma downloadMushaf_delivered_returned
    (env : Env) (mushaf : Mushaf.t) (onProgress : DownloadManager.Callback) (s : State) :
  (DownloadManager.downloadMushaf env mushaf onProgress s).1 = Returned tt ->
  exists ps p,
    delivered s (DownloadManager.downloadMushaf env mushaf onProgress s).2 = ps ++ [p] /\
    Forall (fun q => DownloadProgress.status q <> completed) ps /\
    DownloadProgress.status p = completed /\
    DownloadProgress.progress p = 100%Q.
Proof.
  intros Hrun. destruct (downloadMushaf_reports env mushaf onProgress s) as (L & HL & Hw).
  rewrite Hrun in Hw. unfold follows_weighting in Hw.
  apply delivered_reports in HL. rewrite Hw in HL.
  unfold weighting in HL. apply map_eq_app in HL as (ps & last & -> & Hps & Hlast).
  destruct last as [|p [|? ?]]; try discriminate. injection Hlast as Hst Hpct.
  exists ps, p. split; [reflexivity|]. split; [|split; assumption].
  apply not_completed_reports. rewrite Hps. apply weighting_before_completion_statuses.
Qed.

Lemma returns_never_throws : ~ throws_at_completion LibraryScreen.returns.
Proof. intros (p & e & _ & H). discriminate. Qed.

Lemma downloadMushaf_delivered_thrown (env : Env) (mushaf : Mushaf.t) (s : State) (e : Error) :
  (DownloadManager.downloadMushaf env mushaf LibraryScreen.returns s).1 = Thrown e ->
  exists ps p,
    delivered s (DownloadManager.downloadMushaf env mushaf LibraryScreen.returns s).2
      = ps ++ [p] /\
    Forall (fun q => DownloadProgress.status q <> completed) ps /\
    DownloadProgress.status p = failed /\
    DownloadProgress.error p = Some (message e) /\
    DownloadProgress.current_step p = "Erreur: " +:+ message e.
Proof.
  rewrite downloadMushaf_unfold.
  pose proof (downloadMushaf_try_reports env mushaf LibraryScreen.returns (reported s)
                (DownloadManager.downloadMushaf_enter mushaf s)) as Htry.
  destruct (DownloadManager.downloadMushaf_try env mushaf LibraryScreen.returns _)
    as [[[]|e'] s2]; cbn [fst snd LibraryScreen.returns] in *; [discriminate|].
  intros [= ->]. destruct Htry as (L & Hview & HL).
  { unfold view. simpl. now rewrite app_nil_r. }
  injection Hview as _ HR.
  exists (delivered s s2), (failed_snapshot e s2).
  split; [|split; [|repeat split]].
  - rewrite cleanupPartialDownload_run. cbn [snd].
    set (final := DownloadManager.downloadMushaf_finally mushaf _).
    assert (Hn : notifications (events final)
                 = notifications (events s2) ++ [failed_snapshot e s2]).
    { subst final. unfold failed_reported, failing.
      destruct (faults env (Delete _)); cbn; rewrite !notifications_app; cbn;
        now rewrite app_nil_r. }
    unfold delivered. rewrite Hn. apply drop_app_le.
    apply (f_equal (@length _)) in HR. unfold reported in HR.
    rewrite length_app, !length_map in HR. lia.
  - apply not_completed_reports. rewrite (delivered_reports s s2 L HR).
    destruct HL as [[k Hk]|[_ HL]]; [|now apply returns_never_throws in HL]. pose proof (weighting_before_completion_statuses
      (fractions env (DownloadUrls.database_sqlite (Mushaf.download_urls mushaf)))
      (fractions env (DownloadUrls.common_fonts_zip (Mushaf.download_urls mushaf)))
      (fractions env (DownloadUrls.fonts_zip (Mushaf.download_urls mushaf)))) as Hall.
    rewrite Hk in Hall. now apply Forall_app in Hall as [Hall _].
Qed.

Section Replay.
Variable mushaf : Mushaf.t.

(** As long as no snapshot is [completed], the callback only replaces the
    entry of the asset in the store. *)
Lemma replay_uncompleted (ps : list DownloadProgress.t) :
  Forall (fun q => DownloadProgress.status q <> completed) ps ->
  forall screen,
  foldl (fun screen progress => LibraryScreen.handleDownload_onProgress mushaf progress screen)
        screen ps =
  match last ps with
  | Some p => LibraryScreen.with_store
                (MushafStore.setDownloadProgress (Mushaf.id mushaf) p) screen
  | None => screen
  end.
Proof.
  induction 1 as [|p ps Hp _ IH]; intros screen; [reflexivity|].
  cbn [foldl]. rewrite IH. rewrite last_cons.
  unfold LibraryScreen.handleDownload_onProgress. cbv zeta.
  rewrite (bool_decide_eq_false_2 _ Hp).
  destruct (last ps) as [q|]; [|reflexivity].
  unfold LibraryScreen.with_store, MushafStore.setDownloadProgress. cbn.
  now rewrite insert_insert_eq.
Qed.

Lemma replay_then (ps : list DownloadProgress.t) (p : DownloadProgress.t)
    (screen : LibraryScreen.Screen) :
  Forall (fun q => DownloadProgress.status q <> completed) ps ->
  LibraryScreen.store
    (foldl (fun screen progress => LibraryScreen.handleDownload_onProgress mushaf progress screen)
           screen ps) =
  match last ps with
  | Some q => MushafStore.setDownloadProgress (Mushaf.id mushaf) q (LibraryScreen.store screen)
  | None => LibraryScreen.store screen
  end /\
  LibraryScreen.alerts
    (foldl (fun screen progress => LibraryScreen.handleDownload_onProgress mushaf progress screen)
           screen ps) = LibraryScreen.alerts screen /\
  LibraryScreen.timers
    (foldl (fun screen progress => LibraryScreen.handleDownload_onProgress mushaf progress screen)
           screen ps) = LibraryScreen.timers screen.
Proof.
  intros Hps. rewrite (replay_uncompleted ps Hps). destruct (last ps); repeat split.
Qed.
End Replay.

Lemma setDownloadProgress_twice (id : Z) (p q : DownloadProgress.t)
    (state : MushafStore.MushafState) :
  MushafStore.setDownloadProgress id p (MushafStore.setDownloadProgress id q state)
  = MushafStore.setDownloadProgress id p state.
Proof.
  unfold MushafStore.setDownloadProgress. cbn. now rewrite insert_insert_eq.
Qed.

Lemma handleDownload_onProgress_step (mushaf : Mushaf.t) (p : DownloadProgress.t)
    (screen : LibraryScreen.Screen) :
  let after := LibraryScreen.handleDownload_onProgress mushaf p screen in
  LibraryScreen.alerts after = LibraryScreen.alerts screen /\
  MushafStore.downloadProgress (LibraryScreen.store after)
    = <[Mushaf.id mushaf := p]> (MushafStore.downloadProgress (LibraryScreen.store screen)) /\
  (DownloadProgress.status p = completed ->
   MushafStore.installedMushafs (LibraryScreen.store after)
     = MushafStore.installedMushafs
         (MushafStore.addInstalledMushaf (Mushaf.id mushaf) (LibraryScreen.store screen)) /\
   LibraryScreen.timers after = LibraryScreen.timers screen ++ [(2000, Mushaf.id mushaf)]) /\
  (DownloadProgress.status p <> completed ->
   MushafStore.installedMushafs (LibraryScreen.store after)
     = MushafStore.installedMushafs (LibraryScreen.store screen) /\
   LibraryScreen.timers after = LibraryScreen.timers screen).
Proof.
  unfold LibraryScreen.handleDownload_onProgress. cbv zeta.
  case_bool_decide as Hp; cbn; repeat split; intros; first [reflexivity | contradiction].
Qed.

(** The store after the snapshots [ps] and then [p] have been delivered. *)
Lemma replay_last (mushaf : Mushaf.t) (ps : list DownloadProgress.t) (p : DownloadProgress.t)
    (screen : LibraryScreen.Screen) :
  Forall (fun q => DownloadProgress.status q <> completed) ps ->
  let after :=
    foldl (fun screen progress => LibraryScreen.handleDownload_onProgress mushaf progress screen)
          screen (ps ++ [p]) in
  LibraryScreen.alerts after = LibraryScreen.alerts screen /\
  MushafStore.downloadProgress (LibraryScreen.store after)
    = <[Mushaf.id mushaf := p]> (MushafStore.downloadProgress (LibraryScreen.store screen)) /\
  (DownloadProgress.status p = completed ->
   MushafStore.installedMushafs (LibraryScreen.store after)
     = MushafStore.installedMushafs
         (MushafStore.addInstalledMushaf (Mushaf.id mushaf) (LibraryScreen.store screen)) /\
   LibraryScreen.timers after = LibraryScreen.timers screen ++ [(2000, Mushaf.id mushaf)]) /\
  (DownloadProgress.status p <> completed ->
   MushafStore.installedMushafs (LibraryScreen.store after)
     = MushafStore.installedMushafs (LibraryScreen.store screen) /\
   LibraryScreen.timers after = LibraryScreen.timers screen).
Proof.
  intros Hps after. subst after. rewrite foldl_app. cbn [foldl].
  destruct (replay_then mushaf ps p screen Hps) as (Hstore & Halerts & Htimers).
  set (mid := foldl _ screen ps) in *.
  destruct (handleDownload_onProgress_step mushaf p mid) as (H1 & H2 & H3 & H4).
  assert (Hprogress :
    <[Mushaf.id mushaf := p]> (MushafStore.downloadProgress (LibraryScreen.store mid))
    = <[Mushaf.id mushaf := p]> (MushafStore.downloadProgress (LibraryScreen.store screen))).
  { rewrite Hstore. destruct (last ps); [cbn; apply insert_insert_eq | reflexivity]. }
  assert (Hlist : MushafStore.installedMushafs (LibraryScreen.store mid)
                  = MushafStore.installedMushafs (LibraryScreen.store screen)).
  { rewrite Hstore. now destruct (last ps). }
  split; [now rewrite H1|]. split; [now rewrite H2|]. split.
  - intros Hp. destruct (H3 Hp) as [H5 H6]. rewrite H5, H6, Htimers.
    split; [|reflexivity]. cbn. now rewrite Hlist.
  - intros Hp. destruct (H4 Hp) as [H5 H6]. now rewrite H5, H6, Htimers.
Qed.

(** X11: When the installation succeeds, [handleDownload] returns with the
    device as [downloadMushaf] left it.  The store then holds the
    [completed] snapshot, at 100, as the progress of the asset, and the
    asset is in the list of installed assets (once); a timer of 2000 ms is
    set that will clear the progress, no alert is shown, and the card of
    the asset shows no progress bar and offers to read and to delete it. *)
Theorem handleDownload_installs
    (env : Env) (mushaf : Mushaf.t) (device : State) (screen : LibraryScreen.Screen) :
  let id := Mushaf.id mushaf in
  let run := DownloadManager.downloadMushaf env mushaf LibraryScreen.returns device in
  let app := LibraryScreen.handleDownload env mushaf (device, screen) in
  run.1 = Returned tt ->
  app.1 = Returned tt /\ app.2.1 = run.2 /\
  (exists p,
     MushafStore.downloadProgress (LibraryScreen.store app.2.2)
       = <[id := p]> (MushafStore.downloadProgress (LibraryScreen.store screen)) /\
     DownloadProgress.status p = completed /\ DownloadProgress.progress p = 100%Q) /\
  MushafStore.installedMushafs (LibraryScreen.store app.2.2)
    = MushafStore.installedMushafs
        (MushafStore.addInstalledMushaf id (LibraryScreen.store screen)) /\
  LibraryScreen.alerts app.2.2 = LibraryScreen.alerts screen /\
  LibraryScreen.timers app.2.2 = LibraryScreen.timers screen ++ [(2000, id)] /\
  LibraryScreen.progressBar (LibraryScreen.store app.2.2) mushaf = None /\
  LibraryScreen.cardActions (LibraryScreen.store app.2.2) mushaf = LibraryScreen.ReadAndDelete.
Proof.
  intros id run app Hrun. subst app.
  destruct (downloadMushaf_delivered_returned env mushaf LibraryScreen.returns device Hrun)
    as (ps & p & Hdelivered & Hps & Hstatus & Hpct).
  unfold LibraryScreen.handleDownload, LibraryScreen.catching, LibraryScreen.await_with.
  cbn [fst snd]. fold run in Hdelivered |- *.
  destruct run as [r device'] eqn:Erun. cbn [fst snd] in *. subst r.
  rewrite Hdelivered. cbn [fst snd].
  destruct (replay_last mushaf ps p screen Hps) as (Halerts & Hprogress & Hdone & _).
  destruct (Hdone Hstatus) as [Hlist Htimers]. fold id in Hprogress, Hlist, Htimers.
  split; [reflexivity|]. split; [reflexivity|].
  split; [exists p; repeat split; assumption|].
  split; [exact Hlist|]. split; [exact Halerts|]. split; [exact Htimers|]. split.
  - unfold LibraryScreen.progressBar, LibraryScreen.isDownloading. fold id.
    rewrite Hprogress, lookup_insert_eq, Hstatus.
    rewrite bool_decide_eq_true_2; [reflexivity | constructor].
  - unfold LibraryScreen.cardActions, LibraryScreen.isInstalled. fold id. rewrite Hlist.
    rewrite bool_decide_eq_true_2; [reflexivity|].
    cbn. case_bool_decide as Hin; [exact Hin|]. apply elem_of_app. right. constructor.
Qed.

(** X12: When the installation fails with [e], [handleDownload] does not fail:
    it returns after showing one alert that carries the message of [e].
    The store holds the [failed] snapshot with that message as the progress
    of the asset; the list of installed assets is as before and no timer is
    set, so the progress stays.  The card shows no progress bar, and for an
    asset that was not installed it offers the download again. *)
Theorem handleDownload_reports_the_failure
    (env : Env) (mushaf : Mushaf.t) (device : State) (screen : LibraryScreen.Screen)
    (e : Error) :
  let id := Mushaf.id mushaf in
  let run := DownloadManager.downloadMushaf env mushaf LibraryScreen.returns device in
  let app := LibraryScreen.handleDownload env mushaf (device, screen) in
  run.1 = Thrown e ->
  app.1 = Returned tt /\ app.2.1 = run.2 /\
  LibraryScreen.alerts app.2.2
    = LibraryScreen.alerts screen
      ++ [LibraryScreen.Alert.mk "Erreur de téléchargement" (message e) ["OK"]] /\
  (exists p,
     MushafStore.downloadProgress (LibraryScreen.store app.2.2)
       = <[id := p]> (MushafStore.downloadProgress (LibraryScreen.store screen)) /\
     DownloadProgress.status p = failed /\ DownloadProgress.error p = Some (message e)) /\
  MushafStore.installedMushafs (LibraryScreen.store app.2.2)
    = MushafStore.installedMushafs (LibraryScreen.store screen) /\
  LibraryScreen.timers app.2.2 = LibraryScreen.timers screen /\
  LibraryScreen.progressBar (LibraryScreen.store app.2.2) mushaf = None /\
  (id ∉ MushafStore.installedMushafs (LibraryScreen.store screen) ->
   LibraryScreen.cardActions (LibraryScreen.store app.2.2) mushaf
     = LibraryScreen.DownloadButton).
Proof.
  intros id run app Hrun. subst app.
  destruct (downloadMushaf_delivered_thrown env mushaf device e Hrun)
    as (ps & p & Hdelivered & Hps & Hstatus & Herror & _).
  unfold LibraryScreen.handleDownload, LibraryScreen.catching, LibraryScreen.await_with.
  cbn [fst snd]. fold run in Hdelivered |- *.
  destruct run as [r device'] eqn:Erun. cbn [fst snd] in *. subst r.
  rewrite Hdelivered. cbn [fst snd].
  destruct (replay_last mushaf ps p screen Hps) as (Halerts & Hprogress & _ & Hfailed).
  destruct Hfailed as [Hlist Htimers]; [rewrite Hstatus; discriminate|].
  fold id in Hprogress, Hlist, Htimers.
  unfold LibraryScreen.update. cbn [fst snd LibraryScreen.alert LibraryScreen.store
    LibraryScreen.alerts LibraryScreen.timers].
  split; [reflexivity|]. split; [reflexivity|].
  split; [now rewrite Halerts|].
  split; [exists p; repeat split; assumption|].
  split; [exact Hlist|]. split; [exact Htimers|]. split.
  - unfold LibraryScreen.progressBar, LibraryScreen.isDownloading. fold id.
    rewrite Hprogress, lookup_insert_eq, Hstatus.
    rewrite bool_decide_eq_true_2; [reflexivity | repeat constructor].
  - intros Hid. unfold LibraryScreen.cardActions, LibraryScreen.isInstalled,
      LibraryScreen.isDownloading. fold id. rewrite Hlist, Hprogress, lookup_insert_eq.
    rewrite bool_decide_eq_false_2 by exact Hid. rewrite Hstatus.
    rewrite bool_decide_eq_true_2; [reflexivity|]. repeat constructor.
Qed.

(** *** Refreshing the list of installed assets *)

Lemma isInstalled_run (env : Env) (mushafId : Z) (s : State) :
  faults env (GetItem (DownloadManager.installed_key mushafId)) = None ->
  DownloadManager.isInstalled env mushafId s =
  (Returned (bool_decide (storage s !! DownloadManager.installed_key mushafId = Some "true")),
   log (Called (GetItem (DownloadManager.installed_key mushafId))) s).
Proof.
  intros Hget. unfold DownloadManager.isInstalled.
  now rewrite (bind_returned _ _ _ _ _ (getItem_run env _ s Hget)).
Qed.

Lemma check_each (env : Env) (mushafs : list Mushaf.t) :
  Forall (fun mushaf =>
            faults env (GetItem (DownloadManager.installed_key (Mushaf.id mushaf))) = None)
         mushafs ->
  forall device screen,
  let app :=
    LibraryScreen.each mushafs (fun mushaf =>
      LibraryScreen.and_then
        (LibraryScreen.await (DownloadManager.isInstalled env (Mushaf.id mushaf)))
        (fun isInstalled =>
           if isInstalled : bool
           then LibraryScreen.update
                  (LibraryScreen.with_store (MushafStore.addInstalledMushaf (Mushaf.id mushaf)))
           else LibraryScreen.pure tt)) (device, screen) in
  app.1 = Returned tt /\
  storage app.2.1 = storage device /\
  (forall id,
     id ∈ MushafStore.installedMushafs (LibraryScreen.store app.2.2) <->
     id ∈ MushafStore.installedMushafs (LibraryScreen.store screen) \/
     (id ∈ map Mushaf.id mushafs /\
      storage device !! DownloadManager.installed_key id = Some "true")) /\
  (NoDup (MushafStore.installedMushafs (LibraryScreen.store screen)) ->
   NoDup (MushafStore.installedMushafs (LibraryScreen.store app.2.2))).
Proof.
  induction 1 as [|mushaf mushafs Hget _ IH]; intros device screen app; subst app.
  - cbn. split; [reflexivity|]. split; [reflexivity|]. split; [|tauto].
    intros id. split; [tauto|]. intros [H|[H _]]; [exact H|]. now apply not_elem_of_nil in H.
  - match goal with |- context [LibraryScreen.each _ ?body _] =>
      assert (E : LibraryScreen.each (mushaf :: mushafs) body (device, screen) =
                  LibraryScreen.each mushafs body
                    (log (Called (GetItem (DownloadManager.installed_key (Mushaf.id mushaf)))) device,
                     if bool_decide (storage device
                                     !! DownloadManager.installed_key (Mushaf.id mushaf) = Some "true")
                     then LibraryScreen.with_store
                            (MushafStore.addInstalledMushaf (Mushaf.id mushaf)) screen
                     else screen))
    end.
    { cbn [LibraryScreen.each]. unfold LibraryScreen.and_then at 1.
      unfold LibraryScreen.and_then at 1. unfold LibraryScreen.await at 1.
      cbn [fst snd]. rewrite (isInstalled_run env _ device Hget).
      now destruct (bool_decide _). }
    rewrite E. clear E.
    match goal with |- context [LibraryScreen.each _ _ (?d, ?sc)] =>
      specialize (IH d sc); cbv zeta in IH; destruct IH as (H1 & H2 & H3 & H4) end.
    split; [exact H1|]. split; [exact H2|]. split.
    + intros id. rewrite H3. cbn [map storage log]. rewrite elem_of_cons.
      case_bool_decide as Hflag.
      * cbn. case_bool_decide as Hin.
        -- split; [tauto|]. intros [H|[[->|H] H']]; tauto.
        -- rewrite elem_of_app, list_elem_of_singleton.
           split; [intros [[H| ->]|H]; tauto | intros [H|[[->|H] H']]; tauto].
      * split; [tauto|]. intros [H|[[->|H] H']]; [tauto|contradiction|tauto].
    + intros Hnodup. apply H4. case_bool_decide as Hflag; [|exact Hnodup].
      cbn. case_bool_decide as Hin; [exact Hnodup|].
      apply NoDup_app. split; [exact Hnodup|]. split; [|apply NoDup_singleton].
      intros x Hx Hx'. apply list_elem_of_singleton in Hx'. now subst.
Qed.

(** X13: [checkInstalledMushafs] adds to the list of installed assets the
    assets of the catalog whose installation flag in the key-value store is
    the string [true], and only those; it never takes an asset out of the
    list, adds none twice, and leaves the key-value store alone. *)
Theorem checkInstalledMushafs_adds_the_flagged_assets
    (env : Env) (device : State) (screen : LibraryScreen.Screen) :
  (forall mushaf, mushaf ∈ AVAILABLE_MUSHAFS ->
     faults env (GetItem (DownloadManager.installed_key (Mushaf.id mushaf))) = None) ->
  let app := LibraryScreen.checkInstalledMushafs env (device, screen) in
  app.1 = Returned tt /\
  storage app.2.1 = storage device /\
  (forall id,
     id ∈ MushafStore.installedMushafs (LibraryScreen.store app.2.2) <->
     id ∈ MushafStore.installedMushafs (LibraryScreen.store screen) \/ flagged device id) /\
  (NoDup (MushafStore.installedMushafs (LibraryScreen.store screen)) ->
   NoDup (MushafStore.installedMushafs (LibraryScreen.store app.2.2))).
Proof.
  intros Hget. apply (check_each env AVAILABLE_MUSHAFS). now apply Forall_forall.
Qed.

(** X14: After the button [Supprimer] has deleted an asset, the asset is out of
    the list of installed assets, and a refresh of the list by
    [checkInstalledMushafs] does not bring it back. *)
Theorem deleted_asset_stays_out_of_the_list
    (env : Env) (mushaf : Mushaf.t) (device : State) (screen : LibraryScreen.Screen) :
  let id := Mushaf.id mushaf in
  let pressed := LibraryScreen.handleDelete_onPress env mushaf (device, screen) in
  let refreshed := LibraryScreen.checkInstalledMushafs env pressed.2 in
  faults env (Delete (DownloadManager.mushafDir env id)) = None ->
  faults env (OpenDatabase DB_NAME) = None ->
  faults env (Run DB_NAME (DeleteInstalledMushaf id)) = None ->
  faults env (RemoveItem (DownloadManager.installed_key id)) = None ->
  faults env (RemoveItem (DownloadManager.path_key id)) = None ->
  (forall mushaf, mushaf ∈ AVAILABLE_MUSHAFS ->
     faults env (GetItem (DownloadManager.installed_key (Mushaf.id mushaf))) = None) ->
  pressed.1 = Returned tt /\
  LibraryScreen.alerts pressed.2.2 = LibraryScreen.alerts screen /\
  (id ∉ MushafStore.installedMushafs (LibraryScreen.store pressed.2.2)) /\
  refreshed.1 = Returned tt /\
  (id ∉ MushafStore.installedMushafs (LibraryScreen.store refreshed.2.2)).
Proof.
  intros id pressed refreshed Hdelete Hopen Hrun Hik Hpk Hget.
  assert (Hpressed : pressed =
    (Returned tt,
     ((DownloadManager.deleteMushaf env id device).2,
      LibraryScreen.with_store (MushafStore.removeInstalledMushaf id) screen))).
  { subst pressed. unfold LibraryScreen.handleDelete_onPress, LibraryScreen.catching,
      LibraryScreen.and_then, LibraryScreen.await. cbn [fst snd]. fold id.
    rewrite (deleteMushaf_run env id device Hdelete Hopen Hrun Hik Hpk). reflexivity. }
  assert (Hout : id ∉ MushafStore.installedMushafs
                        (LibraryScreen.store
                           (LibraryScreen.with_store (MushafStore.removeInstalledMushaf id) screen))).
  { cbn. rewrite list_elem_of_filter. tauto. }
  subst refreshed. rewrite Hpressed. cbn [fst snd].
  split; [reflexivity|]. split; [reflexivity|]. split; [exact Hout|].
  destruct (check_each env AVAILABLE_MUSHAFS ltac:(now apply Forall_forall)
              (DownloadManager.deleteMushaf env id device).2
              (LibraryScreen.with_store (MushafStore.removeInstalledMushaf id) screen))
    as (H1 & _ & H3 & _).
  split; [exact H1|]. unfold LibraryScreen.checkInstalledMushafs. rewrite H3.
  intros [H|[_ H]]; [exact (Hout H)|].
  rewrite (deleteMushaf_run env id device Hdelete Hopen Hrun Hik Hpk) in H.
  cbn [snd storage] in H.
  rewrite lookup_delete_ne in H by (symmetry; apply installed_key_not_path_key).
  rewrite lookup_delete_eq in H. discriminate.
Qed.

(** X15: An asset of the catalog that [downloadMushaf] has installed is found
    by [checkInstalledMushafs], whatever the list of installed assets held
    before: a screen that starts with an empty list shows it as
    installed. *)
Theorem installed_asset_is_found_by_the_refresh
    (env : Env) (mushaf : Mushaf.t) (onProgress : DownloadManager.Callback)
    (device : State) (screen : LibraryScreen.Screen) :
  let id := Mushaf.id mushaf in
  let run := DownloadManager.downloadMushaf env mushaf onProgress device in
  let refreshed := LibraryScreen.checkInstalledMushafs env (run.2, screen) in
  mushaf ∈ AVAILABLE_MUSHAFS ->
  run.1 = Returned tt ->
  (forall mushaf, mushaf ∈ AVAILABLE_MUSHAFS ->
     faults env (GetItem (DownloadManager.installed_key (Mushaf.id mushaf))) = None) ->
  refreshed.1 = Returned tt /\
  LibraryScreen.cardActions (LibraryScreen.store refreshed.2.2) mushaf
    = LibraryScreen.ReadAndDelete.
Proof.
  intros id run refreshed Hcatalog Hrun Hget. subst refreshed.
  destruct (check_each env AVAILABLE_MUSHAFS ltac:(now apply Forall_forall) run.2 screen)
    as (H1 & _ & H3 & _).
  split; [exact H1|].
  unfold LibraryScreen.cardActions, LibraryScreen.isInstalled.
  rewrite bool_decide_eq_true_2; [reflexivity|].
  unfold LibraryScreen.checkInstalledMushafs. apply H3. right. split.
  - change (map Mushaf.id AVAILABLE_MUSHAFS) with (Mushaf.id <$> AVAILABLE_MUSHAFS).
    now apply list_elem_of_fmap_2.
  - destruct (downloadMushaf_returned_records env mushaf onProgress device Hrun)
      as (t & _ & _ & Hitems).
    cbn [fst snd records] in Hitems. fold run in Hitems. rewrite Hitems.
    rewrite lookup_insert_ne by (symmetry; apply installed_key_not_path_key).
    apply lookup_insert_eq.
Qed.

(** ** The reader (ReaderScreen.tsx) *)

Lemma react_stays_on_a_page (reader : ReaderScreen.Reader) (action : ReaderAction) :
  on_a_page reader -> on_a_page (react reader action).
Proof.
  intros (n & Hn & Hrange). unfold ReaderScreen.TOTAL_PAGES in Hrange.
  destruct action; cbn [react]; try (exists n; split; [exact Hn | exact Hrange]).
  - unfold ReaderScreen.goToNextPage. rewrite Hn. cbn [less].
    case_bool_decide as Hlt; [|exists n; split; [exact Hn | exact Hrange]].
    exists (n + 1). cbn. rewrite Hn. split; [reflexivity|].
    unfold ReaderScreen.TOTAL_PAGES in *. lia.
  - unfold ReaderScreen.goToPreviousPage. rewrite Hn. cbn [less].
    case_bool_decide as Hlt; [|exists n; split; [exact Hn | exact Hrange]].
    exists (n - 1). cbn. rewrite Hn. split; [reflexivity|].
    unfold ReaderScreen.TOTAL_PAGES. lia.
  - exists 1. split; [reflexivity|]. unfold ReaderScreen.TOTAL_PAGES. lia.
  - unfold ReaderScreen.handleGoToPage. cbv zeta.
    destruct (parseInt (ReaderScreen.goToPageValue reader)) as [page|]; cbn [less_or_equal andb].
    + destruct (bool_decide (1 <= page)) eqn:H1; cbn [andb];
        [|exists n; split; [exact Hn | exact Hrange]].
      destruct (bool_decide (page <= ReaderScreen.TOTAL_PAGES)) eqn:H2;
        [|exists n; split; [exact Hn | exact Hrange]].
      apply bool_decide_eq_true in H1, H2. exists page. split; [reflexivity|]. lia.
    + exists n. split; [exact Hn | exact Hrange].
Qed.

(** X23: Whatever the user does with the buttons of the toolbar, the quick
    actions and the page dialog, and whatever is typed into the dialog, a
    reader that shows a page of the book keeps showing one: the page stays
    between 1 and 604. *)
Theorem reader_stays_on_a_page (actions : list ReaderAction) (reader : ReaderScreen.Reader) :
  on_a_page reader -> on_a_page (foldl react reader actions).
Proof.
  revert reader. induction actions as [|action actions IH]; intros reader Hreader.
  - exact Hreader.
  - cbn [foldl]. apply IH. now apply react_stays_on_a_page.
Qed.

(** *** Numbers and their text *)

Lemma digit_value_pretty_N_char (d : N) :
  (d < 10)%N -> digit_value 10 (pretty_N_char d) = Some (Z.of_N d).
Proof.
  intros Hd.
  assert (d = 0 \/ d = 1 \/ d = 2 \/ d = 3 \/ d = 4 \/ d = 5 \/ d = 6 \/ d = 7
          \/ d = 8 \/ d = 9)%N as H by lia.
  repeat destruct H as [->|H]; try subst d; reflexivity.
Qed.

(** The digits [pretty_N_go] writes in front of [s]: the first one is not
    0, and read back after [acc] they give the number again. *)
Lemma pretty_N_go_read (x : N) :
  (0 < x)%N ->
  exists k, 0 <= k /\
    forall s,
      (exists d rest, (1 <= d < 10)%N /\ pretty_N_go x s = String (pretty_N_char d) rest) /\
      (forall acc, digits_value 10 (pretty_N_go x s) acc =
                   digits_value 10 s (Some (default 0 acc * 10 ^ k + Z.of_N x))).
Proof.
  induction (N.lt_wf_0 x) as [x _ IH]. intros Hx.
  destruct (decide (x < 10)%N) as [Hsmall|Hbig].
  - exists 1. split; [lia|]. intros s.
    rewrite pretty_N_go_step by exact Hx.
    rewrite (N.div_small x 10 Hsmall), pretty_N_go_0, (N.mod_small x 10 Hsmall).
    split; [exists x, s; split; [lia | reflexivity]|].
    intros acc. cbn [digits_value]. rewrite (digit_value_pretty_N_char x Hsmall).
    now rewrite Z.pow_1_r.
  - assert (Hdiv : (0 < x / 10)%N) by (apply N.div_str_pos; lia).
    assert (Hlt : (x / 10 < x)%N) by (apply N.div_lt; lia).
    destruct (IH (x / 10)%N Hlt Hdiv) as (k & Hk & Hread).
    exists (k + 1). split; [lia|]. intros s.
    rewrite pretty_N_go_step by exact Hx.
    destruct (Hread (String (pretty_N_char (x mod 10)) s)) as [Hfirst Hvalue].
    split; [exact Hfirst|].
    intros acc. rewrite Hvalue. cbn [digits_value].
    rewrite (digit_value_pretty_N_char (x mod 10)) by (apply N.mod_lt; lia).
    cbn [default].
    assert (E : (default 0 acc * 10 ^ k + Z.of_N (x / 10)) * 10 + Z.of_N (x mod 10)
                = default 0 acc * 10 ^ (k + 1) + Z.of_N x).
    { rewrite Z.pow_add_r by lia. rewrite Z.pow_1_r.
      rewrite N2Z.inj_mod, N2Z.inj_div. change (Z.of_N 10) with 10.
      pose proof (Z.div_mod (Z.of_N x) 10 ltac:(lia)) as Hdm. lia. }
    do 2 f_equal. etransitivity; [|exact E]. reflexivity.
Qed.

Lemma parseInt_leading_digit (d : N) (rest : string) :
  (1 <= d < 10)%N ->
  parseInt (String (pretty_N_char d) rest) =
  match digits_value 10 (String (pretty_N_char d) rest) None with
  | Some mathInt => Int (1 * mathInt)
  | None => NaN
  end.
Proof.
  intros Hd.
  assert (d = 1 \/ d = 2 \/ d = 3 \/ d = 4 \/ d = 5 \/ d = 6 \/ d = 7 \/ d = 8 \/ d = 9)%N
    as H by lia.
  repeat destruct H as [->|H]; try subst d;
    destruct rest as [|c1 [|c2 rest]]; reflexivity.
Qed.

Lemma parseInt_minus_leading_digit (d : N) (rest : string) :
  (1 <= d < 10)%N ->
  parseInt (String "-"%char (String (pretty_N_char d) rest)) =
  match digits_value 10 (String (pretty_N_char d) rest) None with
  | Some mathInt => Int (-1 * mathInt)
  | None => NaN
  end.
Proof.
  intros Hd.
  assert (d = 1 \/ d = 2 \/ d = 3 \/ d = 4 \/ d = 5 \/ d = 6 \/ d = 7 \/ d = 8 \/ d = 9)%N
    as H by lia.
  repeat destruct H as [->|H]; try subst d;
    destruct rest as [|c1 rest]; reflexivity.
Qed.

Lemma pretty_positive_read (p : positive) :
  exists d rest, (1 <= d < 10)%N /\
    pretty p = String (pretty_N_char d) rest /\
    digits_value 10 (pretty p) None = Some (Z.pos p).
Proof.
  destruct (pretty_N_go_read (N.pos p) ltac:(lia)) as (k & Hk & Hread).
  destruct (Hread EmptyString) as [(d & rest & Hd & Hfirst) Hvalue].
  assert (Hp : pretty p = pretty_N_go (N.pos p) EmptyString).
  { unfold pretty, pretty_positive, pretty, pretty_N. now destruct (decide _). }
  exists d, rest. split; [exact Hd|]. rewrite Hp. split; [exact Hfirst|].
  rewrite Hvalue. cbn [digits_value default]. f_equal.
Qed.

(** [parseInt] reads back the text of an integer. *)
Lemma parseInt_pretty (n : Z) : parseInt (pretty n) = Int n.
Proof.
  destruct n as [|p|p].
  - reflexivity.
  - destruct (pretty_positive_read p) as (d & rest & Hd & Hfirst & Hvalue).
    change (pretty (Z.pos p)) with (pretty p).
    rewrite Hfirst in Hvalue |- *. rewrite (parseInt_leading_digit d rest Hd), Hvalue.
    f_equal.
  - destruct (pretty_positive_read p) as (d & rest & Hd & Hfirst & Hvalue).
    change (pretty (Z.neg p)) with ("-" +:+ pretty p).
    rewrite Hfirst in Hvalue |- *.
    change ("-" +:+ String (pretty_N_char d) rest)
      with (String "-"%char (String (pretty_N_char d) rest)).
    rewrite (parseInt_minus_leading_digit d rest Hd), Hvalue. f_equal.
Qed.

Lemma parseInt_toString (x : Number) : parseInt (toString x) = x.
Proof. destruct x as [n|]; [apply parseInt_pretty | reflexivity]. Qed.

Lemma toString_not_empty (x : Number) : exists c s, toString x = String c s.
Proof.
  destruct x as [[|p|p]|]; cbn [toString]; [eauto| |eauto|eauto].
  destruct (pretty_positive_read p) as (d & rest & _ & Hfirst & _).
  change (pretty (Z.pos p)) with (pretty p). rewrite Hfirst. eauto.
Qed.

(** X24: The page dialog: when the text typed is the decimal writing of an
    integer [n], [handleGoToPage] goes to page [n], closes the dialog and
    empties its field exactly when [n] is between 1 and 604; for any other
    [n] it leaves the reader as it is and shows the alert. *)
Theorem handleGoToPage_accepts_the_pages_of_the_book (n : Z) (reader : ReaderScreen.Reader) :
  let typed := ReaderScreen.setGoToPageValue (pretty n) reader in
  let after := ReaderScreen.handleGoToPage typed in
  (1 <= n <= 604 ->
   after = ReaderScreen.mk (Int n) false EmptyString (ReaderScreen.fontVersion reader)
             (ReaderScreen.alerts reader)) /\
  (~ 1 <= n <= 604 ->
   after = ReaderScreen.alert "خطأ" "الرجاء إدخال رقم بين 1 و 604" typed).
Proof.
  intros typed after. subst after typed. unfold ReaderScreen.handleGoToPage. cbv zeta.
  cbn [ReaderScreen.goToPageValue ReaderScreen.setGoToPageValue].
  rewrite parseInt_pretty. cbn [less_or_equal]. unfold ReaderScreen.TOTAL_PAGES.
  split; intros Hn.
  - rewrite !bool_decide_eq_true_2 by lia. reflexivity.
  - destruct (decide (1 <= n)) as [H1|H1].
    + rewrite (bool_decide_eq_true_2 _ H1), bool_decide_eq_false_2 by lia. reflexivity.
    + rewrite (bool_decide_eq_false_2 _ H1). reflexivity.
Qed.

(** X25: The page that [saveCurrentPage] has stored is the page that
    [loadLastPage] sets, whether or not it is a page of the book: the text
    written for the number is read back as the same number, for [NaN] and
    for every integer that a number holds exactly, and no range is
    checked. *)
Theorem saved_page_is_restored
    (env : Env) (device : State) (reader fresh : ReaderScreen.Reader) :
  let saved := ReaderScreen.saveCurrentPage env device reader in
  let loaded := ReaderScreen.loadLastPage env saved.1 fresh in
  held_exactly (ReaderScreen.currentPage reader) ->
  faults env (SetItem "quran_last_page" (toString (ReaderScreen.currentPage reader))) = None ->
  faults env (GetItem "quran_last_page") = None ->
  saved.2 = reader /\
  storage saved.1 !! "quran_last_page" = Some (toString (ReaderScreen.currentPage reader)) /\
  ReaderScreen.currentPage loaded.2 = ReaderScreen.currentPage reader.
Proof.
  intros saved loaded _ Hset Hget. subst loaded saved.
  unfold ReaderScreen.saveCurrentPage. rewrite setItem_run, Hset. cbn [fst snd].
  split; [reflexivity|]. split; [apply lookup_insert_eq|].
  unfold ReaderScreen.loadLastPage. rewrite getItem_run by exact Hget.
  cbn [storage set_storage log]. rewrite lookup_insert_eq. cbn [snd].
  destruct (toString_not_empty (ReaderScreen.currentPage reader)) as (c & s & Htext).
  rewrite Htext. cbn. rewrite <- Htext. apply parseInt_toString.
Qed.

Lemma less_than_true (x y : Q) : (x < y)%Q -> less_than x y = true.
Proof.
  intros H. unfold less_than. destruct (Qlt_le_dec x y) as [_|H']; [reflexivity|].
  exfalso. exact (Qlt_not_le _ _ H H').
Qed.

Lemma less_than_false (x y : Q) : (y <= x)%Q -> less_than x y = false.
Proof.
  intros H. unfold less_than. destruct (Qlt_le_dec x y) as [H'|_]; [|reflexivity].
  exfalso. exact (Qlt_not_le _ _ H' H).
Qed.

(** X26: The swipes do not follow the page that is shown.  Their handlers
    are those of the first render, for which the page is 1: a swipe to the
    right (more than 80 wide, faster than 0.3) always moves one page on,
    from page 604 to page 605 as well, and a swipe to the left (beyond -80,
    faster than -0.3) never changes the page. *)
Theorem swipes_ignore_the_page_shown (dx vx : Q) (reader : ReaderScreen.Reader) :
  let after := ReaderScreen.onPanResponderRelease dx vx reader in
  held_exactly (ReaderScreen.currentPage reader) ->
  ((80 < dx)%Q -> (0.3 < vx)%Q ->
   ReaderScreen.currentPage after = plus (ReaderScreen.currentPage reader) (Int 1)) /\
  ((dx < -80)%Q -> (vx < -0.3)%Q -> after = reader).
Proof.
  intros after _. subst after. unfold ReaderScreen.onPanResponderRelease. split.
  - intros Hdx Hvx. rewrite (less_than_true _ _ Hdx), (less_than_true _ _ Hvx).
    reflexivity.
  - intros Hdx Hvx.
    rewrite (less_than_false 80 dx).
    2: { apply Qlt_le_weak. eapply Qlt_trans; [exact Hdx|]. reflexivity. }
    rewrite (less_than_true _ _ Hdx), (less_than_true _ _ Hvx). reflexivity.
Qed.

(** ** The further properties at a concrete device *)

Lemma example_installation_returns :
  (DownloadManager.downloadMushaf Example.env Example.mushaf Example.observer Example.idle).1 = Returned tt.
Proof. vm_compute. reflexivity. Qed.

Lemma example_installation_fails :
  (DownloadManager.downloadMushaf Example.env404 Example.mushaf Example.observer Example.idle).1
  = Thrown (mkError
      "Échec du téléchargement: https://cdn.qul.tarteel.ai/fonts/qpc_v2_fonts.zip").
Proof. vm_compute. reflexivity. Qed.

Lemma verifyIntegrity_stops_at_the_first_missing_file_witness :
  (DownloadManager.verifyIntegrity Example.env Example.root Example.mushaf
     Sample.partial_files).1
  = Thrown (mkError ("Fichier manquant: " +:+ Example.root +:+ "fonts/common/surah_names.ttf")).
Proof.
  refine (proj1 (verifyIntegrity_stops_at_the_first_missing_file Example.env Example.root
    Example.mushaf Sample.partial_files
    [Example.root +:+ "mushaf_layout.db"; Example.root +:+ "fonts/common/bismillah.ttf"]
    (Example.root +:+ "fonts/common/surah_names.ttf") _ eq_refl _ eq_refl _)).
  - repeat constructor; vm_compute; eauto.
  - vm_compute. reflexivity.
Defined.

Lemma example_reinstallation_fails :
  (DownloadManager.downloadMushaf Example.env Example.mushaf Example.observer Sample.installed).1
  = Thrown (mkError "UNIQUE constraint failed: installed_mushafs.id").
Proof. vm_compute. reflexivity. Qed.


Lemma example_installation_creates_mushafs :
  fs Example.idle !! "file:///data/mushafs/" = None /\
  fs (DownloadManager.downloadMushaf Example.env404 Example.mushaf Example.observer
        Example.idle).2 !! "file:///data/mushafs/" = Some Directory.
Proof. vm_compute. split; reflexivity. Qed.

Lemma downloadMushaf_touches_only_its_directory_witness :
  let run := DownloadManager.downloadMushaf Example.env404 Example.mushaf Example.observer
               Example.idle in
  fs run.2 !! "file:///data/mushafs/2/mushaf_layout.db"
    = fs Example.idle !! "file:///data/mushafs/2/mushaf_layout.db" /\
  (fs run.2 !! "file:///data/mushafs/" = fs Example.idle !! "file:///data/mushafs/" \/
   fs Example.idle !! "file:///data/mushafs/" = None /\
   fs run.2 !! "file:///data/mushafs/" = Some Directory) /\
  fs run.2 !! "file:///data/mushafs/" = Some Directory.
Proof.
  intros run. split; [|split].
  - apply (downloadMushaf_touches_only_its_directory Example.env404 Example.mushaf
             Example.observer Example.idle "file:///data/mushafs/2/mushaf_layout.db");
      [vm_compute; reflexivity | discriminate].
  - apply (downloadMushaf_touches_only_its_directory Example.env404 Example.mushaf
             Example.observer Example.idle "file:///data/mushafs/");
      [vm_compute; reflexivity | reflexivity].
  - apply example_installation_creates_mushafs.
Defined.


Lemma reinstalling_fails_and_removes_the_files_witness :
  let run := DownloadManager.downloadMushaf Example.env Example.mushaf Example.observer
               Sample.installed in
  run.1 = Thrown (mkError "UNIQUE constraint failed: installed_mushafs.id") /\
  installed_mushafs run.2 = installed_mushafs Sample.installed /\
  is_Some (fs Sample.installed !! "file:///data/mushafs/1/mushaf_layout.db") /\
  fs run.2 !! "file:///data/mushafs/1/mushaf_layout.db" = None.
Proof.
  intros run.
  destruct (reinstalling_fails_and_removes_the_files Example.env Example.mushaf
              Example.observer Sample.installed
              (installed_row Example.env Example.mushaf 1700000005000))
    as (_ & Htable & _ & Hfiles).
  { vm_compute. reflexivity. }
  split; [apply example_reinstallation_fails|]. split; [exact Htable|]. split.
  - vm_compute. eauto.
  - apply Hfiles; [intros p _; reflexivity | reflexivity | vm_compute; reflexivity].
Defined.

Lemma uninstalling_undoes_the_installation_witness :
  let after :=
    DownloadManager.deleteMushaf Example.env 1
      (DownloadManager.downloadMushaf Example.env Example.mushaf Example.observer
         Example.idle).2 in
  installed_mushafs after.2 = installed_mushafs Example.idle /\
  fs Example.idle !! "file:///data/mushafs/" = None /\
  is_Some (fs after.2 !! "file:///data/mushafs/").
Proof.
  intros after.
  destruct (uninstalling_undoes_the_installation Example.env Example.mushaf Example.observer
              Example.idle eq_refl eq_refl eq_refl eq_refl eq_refl example_installation_returns)
    as (_ & _ & _ & Hparent & Htable & _).
  split; [exact Htable|]. split; [reflexivity|]. apply Hparent. reflexivity.
Defined.

Lemma installed_asset_is_complete_witness :
  fonts_found
    (fs (DownloadManager.downloadMushaf Example.env Example.mushaf Example.observer Example.idle).2)
    (DownloadManager.mushafDir Example.env 1) = 604.
Proof.
  refine (proj1 (proj2
    (installed_asset_is_complete Example.env Example.mushaf Example.observer Example.idle _))).
  apply example_installation_returns.
Defined.

Lemma installed_asset_has_its_layout_database_witness :
  (Schema.getMushafDatabase Example.env (DownloadManager.mushafDir Example.env 1)
     (DownloadManager.downloadMushaf Example.env Example.mushaf Example.observer Example.idle).2).1
  = Returned (DownloadManager.mushafDir Example.env 1 +:+ "mushaf_layout.db").
Proof.
  apply (installed_asset_has_its_layout_database Example.env Example.mushaf Example.observer
           Example.idle).
  - apply example_installation_returns.
  - reflexivity.
  - reflexivity.
Defined.

Lemma uninstalled_asset_has_no_layout_database_witness :
  (Schema.getMushafDatabase Example.env (DownloadManager.mushafDir Example.env 1)
     (DownloadManager.deleteMushaf Example.env 1 Example.complete).2).1
  = Thrown (mkError ("Base de données Mushaf introuvable: "
                     +:+ DownloadManager.mushafDir Example.env 1 +:+ "mushaf_layout.db")).
Proof.
  apply (uninstalled_asset_has_no_layout_database Example.env 1 Example.complete);
    reflexivity.
Defined.

Lemma processPageData_keeps_the_reading_order_witness :
  shown_words (QuranAPI.processPageData Sample.page 1) = page_words Sample.page.
Proof.
  apply (processPageData_keeps_the_reading_order Sample.page 1).
  - apply (bool_decide_unpack _). vm_compute. exact I.
  - apply (bool_decide_unpack _). vm_compute. exact I.
Defined.

Lemma handleDownload_installs_witness :
  LibraryScreen.cardActions
    (LibraryScreen.store
       (LibraryScreen.handleDownload Example.env Example.mushaf
          (Example.idle, Sample.screen)).2.2) Example.mushaf
  = LibraryScreen.ReadAndDelete.
Proof.
  refine (proj2 (proj2 (proj2 (proj2 (proj2 (proj2 (proj2
    (handleDownload_installs Example.env Example.mushaf Example.idle Sample.screen _)))))))).
  apply example_installation_returns.
Defined.

Lemma handleDownload_reports_the_failure_witness :
  LibraryScreen.alerts
    (LibraryScreen.handleDownload Example.env404 Example.mushaf
       (Example.idle, Sample.screen)).2.2
  = [LibraryScreen.Alert.mk "Erreur de téléchargement"
       "Échec du téléchargement: https://cdn.qul.tarteel.ai/fonts/qpc_v2_fonts.zip" ["OK"]].
Proof.
  refine (proj1 (proj2 (proj2
    (handleDownload_reports_the_failure Example.env404 Example.mushaf Example.idle
       Sample.screen
       (mkError "Échec du téléchargement: https://cdn.qul.tarteel.ai/fonts/qpc_v2_fonts.zip")
       _)))).
  apply example_installation_fails.
Defined.

Lemma checkInstalledMushafs_adds_the_flagged_assets_witness :
  (LibraryScreen.checkInstalledMushafs Example.env (Example.idle, Sample.screen)).1
  = Returned tt.
Proof.
  refine (proj1 (checkInstalledMushafs_adds_the_flagged_assets Example.env Example.idle
                   Sample.screen _)).
  intros mushaf _. reflexivity.
Defined.

Lemma deleted_asset_stays_out_of_the_list_witness :
  (LibraryScreen.handleDelete_onPress Example.env Example.mushaf
     (Example.complete, Sample.screen)).1 = Returned tt.
Proof.
  exact (proj1 (deleted_asset_stays_out_of_the_list Example.env Example.mushaf
                  Example.complete Sample.screen eq_refl eq_refl eq_refl eq_refl eq_refl
                  (fun _ _ => eq_refl))).
Defined.

Lemma installed_asset_is_found_by_the_refresh_witness :
  LibraryScreen.cardActions
    (LibraryScreen.store
       (LibraryScreen.checkInstalledMushafs Example.env
          ((DownloadManager.downloadMushaf Example.env Example.mushaf Example.observer Example.idle).2,
           Sample.screen)).2.2) Example.mushaf
  = LibraryScreen.ReadAndDelete.
Proof.
  refine (proj2 (installed_asset_is_found_by_the_refresh Example.env Example.mushaf
                   Example.observer Example.idle Sample.screen _ _ _)).
  - constructor.
  - apply example_installation_returns.
  - intros mushaf _. reflexivity.
Defined.

Lemma reader_stays_on_a_page_witness :
  on_a_page (foldl react Sample.reader
               [PressNext; OpenGoToPage; TypePage "700"; ConfirmGoToPage; PressPrevious]).
Proof.
  apply (reader_stays_on_a_page _ Sample.reader).
  exists 42. split; [reflexivity|]. unfold ReaderScreen.TOTAL_PAGES. lia.
Defined.

Lemma saved_page_is_restored_witness :
  ReaderScreen.currentPage
    (ReaderScreen.loadLastPage Example.env
       (ReaderScreen.saveCurrentPage Example.env Example.idle Sample.reader).1
       ReaderScreen.initial).2
  = Int 42.
Proof.
  refine (proj2 (proj2
    (saved_page_is_restored Example.env Example.idle Sample.reader ReaderScreen.initial
       (conj eq_refl eq_refl) _ _)));
    reflexivity.
Defined.

Lemma swipes_ignore_the_page_shown_witness :
  let last_page := ReaderScreen.setCurrentPage (fun _ => Int 604) ReaderScreen.initial in
  ReaderScreen.currentPage (ReaderScreen.onPanResponderRelease 120 0.5 last_page) = Int 605 /\
  ReaderScreen.onPanResponderRelease (-120) (-0.5) Sample.reader = Sample.reader.
Proof.
  intros last_page. split.
  - apply (swipes_ignore_the_page_shown 120 0.5 last_page); [split|..]; reflexivity.
  - apply (swipes_ignore_the_page_shown (-120) (-0.5) Sample.reader); [split|..]; reflexivity.
Defined.
